(** * Lunar mobile app: bazaar marketplace, messaging and seller ratings

    A shallow embedding of the marketplace screens of the application
    (listing grid, listing detail, chat thread, inbox, seller rating,
    new listing) together with the part of the backend schema they talk
    to (tables, defaults, uniqueness constraints, row-level-security
    policies and triggers of the migration script).

    Conventions.
    - A JavaScript string is a [string] holding its UTF-8 bytes.
    - A JavaScript number used as a price is an exact rational [Q]; every
      finite double is one.
    - [T | null] is [option T].
    - An [async] function is a [Script]: a tree of backend requests whose
      continuations are the code after each [await]; synchronous effects
      (navigation, alerts, state setters) are recorded in order. *)

From Stdlib Require Import String Ascii ZArith QArith List Lia Bool Arith DecimalString.
From Stdlib Require Import Sorted Permutation OrderedTypeEx.
Import ListNotations.
Open Scope string_scope.
Open Scope nat_scope.

(* ================================================================== *)
(** ** JavaScript built-ins used by the screens *)
(* ================================================================== *)

Module JS.

(** [bytes l] is the string whose bytes are the numbers of [l]. *)
Fixpoint bytes (l : list nat) : string :=
  match l with
  | [] => EmptyString
  | b :: l' => String (ascii_of_nat b) (bytes l')
  end.

Fixpoint rev_append (s acc : string) : string :=
  match s with
  | EmptyString => acc
  | String c s' => rev_append s' (String c acc)
  end.

Definition reverse (s : string) : string := rev_append s EmptyString.

(** ECMAScript WhiteSpace and LineTerminator code points, by the length
    of their UTF-8 encoding.
    One byte: TAB, LF, VT, FF, CR, SPACE. *)
Definition ws1 (c1 : ascii) : bool :=
  let n := nat_of_ascii c1 in
  ((9 <=? n) && (n <=? 13)) || (n =? 32).

(** Two bytes: U+00A0 (C2 A0). *)
Definition ws2 (c1 c2 : ascii) : bool :=
  (nat_of_ascii c1 =? 194) && (nat_of_ascii c2 =? 160).

(** Three bytes: U+1680, U+2000..U+200A, U+2028, U+2029, U+202F, U+205F,
    U+3000, U+FEFF. *)
Definition ws3 (c1 c2 c3 : ascii) : bool :=
  let a := nat_of_ascii c1 in
  let b := nat_of_ascii c2 in
  let c := nat_of_ascii c3 in
  ((a =? 225) && (b =? 154) && (c =? 128))
  || ((a =? 226) && (b =? 128)
      && (((128 <=? c) && (c <=? 138)) || (c =? 168) || (c =? 169) || (c =? 175)))
  || ((a =? 226) && (b =? 129) && (c =? 159))
  || ((a =? 227) && (b =? 128) && (c =? 128))
  || ((a =? 239) && (b =? 187) && (c =? 191)).

(** A string made of white-space code points only. *)
Inductive Blank : string -> Prop :=
| blank_empty : Blank ""
| blank_1 c s : ws1 c = true -> Blank s -> Blank (String c s)
| blank_2 c1 c2 s :
    ws1 c1 = false -> ws2 c1 c2 = true -> Blank s ->
    Blank (String c1 (String c2 s))
| blank_3 c1 c2 c3 s :
    ws1 c1 = false -> ws2 c1 c2 = false -> ws3 c1 c2 c3 = true ->
    Blank s -> Blank (String c1 (String c2 (String c3 s))).

(** [String.prototype.trimStart]. *)
Fixpoint trimStart (s : string) : string :=
  match s with
  | EmptyString => s
  | String c1 s1 =>
      if ws1 c1 then trimStart s1
      else match s1 with
           | EmptyString => s
           | String c2 s2 =>
               if ws2 c1 c2 then trimStart s2
               else match s2 with
                    | EmptyString => s
                    | String c3 s3 =>
                        if ws3 c1 c2 c3 then trimStart s3 else s
                    end
           end
  end.

(** The same scan over the reversed string: the bytes of a code point
    come last byte first. *)
Fixpoint trimStartRev (s : string) : string :=
  match s with
  | EmptyString => s
  | String c1 s1 =>
      if ws1 c1 then trimStartRev s1
      else match s1 with
           | EmptyString => s
           | String c2 s2 =>
               if ws2 c2 c1 then trimStartRev s2
               else match s2 with
                    | EmptyString => s
                    | String c3 s3 =>
                        if ws3 c3 c2 c1 then trimStartRev s3 else s
                    end
           end
  end.

Definition trimEnd (s : string) : string := reverse (trimStartRev (reverse s)).

(** [String.prototype.trim]. *)
Definition trim (s : string) : string := trimEnd (trimStart s).

(** JavaScript truthiness of a string: the empty string is falsy. *)
Definition truthy (s : string) : bool :=
  match s with EmptyString => false | _ => true end.

(** [a || b] on a string and a nullable string: [reviewText.trim() || null]. *)
Definition or_null (s : string) : option string :=
  if truthy s then Some s else None.

(** [a ?? b] on a nullable string: [(post.description ?? '')]. *)
Definition nullish (o : option string) (d : string) : string :=
  match o with Some s => s | None => d end.

(** [String.prototype.toLowerCase] on the ASCII letters; bytes of other
    code points are kept. *)
Definition lower_ascii (c : ascii) : ascii :=
  let n := nat_of_ascii c in
  if (65 <=? n) && (n <=? 90) then ascii_of_nat (n + 32) else c.

Fixpoint toLowerCase (s : string) : string :=
  match s with
  | EmptyString => EmptyString
  | String c s' => String (lower_ascii c) (toLowerCase s')
  end.

(** [String.prototype.includes]: [q] occurs in [s] at some position. *)
Fixpoint includes (s q : string) : bool :=
  String.prefix q s
  || match s with
     | EmptyString => false
     | String _ s' => includes s' q
     end.

(** Decimal digits of a natural number, ["0"] for zero. *)
Definition digits (n : N) : string := NilZero.string_of_uint (N.to_uint n).

Fixpoint zeros (k : nat) : string :=
  match k with O => EmptyString | S k' => String "0" (zeros k') end.

(** [Number.prototype.toFixed(f)] for a finite number of magnitude below
    1e21: with [x] the absolute value, [n] is the integer for which
    [n / 10^f - x] is closest to zero, the larger one on a tie; its
    digits are padded to [f + 1] and the point is put before the last [f];
    a negative number gets a leading minus sign. *)
Definition toFixed_n (x : Q) (f : nat) : N :=
  let p := Z.abs (Qnum x) in
  let q := Zpos (Qden x) in
  Z.to_N ((2 * p * 10 ^ Z.of_nat f + q) / (2 * q)).

Definition toFixed (x : Q) (f : nat) : string :=
  let sign := if (Qnum x <? 0)%Z then "-" else "" in
  let m := digits (toFixed_n x f) in
  let m :=
    match f with
    | O => m
    | _ =>
        let k := String.length m in
        let m := if (k <=? f)%nat then zeros (f + 1 - k) ++ m else m in
        let k := String.length m in
        substring 0 (k - f) m ++ "." ++ substring (k - f) f m
    end in
  sign ++ m.

(** [s.split(sep)[0]]: what stands before the first [sep], all of [s]
    when it has none. *)
Fixpoint before_first (sep : ascii) (s : string) : string :=
  match s with
  | EmptyString => EmptyString
  | String c s' =>
      if Ascii.eqb c sep then EmptyString else String c (before_first sep s')
  end.

(** An integer inside a template literal. *)
Definition num (z : Z) : string :=
  if (z <? 0)%Z then "-" ++ digits (Z.to_N (- z)) else digits (Z.to_N z).

(** [String.prototype.split] at [/\s+/]: the pieces between the runs of
    white space; a run at either end leaves an empty piece there.
    [in_run] says that the code point before was white space. *)
Fixpoint split_ws_from (in_run : bool) (s : string) : list string :=
  let piece c rest :=
    match rest with
    | [] => [String c EmptyString]
    | t :: ts => String c t :: ts
    end in
  let gap rest := if in_run then rest else EmptyString :: rest in
  match s with
  | EmptyString => [EmptyString]
  | String c1 s1 =>
      if ws1 c1 then gap (split_ws_from true s1)
      else match s1 with
           | EmptyString => piece c1 (split_ws_from false s1)
           | String c2 s2 =>
               if ws2 c1 c2 then gap (split_ws_from true s2)
               else match s2 with
                    | EmptyString => piece c1 (split_ws_from false s1)
                    | String c3 s3 =>
                        if ws3 c1 c2 c3 then gap (split_ws_from true s3)
                        else piece c1 (split_ws_from false s1)
                    end
           end
  end.

Definition split_ws (s : string) : list string := split_ws_from false s.

(** [Array.prototype.join]. *)
Fixpoint join (sep : string) (l : list string) : string :=
  match l with
  | [] => EmptyString
  | [x] => x
  | x :: l' => x ++ sep ++ join sep l'
  end.

End JS.

(* ================================================================== *)
(** ** Row types ([lib/types.ts]) *)
(* ================================================================== *)

Inductive PostStatus := active | sold.

Definition PostStatus_eqb (a b : PostStatus) : bool :=
  match a, b with
  | active, active | sold, sold => true
  | _, _ => false
  end.

Record BazaarPost := {
  post_id_ : string;
  post_user_id : string;
  post_title : string;
  post_description : option string;
  post_price : option Q;
  post_currency : option string;
  post_photo_url : option string;
  post_city : option string;
  post_contact : option string;
  post_contact_email : option string;
  post_contact_phone : option string;
  post_location : option string;
  post_status : PostStatus;
  post_sold_at : option string;
  post_created_at : string
}.

Record BazaarConversation := {
  conv_id : string;
  conv_post_id : string;
  conv_buyer_id : string;
  conv_seller_id : string;
  conv_last_message_at : string;
  conv_created_at : string
}.

Record BazaarMessage := {
  msg_id : string;
  msg_conversation_id : string;
  msg_sender_id : string;
  msg_content : string;
  msg_is_read : bool;
  msg_created_at : string
}.

Record SellerRating := {
  rating_id : string;
  rating_seller_id : string;
  rating_buyer_id : string;
  rating_post_id : option string;
  rating_rating : Z;
  rating_review_text : option string
}.

Record Profile := {
  profile_id : string;
  profile_first_name : option string;
  profile_last_name : option string;
  profile_seller_rating : Q;
  profile_seller_rating_count : Z
}.

(** The signed-in user of [useSession]. *)
Record User := { user_id : string }.

(** [id === user?.id] *)
Definition opt_user_is (user : option User) (id : string) : bool :=
  match user with
  | Some u => (id =? user_id u)%string
  | None => false
  end.

(* ================================================================== *)
(** ** Helpers of [lib/types.ts] *)
(* ================================================================== *)

Module Types.

(** Truthiness of a nullable string. *)
Definition present (o : option string) : bool :=
  match o with Some s => JS.truthy s | None => false end.

(** Helper to get a display name from a profile.  Falls back to email
    username or 'Anonymous' if no name is set. *)
Definition getDisplayName (profile : option Profile) (email : option string)
    : string :=
  let first := match profile with Some p => profile_first_name p | None => None end in
  let last := match profile with Some p => profile_last_name p | None => None end in
  if present first || present last
  then JS.trim (JS.nullish first "" ++ " " ++ JS.nullish last "")
  else if present email
       then JS.before_first "@" (JS.nullish email "")
       else "Anonymous".

End Types.

(* ================================================================== *)
(** ** Marketplace grid ([app/(tabs)/bazaar.tsx]) *)
(* ================================================================== *)

Module BazaarScreen.

(** The [symbols] record of [formatPrice], as its own properties (the
    names every object inherits, such as [constructor], are left out). *)
Definition symbols : list (string * string) :=
  [ ("CAD", "C$"); ("USD", "$"); ("EUR", JS.bytes [226; 130; 172]) ].

Fixpoint lookup (k : string) (l : list (string * string)) : option string :=
  match l with
  | [] => None
  | (k', v) :: l' => if String.eqb k k' then Some v else lookup k l'
  end.

(** [symbols[currency] || '$'] *)
Definition symbol_of (currency : string) : string :=
  match lookup currency symbols with
  | Some v => if JS.truthy v then v else "$"
  | None => "$"
  end.

Definition formatPrice (price : option Q) (currency : option string) : string :=
  match price, currency with
  | None, _ => "Contact for price"
  | Some p, None => "Contact for price"
  | Some p, Some c =>
      if negb (JS.truthy c) then "Contact for price"
      else symbol_of c ++ JS.toFixed p 0
  end.

Inductive ListingFilter := all | mine.

(** The search predicate of [filteredPosts]. *)
Definition matches (query : string) (post : BazaarPost) : bool :=
  JS.includes (JS.toLowerCase (post_title post)) query
  || JS.includes (JS.toLowerCase (JS.nullish (post_description post) "")) query
  || JS.includes (JS.toLowerCase (JS.nullish (post_city post) "")) query.

Definition filteredPosts (posts : list BazaarPost) (searchQuery : string)
    (listingFilter : ListingFilter) (user : option User) : list BazaarPost :=
  let query := JS.toLowerCase (JS.trim searchQuery) in
  let scoped :=
    match listingFilter, user with
    | mine, Some user =>
        (* My Listings: show all posts (including sold) *)
        filter (fun post => (post_user_id post =? user_id user)%string) posts
    | _, _ =>
        (* All Listings: only show active posts *)
        filter (fun post => negb (PostStatus_eqb (post_status post) sold)) posts
    end in
  if negb (JS.truthy query) then scoped
  else filter (matches query) scoped.

(** Helper to format relative time.  [now] and [date] are the two
    [getTime()] readings in whole milliseconds, [date] being [None] for an
    invalid date (NaN, which fails every comparison); [localeDate] is what
    [date.toLocaleDateString()] gives. *)
Definition formatRelativeTime (now : Z) (date : option Z) (localeDate : string)
    : string :=
  match date with
  | None => localeDate
  | Some date =>
      let diffMs := (now - date)%Z in
      let diffMins := (diffMs / (1000 * 60))%Z in
      let diffHours := (diffMs / (1000 * 60 * 60))%Z in
      let diffDays := (diffMs / (1000 * 60 * 60 * 24))%Z in
      if (diffMins <? 1)%Z then "Just now"
      else if (diffMins <? 60)%Z then JS.num diffMins ++ "m ago"
      else if (diffHours <? 24)%Z then JS.num diffHours ++ "h ago"
      else if (diffDays <? 7)%Z then JS.num diffDays ++ "d ago"
      else if (diffDays <? 30)%Z then JS.num (diffDays / 7) ++ "w ago"
      else localeDate
  end.

End BazaarScreen.

(* ================================================================== *)
(** ** The backend: tables, constraints, policies and triggers
       (the migration script) *)
(* ================================================================== *)

Module Backend.

Inductive PgError :=
| unique_violation (constraint : string)
| foreign_key_violation (constraint : string)
| check_violation (constraint : string)
| row_security_violation (table : string)
| not_a_single_row
| request_failed.

Definition message (e : PgError) : string :=
  match e with
  | unique_violation c =>
      "duplicate key value violates unique constraint " ++ c
  | foreign_key_violation c =>
      "insert or update violates foreign key constraint " ++ c
  | check_violation c =>
      "new row violates check constraint " ++ c
  | row_security_violation t =>
      "new row violates row-level security policy for table " ++ t
  | not_a_single_row =>
      "JSON object requested, multiple (or no) rows returned"
  | request_failed => "Network request failed"
  end.

(** The [{ data, error }] pair every call resolves to. *)
Record Response (T : Type) := mkResponse {
  data : option T;
  error : option PgError
}.
Arguments mkResponse {T}.
Arguments data {T}.
Arguments error {T}.

Definition ok {T} (x : T) : Response T := mkResponse (Some x) None.
Definition failed {T} (e : PgError) : Response T := mkResponse None (Some e).

Record DB := {
  bazaar_posts : list BazaarPost;
  bazaar_conversations : list BazaarConversation;
  bazaar_messages : list BazaarMessage;
  seller_ratings : list SellerRating;
  profiles : list Profile
}.

Definition with_posts (l : list BazaarPost) (db : DB) : DB :=
  {| bazaar_posts := l;
     bazaar_conversations := bazaar_conversations db;
     bazaar_messages := bazaar_messages db;
     seller_ratings := seller_ratings db;
     profiles := profiles db |}.

Definition with_conversations (l : list BazaarConversation) (db : DB) : DB :=
  {| bazaar_posts := bazaar_posts db;
     bazaar_conversations := l;
     bazaar_messages := bazaar_messages db;
     seller_ratings := seller_ratings db;
     profiles := profiles db |}.

Definition with_messages (l : list BazaarMessage) (db : DB) : DB :=
  {| bazaar_posts := bazaar_posts db;
     bazaar_conversations := bazaar_conversations db;
     bazaar_messages := l;
     seller_ratings := seller_ratings db;
     profiles := profiles db |}.

Definition with_ratings (l : list SellerRating) (db : DB) : DB :=
  {| bazaar_posts := bazaar_posts db;
     bazaar_conversations := bazaar_conversations db;
     bazaar_messages := bazaar_messages db;
     seller_ratings := l;
     profiles := profiles db |}.

Definition with_profiles (l : list Profile) (db : DB) : DB :=
  {| bazaar_posts := bazaar_posts db;
     bazaar_conversations := bazaar_conversations db;
     bazaar_messages := bazaar_messages db;
     seller_ratings := seller_ratings db;
     profiles := l |}.

(** What the server contributes to one request: the writes of other
    clients that reach the tables before it is served, whether the
    request gets through, and the values of [gen_random_uuid()] and
    [now()] should it insert a row. *)
Record Turn := {
  interfere : DB -> DB;
  network_ok : bool;
  uuid : string;
  now : string
}.

Definition World := nat -> Turn.

(** *** Row-level security

    A table with row security enabled and no policy for a command
    denies that command.  Table privileges (the GRANT statements of the
    script) are not modelled: every command is taken as granted, and
    what decides is the policies. *)
Record Policies (Row : Type) := {
  for_select : option (string -> Row -> bool);
  for_insert : option (string -> Row -> bool);
  for_update : option (string -> Row -> bool)
}.
Arguments for_select {Row}.
Arguments for_insert {Row}.
Arguments for_update {Row}.

Definition allowed {Row} (policy : option (string -> Row -> bool))
    (auth_uid : option string) (r : Row) : bool :=
  match policy, auth_uid with
  | Some p, Some uid => p uid r
  | Some p, None => false
  | None, _ => false
  end.

Definition opt_eqb (a : option string) (b : string) : bool :=
  match a with Some x => (x =? b)%string | None => false end.

Definition participant (db : DB) (uid conversation_id : string) : bool :=
  existsb (fun c => (conv_id c =? conversation_id)%string
                    && ((conv_buyer_id c =? uid)%string
                        || (conv_seller_id c =? uid)%string))
          (bazaar_conversations db).

(** "Users can view own conversations", "Buyers can create conversations". *)
Definition conversation_policies : Policies BazaarConversation :=
  {| for_select := Some (fun uid c => (uid =? conv_buyer_id c)%string
                                      || (uid =? conv_seller_id c)%string);
     for_insert := Some (fun uid c => (uid =? conv_buyer_id c)%string);
     for_update := None |}.

(** "Participants can view messages", "Participants can send messages",
    "Recipients can mark as read". *)
Definition message_policies (db : DB) : Policies BazaarMessage :=
  {| for_select := Some (fun uid m => participant db uid (msg_conversation_id m));
     for_insert := Some (fun uid m => (uid =? msg_sender_id m)%string
                                      && participant db uid (msg_conversation_id m));
     for_update := Some (fun uid m => participant db uid (msg_conversation_id m)) |}.

(** "Ratings are public", "Buyers can rate"; the script has no policy
    for UPDATE on [seller_ratings]. *)
Definition rating_policies : Policies SellerRating :=
  {| for_select := Some (fun _ _ => true);
     for_insert := Some (fun uid r => (uid =? rating_buyer_id r)%string);
     for_update := None |}.

(** *** Trigger [update_seller_rating] *)

Definition ratings_of (seller : string) (l : list SellerRating) : list SellerRating :=
  filter (fun r => (rating_seller_id r =? seller)%string) l.

Definition sum_ratings (l : list SellerRating) : Z :=
  fold_right (fun r acc => (rating_rating r + acc)%Z) 0%Z l.

(** [COALESCE(ROUND(AVG(rating)::numeric, 1), 0)]: one decimal, halves
    away from zero. *)
Definition round1_avg (l : list SellerRating) : Q :=
  match l with
  | [] => 0%Q
  | _ =>
      let n := Z.of_nat (List.length l) in
      let s := sum_ratings l in
      let tenths := (Z.sgn s * ((2 * 10 * Z.abs s + n) / (2 * n)))%Z in
      Qred (tenths # 10)
  end.

Definition update_seller_rating (target_seller_id : string) (db : DB) : DB :=
  let rs := ratings_of target_seller_id (seller_ratings db) in
  with_profiles
    (map (fun p =>
            if (profile_id p =? target_seller_id)%string
            then {| profile_id := profile_id p;
                    profile_first_name := profile_first_name p;
                    profile_last_name := profile_last_name p;
                    profile_seller_rating := round1_avg rs;
                    profile_seller_rating_count := Z.of_nat (List.length rs) |}
            else p)
         (profiles db))
    db.

(** *** Trigger [update_conversation_timestamp] *)
Definition update_conversation_timestamp (m : BazaarMessage) (db : DB) : DB :=
  with_conversations
    (map (fun c =>
            if (conv_id c =? msg_conversation_id m)%string
            then {| conv_id := conv_id c;
                    conv_post_id := conv_post_id c;
                    conv_buyer_id := conv_buyer_id c;
                    conv_seller_id := conv_seller_id c;
                    conv_last_message_at := msg_created_at m;
                    conv_created_at := conv_created_at c |}
            else c)
         (bazaar_conversations db))
    db.

(** *** Requests

    One constructor per query the screens build; the index is the type
    of [data] (of [count] for a counting query). *)

(** The object handed to [from('bazaar_posts').insert]; [status] is a key
    the caller may leave out. *)
Record PostPayload := {
  pp_user_id : string;
  pp_title : string;
  pp_description : option string;
  pp_city : option string;
  pp_contact : string;
  pp_price : Q;
  pp_currency : string;
  pp_photo_url : option string;
  pp_status : option PostStatus
}.

(** The object handed to [from('seller_ratings').upsert]. *)
Record RatingPayload := {
  rp_seller_id : string;
  rp_buyer_id : string;
  rp_post_id : string;
  rp_rating : Z;
  rp_review_text : option string
}.

Inductive Req : Type -> Type :=
(* bazaar_conversations *)
| SelectConversationId (post_id buyer_id : string) : Req string
| InsertConversation (post_id buyer_id seller_id : string) : Req BazaarConversation
| SelectConversation (id : string) : Req BazaarConversation
(* bazaar_messages *)
| SelectMessages (conversation_id : string) : Req (list BazaarMessage)
| UpdateMessagesRead (conversation_id not_sender : string) : Req unit
| UpdateMessageRead (id : string) : Req unit
| InsertMessage (conversation_id sender_id content : string) : Req unit
| CountUnread (conversation_id not_sender : string) : Req nat
(* bazaar_posts *)
| SelectPost (id : string) : Req BazaarPost
| InsertPost (payload : PostPayload) : Req unit
| UpdatePostSold (id sold_at : string) : Req unit
| DeletePost (id : string) : Req unit
(* profiles *)
| SelectProfile (id : string) : Req Profile
(* seller_ratings *)
| UpsertRating (payload : RatingPayload) : Req unit
(* storage bucket bazaar-photos *)
| UploadPhoto (file_name : string) : Req string.

(** [data: null, error: null]: a write without [.select()]. *)
Definition done : Response unit := mkResponse None None.

(** [.single()] *)
Definition single {Row T} (f : Row -> T) (rows : list Row) : Response T :=
  match rows with
  | [r] => ok (f r)
  | _ => failed not_a_single_row
  end.

(** [.order('created_at', { ascending: true })] on timestamps written in
    one format, which then compare as strings. *)
Fixpoint insert_by_created_at (m : BazaarMessage) (l : list BazaarMessage) :=
  match l with
  | [] => [m]
  | x :: l' =>
      if (msg_created_at m <? msg_created_at x)%string
      then m :: l
      else x :: insert_by_created_at m l'
  end.

Definition order_by_created_at (l : list BazaarMessage) : list BazaarMessage :=
  fold_left (fun acc m => insert_by_created_at m acc) l [].

Definition set_is_read (m : BazaarMessage) : BazaarMessage :=
  {| msg_id := msg_id m;
     msg_conversation_id := msg_conversation_id m;
     msg_sender_id := msg_sender_id m;
     msg_content := msg_content m;
     msg_is_read := true;
     msg_created_at := msg_created_at m |}.

Definition set_sold (sold_at : string) (p : BazaarPost) : BazaarPost :=
  {| post_id_ := post_id_ p;
     post_user_id := post_user_id p;
     post_title := post_title p;
     post_description := post_description p;
     post_price := post_price p;
     post_currency := post_currency p;
     post_photo_url := post_photo_url p;
     post_city := post_city p;
     post_contact := post_contact p;
     post_contact_email := post_contact_email p;
     post_contact_phone := post_contact_phone p;
     post_location := post_location p;
     post_status := sold;
     post_sold_at := Some sold_at;
     post_created_at := post_created_at p |}.

Definition update_where {Row} (p : Row -> bool) (f : Row -> Row)
    (l : list Row) : list Row :=
  map (fun r => if p r then f r else r) l.

(** Visible rows of [bazaar_messages] for the caller. *)
Definition visible_messages (auth_uid : option string) (db : DB) :=
  filter (allowed (for_select (message_policies db)) auth_uid)
         (bazaar_messages db).

(** The filter of the bulk mark-read update and of the unread count:
    [conversation_id = c], [sender_id <> u], [is_read = false]. *)
Definition unread_inbound (c u : string) (m : BazaarMessage) : bool :=
  (msg_conversation_id m =? c)%string
  && negb (msg_sender_id m =? u)%string
  && negb (msg_is_read m).

Definition has_post (id : string) (db : DB) : bool :=
  existsb (fun p => (post_id_ p =? id)%string) (bazaar_posts db).

Definition same_pair (post_id buyer_id : string) (c : BazaarConversation) : bool :=
  (conv_post_id c =? post_id)%string && (conv_buyer_id c =? buyer_id)%string.

(** Rows of [bazaar_conversations] for a (post, buyer) pair. *)
Definition pair_rows (post_id buyer_id : string) (db : DB) : list BazaarConversation :=
  filter (same_pair post_id buyer_id) (bazaar_conversations db).

Definition insert_conversation (auth_uid : option string) (t : Turn)
    (post_id buyer_id seller_id : string) (db : DB)
    : DB * Response BazaarConversation :=
  let row := {| conv_id := uuid t;
                conv_post_id := post_id;
                conv_buyer_id := buyer_id;
                conv_seller_id := seller_id;
                conv_last_message_at := now t;
                conv_created_at := now t |} in
  if negb (allowed (for_insert conversation_policies) auth_uid row)
  then (db, failed (row_security_violation "bazaar_conversations"))
  else if existsb (fun c => (conv_id c =? uuid t)%string) (bazaar_conversations db)
  then (db, failed (unique_violation "bazaar_conversations_pkey"))
  else if existsb (same_pair post_id buyer_id) (bazaar_conversations db)
  then (db, failed (unique_violation "bazaar_conversations_post_id_buyer_id_key"))
  else if negb (has_post post_id db)
  then (db, failed (foreign_key_violation "bazaar_conversations_post_id_fkey"))
  else (with_conversations (bazaar_conversations db ++ [row])%list db, ok row).

Definition insert_message (auth_uid : option string) (t : Turn)
    (conversation_id sender_id content : string) (db : DB)
    : DB * Response unit :=
  let row := {| msg_id := uuid t;
                msg_conversation_id := conversation_id;
                msg_sender_id := sender_id;
                msg_content := content;
                msg_is_read := false;
                msg_created_at := now t |} in
  if negb (allowed (for_insert (message_policies db)) auth_uid row)
  then (db, failed (row_security_violation "bazaar_messages"))
  else if existsb (fun m => (msg_id m =? uuid t)%string) (bazaar_messages db)
  then (db, failed (unique_violation "bazaar_messages_pkey"))
  else (update_conversation_timestamp row
          (with_messages (bazaar_messages db ++ [row])%list db),
        done).

(** Column defaults of [bazaar_posts]: [status] is ['active'] when the
    payload has no such key, [sold_at] is null. *)
Definition insert_post (t : Turn) (p : PostPayload) (db : DB) : DB * Response unit :=
  let row := {| post_id_ := uuid t;
                post_user_id := pp_user_id p;
                post_title := pp_title p;
                post_description := pp_description p;
                post_price := Some (pp_price p);
                post_currency := Some (pp_currency p);
                post_photo_url := pp_photo_url p;
                post_city := pp_city p;
                post_contact := Some (pp_contact p);
                post_contact_email := None;
                post_contact_phone := None;
                post_location := None;
                post_status := match pp_status p with
                               | Some s => s
                               | None => active
                               end;
                post_sold_at := None;
                post_created_at := now t |} in
  if existsb (fun q => (post_id_ q =? uuid t)%string) (bazaar_posts db)
  then (db, failed (unique_violation "bazaar_posts_pkey"))
  else (with_posts (bazaar_posts db ++ [row])%list db, done).

(** [ON DELETE CASCADE] of conversations and their messages,
    [ON DELETE SET NULL] of [seller_ratings.post_id] (an update of the
    rating row, so the rating trigger runs for its seller).  The script
    defines no policy for [bazaar_posts]; the table is served without
    row security. *)
Definition clear_post (r : SellerRating) : SellerRating :=
  {| rating_id := rating_id r;
     rating_seller_id := rating_seller_id r;
     rating_buyer_id := rating_buyer_id r;
     rating_post_id := None;
     rating_rating := rating_rating r;
     rating_review_text := rating_review_text r |}.

Definition delete_post (id : string) (db : DB) : DB :=
  let gone := filter (fun c => (conv_post_id c =? id)%string)
                     (bazaar_conversations db) in
  let is_gone m :=
    existsb (fun c => (conv_id c =? msg_conversation_id m)%string) gone in
  let touched := filter (fun r => opt_eqb (rating_post_id r) id)
                        (seller_ratings db) in
  let db1 :=
    with_ratings
      (update_where (fun r => opt_eqb (rating_post_id r) id) clear_post
                    (seller_ratings db))
      (with_messages (filter (fun m => negb (is_gone m)) (bazaar_messages db))
         (with_conversations
            (filter (fun c => negb (conv_post_id c =? id)%string)
                    (bazaar_conversations db))
            (with_posts
               (filter (fun p => negb (post_id_ p =? id)%string)
                       (bazaar_posts db))
               db))) in
  fold_left (fun d r => update_seller_rating (rating_seller_id r) d) touched db1.

(** [INSERT ... ON CONFLICT (buyer_id, post_id) DO UPDATE] under row
    security.  The proposed row must pass the INSERT check and the
    rating CHECK.  With a row of the same (buyer, post) present the
    statement takes the UPDATE path: that row must pass an UPDATE policy,
    else the statement fails; the payload's columns then replace the
    row's, its [id] stays.  Otherwise the row is inserted.  The rating
    trigger runs after either write. *)
Definition conflicts (p : RatingPayload) (r : SellerRating) : bool :=
  (rating_buyer_id r =? rp_buyer_id p)%string
  && opt_eqb (rating_post_id r) (rp_post_id p).

Definition merge_rating (p : RatingPayload) (r : SellerRating) : SellerRating :=
  {| rating_id := rating_id r;
     rating_seller_id := rp_seller_id p;
     rating_buyer_id := rp_buyer_id p;
     rating_post_id := Some (rp_post_id p);
     rating_rating := rp_rating p;
     rating_review_text := rp_review_text p |}.

Definition upsert_rating (pol : Policies SellerRating)
    (auth_uid : option string) (t : Turn) (p : RatingPayload) (db : DB)
    : DB * Response unit :=
  let row := {| rating_id := uuid t;
                rating_seller_id := rp_seller_id p;
                rating_buyer_id := rp_buyer_id p;
                rating_post_id := Some (rp_post_id p);
                rating_rating := rp_rating p;
                rating_review_text := rp_review_text p |} in
  if negb (allowed (for_insert pol) auth_uid row)
  then (db, failed (row_security_violation "seller_ratings"))
  else if negb ((1 <=? rp_rating p)%Z && (rp_rating p <=? 5)%Z)
  then (db, failed (check_violation "seller_ratings_rating_check"))
  else if existsb (conflicts p) (seller_ratings db)
  then
    if forallb (fun r => negb (conflicts p r) || allowed (for_update pol) auth_uid r)
               (seller_ratings db)
    then
      if negb (has_post (rp_post_id p) db)
      then (db, failed (foreign_key_violation "seller_ratings_post_id_fkey"))
      else (update_seller_rating (rp_seller_id p)
              (with_ratings
                 (update_where (conflicts p) (merge_rating p) (seller_ratings db))
                 db),
            done)
    else (db, failed (row_security_violation "seller_ratings"))
  else if existsb (fun r => (rating_id r =? uuid t)%string) (seller_ratings db)
  then (db, failed (unique_violation "seller_ratings_pkey"))
  else if negb (has_post (rp_post_id p) db)
  then (db, failed (foreign_key_violation "seller_ratings_post_id_fkey"))
  else (update_seller_rating (rp_seller_id p)
          (with_ratings (seller_ratings db ++ [row])%list db),
        done).

(** [update({ is_read: true })] under the three filters of the bulk
    mark-read, on the rows the caller may see and update. *)
Definition mark_read (auth_uid : option string) (c u : string) (db : DB) : DB :=
  with_messages
    (update_where
       (fun m => allowed (for_select (message_policies db)) auth_uid m
                 && allowed (for_update (message_policies db)) auth_uid m
                 && unread_inbound c u m)
       set_is_read (bazaar_messages db))
    db.

(** [select('*', { count: 'exact', head: true })] under the three filters
    of the unread count. *)
Definition count_unread (auth_uid : option string) (c u : string) (db : DB) : nat :=
  List.length (filter (unread_inbound c u) (visible_messages auth_uid db)).

(** Every row of [bazaar_posts] with identifier [id], if any, is sold. *)
Definition sold_or_gone (id : string) (db : DB) : Prop :=
  forall p, In p (bazaar_posts db) -> post_id_ p = id -> post_status p = sold.

(** *** Serving one request

    [auth_uid] is [auth.uid()], the identity of the session that sends
    the request. *)
Definition serve (auth_uid : option string) (t : Turn) {T} (r : Req T)
    (db0 : DB) : DB * Response T :=
  let db := interfere t db0 in
  if negb (network_ok t) then (db, failed request_failed)
  else
    match r in Req T return DB * Response T with
    | SelectConversationId post_id buyer_id =>
        (db, single conv_id
               (filter (fun c =>
                          allowed (for_select conversation_policies) auth_uid c
                          && same_pair post_id buyer_id c)
                       (bazaar_conversations db)))
    | InsertConversation post_id buyer_id seller_id =>
        insert_conversation auth_uid t post_id buyer_id seller_id db
    | SelectConversation id =>
        (db, single (fun c => c)
               (filter (fun c =>
                          allowed (for_select conversation_policies) auth_uid c
                          && (conv_id c =? id)%string)
                       (bazaar_conversations db)))
    | SelectMessages conversation_id =>
        (db, ok (order_by_created_at
                   (filter (fun m => (msg_conversation_id m =? conversation_id)%string)
                           (visible_messages auth_uid db))))
    | UpdateMessagesRead conversation_id not_sender =>
        (mark_read auth_uid conversation_id not_sender db, done)
    | UpdateMessageRead id =>
        (with_messages
           (update_where
              (fun m => allowed (for_select (message_policies db)) auth_uid m
                        && allowed (for_update (message_policies db)) auth_uid m
                        && (msg_id m =? id)%string)
              set_is_read (bazaar_messages db))
           db,
         done)
    | InsertMessage conversation_id sender_id content =>
        insert_message auth_uid t conversation_id sender_id content db
    | CountUnread conversation_id not_sender =>
        (db, ok (count_unread auth_uid conversation_id not_sender db))
    | SelectPost id =>
        (db, single (fun p => p)
               (filter (fun p => (post_id_ p =? id)%string) (bazaar_posts db)))
    | InsertPost payload => insert_post t payload db
    | UpdatePostSold id sold_at =>
        (with_posts
           (update_where (fun p => (post_id_ p =? id)%string) (set_sold sold_at)
                         (bazaar_posts db))
           db,
         done)
    | DeletePost id => (delete_post id db, done)
    | SelectProfile id =>
        (db, single (fun p => p)
               (filter (fun p => (profile_id p =? id)%string) (profiles db)))
    | UpsertRating payload => upsert_rating rating_policies auth_uid t payload db
    | UploadPhoto file_name => (db, ok ("bazaar-photos/" ++ file_name))
    end.

(** The row [insert_message] adds. *)
Definition sent_row (id c uid content at_ : string) : BazaarMessage :=
  {| msg_id := id; msg_conversation_id := c; msg_sender_id := uid;
     msg_content := content; msg_is_read := false; msg_created_at := at_ |}.

(** [a] was not created after [b]. *)
Definition not_after (a b : BazaarMessage) : Prop :=
  (msg_created_at b <? msg_created_at a)%string = false.

(** [UNIQUE(post_id, buyer_id)] on [bazaar_conversations]. *)
Definition one_conversation_per_pair (db : DB) : Prop :=
  forall post_id buyer_id, List.length (pair_rows post_id buyer_id db) <= 1.

(** Rows of [seller_ratings] of a buyer for a post. *)
Definition rating_rows (buyer_id post_id : string) (db : DB) : list SellerRating :=
  filter (fun r => (rating_buyer_id r =? buyer_id)%string
                   && opt_eqb (rating_post_id r) post_id)
         (seller_ratings db).

(** [UNIQUE(buyer_id, post_id)] on [seller_ratings], for the rows that
    have a post. *)
Definition one_rating_per_pair (db : DB) : Prop :=
  forall buyer_id post_id, List.length (rating_rows buyer_id post_id db) <= 1.

(** [CHECK (rating >= 1 AND rating <= 5)] *)
Definition ratings_in_range (l : list SellerRating) : Prop :=
  forall r, In r l -> (1 <= rating_rating r <= 5)%Z.

End Backend.

(* ================================================================== *)
(** ** Asynchronous handlers *)
(* ================================================================== *)

(** An [async] function over synchronous effects [E]: [Await r k] sends
    request [r] and continues with [k] on its response; [Do e k] performs
    [e] and goes on. *)
Inductive Script (E A : Type) : Type :=
| Ret (a : A)
| Do (e : E) (k : Script E A)
| Await {T : Type} (r : Backend.Req T) (k : Backend.Response T -> Script E A).
Arguments Ret {E A}.
Arguments Do {E A}.
Arguments Await {E A T}.

Fixpoint bind {E A B} (s : Script E A) (f : A -> Script E B) : Script E B :=
  match s with
  | Ret a => f a
  | Do e k => Do e (bind k f)
  | Await r k => Await r (fun x => bind (k x) f)
  end.

Declare Scope script_scope.
Delimit Scope script_scope with script.
Notation "x <- 'await' r ;; k" := (Await r (fun x => k))
  (at level 61, r at next level, right associativity) : script_scope.
Notation "e ;; k" := (Do e k)
  (at level 61, right associativity) : script_scope.
Notation "'return_'" := (Ret tt) : script_scope.

(** What a run leaves behind, in order. *)
Inductive Event (E : Type) : Type :=
| Requested {T : Type} (r : Backend.Req T) (resp : Backend.Response T)
| Did (e : E).
Arguments Requested {E T}.
Arguments Did {E}.

(** Number of requests in a trace. *)
Definition requested {E} (tr : list (Event E)) : nat :=
  List.length (filter (fun ev => match ev with
                                 | Requested _ _ => true
                                 | Did _ => false
                                 end) tr).

Record Outcome (E A : Type) := {
  result : A;
  final : Backend.DB;
  trace : list (Event E);
  turns : nat
}.
Arguments result {E A}.
Arguments final {E A}.
Arguments trace {E A}.
Arguments turns {E A}.

(** [run w n uid s db]: the handler [s] of a session whose [auth.uid()] is
    [uid] runs to its end against the tables [db]; its requests are served
    on the turns [n], [n+1], ... of the world [w]. *)
Fixpoint run {E A} (w : Backend.World) (n : nat) (auth_uid : option string)
    (s : Script E A) (db : Backend.DB) : Outcome E A :=
  match s with
  | Ret a => {| result := a; final := db; trace := []; turns := n |}
  | Do e k =>
      let o := run w n auth_uid k db in
      {| result := result o; final := final o;
         trace := Did e :: trace o; turns := turns o |}
  | Await r k =>
      let served := Backend.serve auth_uid (w n) r db in
      let o := run w (S n) auth_uid (k (snd served)) (fst served) in
      {| result := result o; final := final o;
         trace := Requested r (snd served) :: trace o; turns := turns o |}
  end.

(** A world in which nothing else happens: no other writer, no lost
    request; [ids] and [clock] supply the server-side defaults. *)
Definition quiet (ids clock : nat -> string) : Backend.World :=
  fun n => {| Backend.interfere := fun db => db;
              Backend.network_ok := true;
              Backend.uuid := ids n;
              Backend.now := clock n |}.

Open Scope script_scope.

(* ================================================================== *)
(** ** Listing detail ([BazaarDetailScreen]) *)
(* ================================================================== *)

Module BazaarDetailScreen.

Inductive Effect :=
| RouterPush (href : string)
| RouterBack
| AlertAlert (title message : string)
| SetPost (post : BazaarPost).

(** A confirmation dialog: its title, message and buttons, each with
    the handler its press runs. *)
Record Dialog := {
  dialog_title : string;
  dialog_message : string;
  dialog_buttons : list (string * Script Effect unit)
}.

Definition formatPrice (price : option Q) (currency : option string)
    : option string :=
  match price, currency with
  | None, _ => None
  | Some p, None => None
  | Some p, Some c =>
      if negb (JS.truthy c) then None
      else Some (BazaarScreen.symbol_of c ++ JS.toFixed p 2 ++ " " ++ c)
  end.

Definition handleDelete_onPress (post : BazaarPost) : Script Effect unit :=
  resp <- await Backend.DeletePost (post_id_ post) ;;
  match Backend.error resp with
  | Some e => AlertAlert "Delete failed" (Backend.message e) ;; return_
  | None => RouterBack ;; return_
  end.

Definition handleDelete (post : option BazaarPost) : option Dialog :=
  match post with
  | None => None
  | Some post =>
      Some {| dialog_title := "Delete listing?";
              dialog_message := "This will remove the listing permanently.";
              dialog_buttons :=
                [ ("Cancel", return_);
                  ("Delete", handleDelete_onPress post) ] |}
  end.

(** The press handler of the "Mark as Sold" button; [t1] and [t2] are the
    two readings [new Date().toISOString()] takes. *)
Definition handleMarkAsSold_onPress (t1 t2 : string) (post : BazaarPost)
    : Script Effect unit :=
  resp <- await Backend.UpdatePostSold (post_id_ post) t1 ;;
  match Backend.error resp with
  | Some e => AlertAlert "Update failed" (Backend.message e) ;; return_
  | None =>
      SetPost (Backend.set_sold t2 post) ;;
      AlertAlert "Success" "Your listing has been marked as sold!" ;;
      return_
  end.

(** The dialog message is the source's without the quotation marks
    around My Listings. *)
Definition handleMarkAsSold (t1 t2 : string) (post : option BazaarPost)
    : option Dialog :=
  match post with
  | None => None
  | Some post =>
      Some {| dialog_title := "Mark as Sold?";
              dialog_message :=
                "This will remove the listing from active listings. "
                ++ "You can still see it in My Listings.";
              dialog_buttons :=
                [ ("Cancel", return_);
                  ("Mark as Sold", handleMarkAsSold_onPress t1 t2 post) ] |}
  end.

Definition handleMessageSeller (user : option User) (post : option BazaarPost)
    : Script Effect unit :=
  match user, post with
  | Some user, Some post =>
      (* Check if conversation already exists *)
      existing <- await Backend.SelectConversationId (post_id_ post) (user_id user) ;;
      match Backend.data existing with
      | Some id =>
          (* Navigate to existing conversation *)
          RouterPush ("/bazaar/messages/" ++ id) ;; return_
      | None =>
          (* Create new conversation *)
          created <- await Backend.InsertConversation
                             (post_id_ post) (user_id user) (post_user_id post) ;;
          match Backend.error created, Backend.data created with
          | Some _, _ =>
              AlertAlert "Error" "Unable to start conversation. Please try again." ;;
              return_
          | None, Some newConv =>
              (* Navigate to new conversation *)
              RouterPush ("/bazaar/messages/" ++ conv_id newConv) ;; return_
          | None, None =>
              (* no such response is ever served; [newConv.id] would throw *)
              return_
          end
      end
  | _, _ => return_
  end.

(** Helper to format relative time, as the detail screen has it. *)
Definition formatRelativeTime (now : Z) (date : option Z) (localeDate : string)
    : string :=
  match date with
  | None => localeDate
  | Some date =>
      let diffMs := (now - date)%Z in
      let diffMins := (diffMs / (1000 * 60))%Z in
      let diffHours := (diffMs / (1000 * 60 * 60))%Z in
      let diffDays := (diffMs / (1000 * 60 * 60 * 24))%Z in
      if (diffMins <? 1)%Z then "Just now"
      else if (diffMins <? 60)%Z then JS.num diffMins ++ " minutes ago"
      else if (diffHours <? 24)%Z then JS.num diffHours ++ " hours ago"
      else if (diffDays =? 1)%Z then "Yesterday"
      else if (diffDays <? 7)%Z then JS.num diffDays ++ " days ago"
      else if (diffDays <? 30)%Z then JS.num (diffDays / 7) ++ " weeks ago"
      else localeDate
  end.

(** [post?.contact ?? post?.contact_email ?? post?.contact_phone ?? null] *)
Definition contactValue (post : option BazaarPost) : option string :=
  match post with
  | None => None
  | Some post =>
      match post_contact post with
      | Some c => Some c
      | None =>
          match post_contact_email post with
          | Some c => Some c
          | None => post_contact_phone post
          end
      end
  end.

(** [!!user && !!post && user.id === post.user_id] *)
Definition isOwner (user : option User) (post : option BazaarPost) : bool :=
  match user, post with
  | Some user, Some post => (user_id user =? post_user_id post)%string
  | _, _ => false
  end.

(** The class of [phonePattern]: a digit, white space, or one of [-+()]. *)
Definition phone_char (c : ascii) : bool :=
  let n := nat_of_ascii c in
  ((48 <=? n) && (n <=? 57)) || JS.ws1 c
  || (n =? 45) || (n =? 43) || (n =? 40) || (n =? 41).

Fixpoint phone_chars (s : string) : bool :=
  match s with
  | EmptyString => true
  | String c1 s1 =>
      if phone_char c1 then phone_chars s1
      else match s1 with
           | EmptyString => false
           | String c2 s2 =>
               if JS.ws2 c1 c2 then phone_chars s2
               else match s2 with
                    | EmptyString => false
                    | String c3 s3 =>
                        if JS.ws3 c1 c2 c3 then phone_chars s3 else false
                    end
           end
    end.

(** [/^[\d\s\-+()]+$/.test(s)] *)
Definition phonePattern (s : string) : bool := JS.truthy s && phone_chars s.

Inductive ContactMethod := by_email | by_phone | by_message.

(** What [handleContact] and [handleShare] do, beside the effects above. *)
Inductive Action :=
| Nothing
| LinkingOpenURL (url : string)
| ContactAlert (title message : string)
| ShareShare (message : string).

Definition handleContact (post : option BazaarPost) (method : ContactMethod)
    : Action :=
  match contactValue post with
  | None => Nothing
  | Some contactValue =>
      if negb (JS.truthy contactValue) then Nothing
      (* Check if it's an email *)
      else if JS.includes contactValue "@"
      then LinkingOpenURL ("mailto:" ++ contactValue)
      (* Check if it looks like a phone number *)
      else if phonePattern contactValue
      then match method with
           | by_phone => LinkingOpenURL ("tel:" ++ contactValue)
           | _ => LinkingOpenURL ("sms:" ++ contactValue)
           end
      (* Otherwise just show an alert with the contact info *)
      else ContactAlert "Contact Seller" contactValue
  end.

(** A nullable string inside a template literal. *)
Definition shown (o : option string) : string :=
  match o with Some s => s | None => "null" end.

Definition handleShare (post : option BazaarPost) : Action :=
  match post with
  | None => Nothing
  | Some post =>
      ShareShare
        ("Check out this listing: " ++ post_title post
         ++ match post_price post with
            | Some price =>
                if (Qnum price =? 0)%Z then ""
                else " - " ++ shown (formatPrice (post_price post) (post_currency post))
            | None => ""
            end)
  end.

(** *** What a trace of the resolver shows *)

Definition is_lookup (ev : Event Effect) : bool :=
  match ev with
  | Requested r _ =>
      match r with Backend.SelectConversationId _ _ => true | _ => false end
  | Did _ => false
  end.

Definition is_create (ev : Event Effect) : bool :=
  match ev with
  | Requested r _ =>
      match r with Backend.InsertConversation _ _ _ => true | _ => false end
  | Did _ => false
  end.

(** Number of point lookups, and of create requests, a run issued. *)
Definition lookups (tr : list (Event Effect)) : nat :=
  List.length (filter is_lookup tr).

Definition creates (tr : list (Event Effect)) : nat :=
  List.length (filter is_create tr).

(** The identifiers its lookups found, in order. *)
Fixpoint found (tr : list (Event Effect)) : list string :=
  match tr with
  | [] => []
  | Requested r resp :: tr' =>
      match r in Backend.Req T return Backend.Response T -> list string with
      | Backend.SelectConversationId _ _ =>
          fun resp => match Backend.data resp with
                      | Some id => id :: found tr'
                      | None => found tr'
                      end
      | _ => fun _ => found tr'
      end resp
  | Did _ :: tr' => found tr'
  end.

(** The routes it pushed, in order. *)
Fixpoint navigations (tr : list (Event Effect)) : list string :=
  match tr with
  | [] => []
  | Did (RouterPush href) :: tr' => href :: navigations tr'
  | _ :: tr' => navigations tr'
  end.

End BazaarDetailScreen.

(* ================================================================== *)
(** ** Chat thread ([app/bazaar/messages/[id].tsx]) *)
(* ================================================================== *)

Module ChatScreen.

(** The [useState] cells of the screen. *)
Record State := {
  conversation : option BazaarConversation;
  otherProfile : option Profile;
  post : option BazaarPost;
  messages : list BazaarMessage;
  newMessage : string;
  loading : bool;
  sending : bool
}.

(** [useState] initial values. *)
Definition initial : State :=
  {| conversation := None; otherProfile := None; post := None;
     messages := []; newMessage := ""; loading := true; sending := false |}.

Inductive Effect :=
| SetConversation (c : BazaarConversation)
| SetOtherProfile (p : option Profile)
| SetPost (p : option BazaarPost)
| SetMessages (l : list BazaarMessage)
| SetMessagesFn (f : list BazaarMessage -> list BazaarMessage)
| SetNewMessage (s : string)
| SetLoading (b : bool)
| SetSending (b : bool)
| RouterBack.

Definition apply (e : Effect) (st : State) : State :=
  match e with
  | SetConversation c =>
      {| conversation := Some c; otherProfile := otherProfile st; post := post st;
         messages := messages st; newMessage := newMessage st;
         loading := loading st; sending := sending st |}
  | SetOtherProfile p =>
      {| conversation := conversation st; otherProfile := p; post := post st;
         messages := messages st; newMessage := newMessage st;
         loading := loading st; sending := sending st |}
  | SetPost p =>
      {| conversation := conversation st; otherProfile := otherProfile st; post := p;
         messages := messages st; newMessage := newMessage st;
         loading := loading st; sending := sending st |}
  | SetMessages l =>
      {| conversation := conversation st; otherProfile := otherProfile st;
         post := post st;
         messages := l; newMessage := newMessage st;
         loading := loading st; sending := sending st |}
  | SetMessagesFn f =>
      {| conversation := conversation st; otherProfile := otherProfile st;
         post := post st;
         messages := f (messages st); newMessage := newMessage st;
         loading := loading st; sending := sending st |}
  | SetNewMessage s =>
      {| conversation := conversation st; otherProfile := otherProfile st;
         post := post st;
         messages := messages st; newMessage := s;
         loading := loading st; sending := sending st |}
  | SetLoading b =>
      {| conversation := conversation st; otherProfile := otherProfile st;
         post := post st;
         messages := messages st; newMessage := newMessage st;
         loading := b; sending := sending st |}
  | SetSending b =>
      {| conversation := conversation st; otherProfile := otherProfile st;
         post := post st;
         messages := messages st; newMessage := newMessage st;
         loading := loading st; sending := b |}
  | RouterBack => st
  end.

(** The state a trace of a handler leaves, from the state it started in. *)
Fixpoint after (tr : list (Event Effect)) (st : State) : State :=
  match tr with
  | [] => st
  | Did e :: tr' => after tr' (apply e st)
  | Requested _ _ :: tr' => after tr' st
  end.

Definition loadConversation (conversationId : string) (user : option User)
    : Script Effect unit :=
  resp <- await Backend.SelectConversation conversationId ;;
  match Backend.error resp, Backend.data resp with
  | None, Some data =>
      SetConversation data ;;
      (* Load other user's profile *)
      let otherUserId :=
        if opt_user_is user (conv_buyer_id data)
        then conv_seller_id data else conv_buyer_id data in
      profile <- await Backend.SelectProfile otherUserId ;;
      SetOtherProfile (Backend.data profile) ;;
      (* Load post *)
      postResp <- await Backend.SelectPost (conv_post_id data) ;;
      SetPost (Backend.data postResp) ;;
      return_
  | _, _ => RouterBack ;; return_
  end.

Definition loadMessages (conversationId : string) : Script Effect unit :=
  resp <- await Backend.SelectMessages conversationId ;;
  match Backend.error resp, Backend.data resp with
  | None, Some data => SetMessages data ;; SetLoading false ;; return_
  | _, _ => SetLoading false ;; return_
  end.

Definition markMessagesAsRead (conversationId : string) (user : option User)
    : Script Effect unit :=
  match user with
  | None => return_
  | Some user =>
      _ <- await Backend.UpdateMessagesRead conversationId (user_id user) ;;
      return_
  end.

Definition markMessageAsRead (messageId : string) : Script Effect unit :=
  _ <- await Backend.UpdateMessageRead messageId ;;
  return_.

Definition sendMessage (conversationId : string) (user : option User)
    (st : State) : Script Effect unit :=
  match user with
  | None => return_
  | Some user =>
      if negb (JS.truthy (JS.trim (newMessage st))) || sending st then return_
      else
        SetSending true ;;
        let messageContent := JS.trim (newMessage st) in
        SetNewMessage "" ;;
        resp <- await Backend.InsertMessage conversationId (user_id user)
                        messageContent ;;
        SetSending false ;;
        match Backend.error resp with
        | Some _ => SetNewMessage messageContent ;; return_
        | None => return_
        end
  end.

(** The callback registered on the channel for INSERT events. *)
Definition on_insert (user : User) (newMsg : BazaarMessage)
    : Script Effect unit :=
  SetMessagesFn (fun prev => (prev ++ [newMsg])%list) ;;
  (* Mark as read if not from current user *)
  if negb (msg_sender_id newMsg =? user_id user)%string
  then markMessageAsRead (msg_id newMsg)
  else return_.

(** *** The screen at run time

    Calling an [async] function without [await] runs it up to its first
    [await] and leaves the rest waiting for the response; the caller
    goes on at once.  [parked] holds the calls that wait, oldest first;
    [subscription] is the open realtime channel with its INSERT filter
    and callback. *)
Record Subscription := {
  channel : string;
  filter_conversation_id : string;
  callback : BazaarMessage -> Script Effect unit
}.

Record Runtime := {
  ui : State;
  parked : list (Script Effect unit);
  subscription : option Subscription
}.

Definition boot : Runtime :=
  {| ui := initial; parked := []; subscription := None |}.

Fixpoint settle (s : Script Effect unit) (rt : Runtime) : Runtime :=
  match s with
  | Ret _ => rt
  | Do e k =>
      settle k {| ui := apply e (ui rt); parked := parked rt;
                  subscription := subscription rt |}
  | Await _ _ =>
      {| ui := ui rt; parked := (parked rt ++ [s])%list;
         subscription := subscription rt |}
  end.

(** [.subscribe()]: the channel counts as open from the call on. *)
Definition subscribe (sub : Subscription) (rt : Runtime) : Runtime :=
  {| ui := ui rt; parked := parked rt; subscription := Some sub |}.

Definition unsubscribe (rt : Runtime) : Runtime :=
  {| ui := ui rt; parked := parked rt; subscription := None |}.

(** The channel the mount effect opens: INSERT events of
    [bazaar_messages] with [conversation_id=eq.conversationId]. *)
Definition opened (conversationId : string) (u : User) : Subscription :=
  {| channel := "messages:" ++ conversationId;
     filter_conversation_id := conversationId;
     callback := on_insert u |}.

(** The body of the mount effect. *)
Definition useEffect (conversationId : string) (user : option User)
    (rt : Runtime) : Runtime :=
  match user with
  | Some u =>
      if JS.truthy conversationId then
        let rt := settle (loadConversation conversationId user) rt in
        let rt := settle (loadMessages conversationId) rt in
        let rt := settle (markMessagesAsRead conversationId user) rt in
        (* Subscribe to new messages *)
        subscribe (opened conversationId u) rt
      else rt
  | None => rt
  end.

Inductive ScreenEvent :=
| Mounted
| Responded (i : nat) (t : Backend.Turn)
| Inserted (payload : BazaarMessage)
| Typed (text : string)
| PressedSend
| Unmounted.

Fixpoint remove_nth {A} (i : nat) (l : list A) : list A :=
  match l, i with
  | [], _ => []
  | _ :: l', O => l'
  | x :: l', S i' => x :: remove_nth i' l'
  end.

(** One event of the screen's life: the effect runs, the response to a
    waiting call arrives (the request is served on turn [t]), the channel
    delivers the INSERT of a row that passes its filter, the user edits
    the input or presses send, the screen goes away. *)
Definition step (conversationId : string) (user : option User)
    (ev : ScreenEvent) (x : Runtime * Backend.DB) : Runtime * Backend.DB :=
  let (rt, db) := x in
  match ev with
  | Mounted => (useEffect conversationId user rt, db)
  | Responded i t =>
      match nth_error (parked rt) i with
      | Some (Await r k) =>
          let '(db', resp) :=
            Backend.serve (option_map user_id user) t r db in
          (settle (k resp)
             {| ui := ui rt; parked := remove_nth i (parked rt);
                subscription := subscription rt |},
           db')
      | _ => (rt, db)
      end
  | Inserted payload =>
      match subscription rt with
      | Some sub =>
          if (msg_conversation_id payload =? filter_conversation_id sub)%string
          then (settle (callback sub payload) rt, db)
          else (rt, db)
      | None => (rt, db)
      end
  | Typed text =>
      ({| ui := apply (SetNewMessage text) (ui rt); parked := parked rt;
          subscription := subscription rt |}, db)
  | PressedSend => (settle (sendMessage conversationId user (ui rt)) rt, db)
  | Unmounted => (unsubscribe rt, db)
  end.

Definition steps (conversationId : string) (user : option User)
    (evs : list ScreenEvent) (x : Runtime * Backend.DB) : Runtime * Backend.DB :=
  fold_left (fun x ev => step conversationId user ev x) evs x.

(** Number of rows of a list that carry a given identifier. *)
Definition copies (id : string) (l : list BazaarMessage) : nat :=
  List.length (filter (fun m => (msg_id m =? id)%string) l).

End ChatScreen.

(* ================================================================== *)
(** ** Inbox ([app/bazaar/messages/index.tsx]) *)
(* ================================================================== *)

Module ConversationsScreen.

(** The unread count [loadConversations] computes for one conversation:
    the counting query, then [count || 0]. *)
Definition unread_count {E} (conv : BazaarConversation) (user : User)
    : Script E nat :=
  resp <- await Backend.CountUnread (conv_id conv) (user_id user) ;;
  Ret (match Backend.data resp with Some count => count | None => 0 end).

(** Helper to format relative time, as the inbox has it. *)
Definition formatRelativeTime (now : Z) (date : option Z) (localeDate : string)
    : string :=
  match date with
  | None => localeDate
  | Some date =>
      let diffMs := (now - date)%Z in
      let diffMins := (diffMs / (1000 * 60))%Z in
      let diffHours := (diffMs / (1000 * 60 * 60))%Z in
      let diffDays := (diffMs / (1000 * 60 * 60 * 24))%Z in
      if (diffMins <? 1)%Z then "Just now"
      else if (diffMins <? 60)%Z then JS.num diffMins ++ "m"
      else if (diffHours <? 24)%Z then JS.num diffHours ++ "h"
      else if (diffDays <? 7)%Z then JS.num diffDays ++ "d"
      else localeDate
  end.

End ConversationsScreen.

(* ================================================================== *)
(** ** Seller rating ([RateSellerScreen]) *)
(* ================================================================== *)

Module RateSellerScreen.

Inductive Effect :=
| AlertAlert (title message : string)
| SetSubmitting (b : bool).

Definition handleSubmit (postId : string) (user : option User)
    (post : option BazaarPost) (rating : Z) (reviewText : string)
    (existingRating : option Z) : Script Effect unit :=
  match user, post with
  | Some user, Some post =>
      if (rating =? 0)%Z
      then AlertAlert "Rating required" "Please select a star rating" ;; return_
      else
        SetSubmitting true ;;
        let ratingData :=
          {| Backend.rp_seller_id := post_user_id post;
             Backend.rp_buyer_id := user_id user;
             Backend.rp_post_id := postId;
             Backend.rp_rating := rating;
             Backend.rp_review_text := JS.or_null (JS.trim reviewText) |} in
        resp <- await Backend.UpsertRating ratingData ;;
        SetSubmitting false ;;
        match Backend.error resp with
        | Some _ =>
            AlertAlert "Error" "Failed to submit rating. Please try again." ;;
            return_
        | None =>
            AlertAlert "Thank you!"
              (match existingRating with
               | Some r => if (r =? 0)%Z then "Your rating has been submitted."
                           else "Your rating has been updated."
               | None => "Your rating has been submitted."
               end) ;;
            return_
        end
  | _, _ => AlertAlert "Rating required" "Please select a star rating" ;; return_
  end.

End RateSellerScreen.

(* ================================================================== *)
(** ** New listing ([BazaarNewScreen]) *)
(* ================================================================== *)

Module BazaarNewScreen.

Inductive Currency := CAD | USD | EUR.

Definition currency_code (c : Currency) : string :=
  match c with CAD => "CAD" | USD => "USD" | EUR => "EUR" end.

Record Asset := { uri : string; fileSize : option N }.

Record Form := {
  title : string;
  description : string;
  city : string;
  contact : string;
  price : string;
  currency : Currency;
  photo : option Asset
}.

Inductive Effect :=
| SetErrors (errors : list (string * string))
| SetLoading (b : bool)
| AlertAlert (title message : string)
| RouterBack.

(** [photo.fileSize && photo.fileSize > 5 * 1024 * 1024] *)
Definition too_large (ph : Asset) : bool :=
  match fileSize ph with
  | Some sz => ((0 <? sz) && (5 * 1024 * 1024 <? sz))%N
  | None => false
  end.

Section WithNumber.

(** [Number(s)]: the value of the numeric string, [None] for NaN. *)
Variable Number : string -> option Q.

Definition validate (f : Form) : list (string * string) :=
  ((if negb (JS.truthy (JS.trim (title f)))
    then [("title", "Title is required")] else [])
   ++ (if negb (JS.truthy (JS.trim (price f)))
          || match Number (price f) with None => true | Some _ => false end
       then [("price", "Valid price is required")] else [])
   ++ (if negb (JS.truthy (JS.trim (contact f)))
       then [("contact", "Contact method is required")] else [])
   ++ (match photo f with
       | None => [("photo", "Photo is required")]
       | Some _ => []
       end))%list.

(** [uploadPhoto]: [inl url] is the value it returns, [inr msg] the
    error it throws; [stamp] is the reading of [Date.now()].  The
    copying, resizing and re-reading of the picture happen on the
    device and leave no trace here. *)
Definition uploadPhoto (stamp : string) (f : Form) (userId : string)
    : Script Effect (option string + string) :=
  match photo f with
  | None => Ret (inl None)
  | Some ph =>
      if too_large ph
      then Ret (inr "Photo size must be less than 5MB.")
      else
        let fileName := userId ++ "/" ++ stamp ++ ".jpg" in
        resp <- await Backend.UploadPhoto fileName ;;
        match Backend.error resp with
        | Some e => Ret (inr (Backend.message e))
        | None => Ret (inl (Backend.data resp))
        end
  end.

Definition payload (f : Form) (userId : string) (n : Q)
    (photoUrl : option string) : Backend.PostPayload :=
  {| Backend.pp_user_id := userId;
     Backend.pp_title := JS.trim (title f);
     Backend.pp_description := JS.or_null (JS.trim (description f));
     Backend.pp_city := JS.or_null (JS.trim (city f));
     Backend.pp_contact := JS.trim (contact f);
     Backend.pp_price := n;
     Backend.pp_currency := currency_code (currency f);
     Backend.pp_photo_url := photoUrl;
     Backend.pp_status := None |}.

Definition handleSubmit (stamp : string) (user : option User) (f : Form)
    : Script Effect unit :=
  match user with
  | None => return_
  | Some user =>
      SetErrors (validate f) ;;
      match validate f, Number (price f) with
      | [], Some n =>
          SetLoading true ;;
          bind (uploadPhoto stamp f (user_id user)) (fun up =>
            match up with
            | inr msg =>
                AlertAlert "Unable to create listing" msg ;;
                SetLoading false ;; return_
            | inl photoUrl =>
                resp <- await Backend.InsertPost
                                (payload f (user_id user) n photoUrl) ;;
                match Backend.error resp with
                | Some e =>
                    AlertAlert "Unable to create listing" (Backend.message e) ;;
                    SetLoading false ;; return_
                | None => RouterBack ;; SetLoading false ;; return_
                end
            end)
      | _, _ => return_
      end
  end.

End WithNumber.

End BazaarNewScreen.


(* ================================================================== *)
(** ** Requests of the loaders *)
(* ================================================================== *)

(** The loaders of the grid and of the rating screen send requests the
    handlers above do not: a page of listings, the identifiers of the
    caller's conversations, a count over several conversations, a
    buyer's rating of a post.  [Wider.Req] adds them to [Backend.Req];
    scripts, events and runs over it are as above. *)
Module Wider.

Import Backend.

Inductive Req : Type -> Type :=
| Known {T : Type} (r : Backend.Req T) : Req T
(** [from('bazaar_posts').select('*').order('created_at', { ascending:
    false })], [.textSearch('fts', q)] when there is a query,
    [.range(from, to)] *)
| SelectPosts (textSearch : option string) (from_ to_ : nat) : Req (list BazaarPost)
(** [from('bazaar_conversations').select('id').or('buyer_id.eq.u,seller_id.eq.u')] *)
| SelectConversationIds (uid : string) : Req (list string)
(** [from('bazaar_messages').select('*', { count: 'exact', head: true })
    .in('conversation_id', ids).eq('is_read', false).neq('sender_id', u)] *)
| CountUnreadIn (conversation_ids : list string) (not_sender : string) : Req nat
(** [from('seller_ratings').select('rating, review_text')
    .eq('buyer_id', b).eq('post_id', p).single()] *)
| SelectRating (buyer_id post_id : string) : Req (Z * option string).

(** What a call can fail with: an error of the requests above, or a
    text-search query the server cannot read. *)
Inductive Failure :=
| pg (e : PgError)
| tsquery_syntax (text : string).

Definition message (f : Failure) : string :=
  match f with
  | pg e => Backend.message e
  | tsquery_syntax text =>
      "syntax error in tsquery: " ++ JS.bytes [34] ++ text ++ JS.bytes [34]
  end.

Record Response (T : Type) := mkResponse {
  data : option T;
  error : option Failure
}.
Arguments mkResponse {T}.
Arguments data {T}.
Arguments error {T}.

Definition ok {T} (x : T) : Response T := mkResponse (Some x) None.
Definition failed {T} (f : Failure) : Response T := mkResponse None (Some f).

Definition lift {T} (r : Backend.Response T) : Response T :=
  mkResponse (Backend.data r) (option_map pg (Backend.error r)).

(** [.order('created_at', { ascending: false })]; rows of one timestamp
    keep their order. *)
Fixpoint insert_newest_first (p : BazaarPost) (l : list BazaarPost)
    : list BazaarPost :=
  match l with
  | [] => [p]
  | x :: l' =>
      if (post_created_at p <? post_created_at x)%string
      then x :: insert_newest_first p l'
      else p :: l
  end.

Definition newest_first (l : list BazaarPost) : list BazaarPost :=
  fold_right insert_newest_first [] l.

(** [.range(from, to)]: the rows numbered [from] to [to], both included;
    past the end there are fewer rows, or none. *)
Definition range {Row} (from_ to_ : nat) (rows : list Row) : list Row :=
  skipn from_ (firstn (S to_) rows).

(** [.in('conversation_id', ids).eq('is_read', false).neq('sender_id', u)] *)
Definition unread_inbound_in (ids : list string) (u : string) (m : BazaarMessage)
    : bool :=
  existsb (String.eqb (msg_conversation_id m)) ids
  && negb (msg_is_read m)
  && negb (msg_sender_id m =? u)%string.

(** [.or('buyer_id.eq.u,seller_id.eq.u')] *)
Definition takes_part (u : string) (c : BazaarConversation) : bool :=
  (conv_buyer_id c =? u)%string || (conv_seller_id c =? u)%string.

Section WithTextSearch.

(** [to_tsquery q]: the rows whose [fts] column (the text-search vector
    of title, description and city) matches the query text [q], or
    nothing when the server cannot read [q] as a query. *)
Variable to_tsquery : string -> option (BazaarPost -> bool).

Definition select_posts (rows : BazaarPost -> bool) (db : DB) : list BazaarPost :=
  newest_first (filter rows (bazaar_posts db)).

Definition serve (auth_uid : option string) (t : Turn) {T} (r : Req T)
    (db0 : DB) : DB * Response T :=
  let db := interfere t db0 in
  match r in Req T return DB * Response T with
  | Known r =>
      let served := Backend.serve auth_uid t r db0 in
      (fst served, lift (snd served))
  | SelectPosts textSearch from_ to_ =>
      if negb (network_ok t) then (db, failed (pg request_failed))
      else
        match textSearch with
        | None => (db, ok (range from_ to_ (select_posts (fun _ => true) db)))
        | Some q =>
            match to_tsquery q with
            | Some rows => (db, ok (range from_ to_ (select_posts rows db)))
            | None => (db, failed (tsquery_syntax q))
            end
        end
  | SelectConversationIds uid =>
      if negb (network_ok t) then (db, failed (pg request_failed))
      else
        (db, ok (map conv_id
                   (filter (fun c =>
                              allowed (for_select conversation_policies) auth_uid c
                              && takes_part uid c)
                           (bazaar_conversations db))))
  | CountUnreadIn ids not_sender =>
      if negb (network_ok t) then (db, failed (pg request_failed))
      else
        (db, ok (List.length (filter (unread_inbound_in ids not_sender)
                                (visible_messages auth_uid db))))
  | SelectRating buyer_id post_id =>
      if negb (network_ok t) then (db, failed (pg request_failed))
      else
        match
          filter (fun r => allowed (for_select rating_policies) auth_uid r
                           && (rating_buyer_id r =? buyer_id)%string
                           && opt_eqb (rating_post_id r) post_id)
                 (seller_ratings db)
        with
        | [r] => (db, ok (rating_rating r, rating_review_text r))
        | _ => (db, failed (pg not_a_single_row))
        end
  end.

End WithTextSearch.

Inductive Script (E A : Type) : Type :=
| Ret (a : A)
| Do (e : E) (k : Script E A)
| Await {T : Type} (r : Req T) (k : Response T -> Script E A).
Arguments Ret {E A}.
Arguments Do {E A}.
Arguments Await {E A T}.

Inductive Event (E : Type) : Type :=
| Requested {T : Type} (r : Req T) (resp : Response T)
| Did (e : E).
Arguments Requested {E T}.
Arguments Did {E}.

(** The effects of a trace, in order. *)
Fixpoint effects {E} (tr : list (Event E)) : list E :=
  match tr with
  | [] => []
  | Did e :: tr' => e :: effects tr'
  | Requested _ _ :: tr' => effects tr'
  end.

(** Number of requests in a trace. *)
Fixpoint requested {E} (tr : list (Event E)) : nat :=
  match tr with
  | [] => 0
  | Did _ :: tr' => requested tr'
  | Requested _ _ :: tr' => S (requested tr')
  end.

Record Outcome (E A : Type) := {
  result : A;
  final : DB;
  trace : list (Event E);
  turns : nat
}.
Arguments result {E A}.
Arguments final {E A}.
Arguments trace {E A}.
Arguments turns {E A}.

Fixpoint run {E A} (to_tsquery : string -> option (BazaarPost -> bool))
    (w : World) (n : nat) (auth_uid : option string)
    (s : Script E A) (db : DB) : Outcome E A :=
  match s with
  | Ret a => {| result := a; final := db; trace := []; turns := n |}
  | Do e k =>
      let o := run to_tsquery w n auth_uid k db in
      {| result := result o; final := final o;
         trace := Did e :: trace o; turns := turns o |}
  | Await r k =>
      let served := serve to_tsquery auth_uid (w n) r db in
      let o := run to_tsquery w (S n) auth_uid (k (snd served)) (fst served) in
      {| result := result o; final := final o;
         trace := Requested r (snd served) :: trace o; turns := turns o |}
  end.

End Wider.

Declare Scope wider_scope.
Delimit Scope wider_scope with wider.
Notation "x <- 'await' r ;; k" := (Wider.Await r (fun x => k))
  (at level 61, r at next level, right associativity) : wider_scope.
Notation "e ;; k" := (Wider.Do e k)
  (at level 61, right associativity) : wider_scope.
Notation "'return_'" := (Wider.Ret tt) : wider_scope.

(* ================================================================== *)
(** ** Loaders of the listing grid ([app/(tabs)/bazaar.tsx]) *)
(* ================================================================== *)

Module BazaarScreenLoaders.

Local Open Scope wider_scope.

(** The [useState] cells the loaders read or set. *)
Record State := {
  posts : list BazaarPost;
  hasMore : bool;
  page : nat;
  searchQuery : string;
  loading : bool;
  refreshing : bool;
  unreadCount : nat
}.

(** [useState] initial values. *)
Definition initial : State :=
  {| posts := []; hasMore := true; page := 0; searchQuery := "";
     loading := true; refreshing := false; unreadCount := 0 |}.

Inductive Effect :=
| SetPosts (l : list BazaarPost)
| SetPostsFn (f : list BazaarPost -> list BazaarPost)
| SetHasMore (b : bool)
| SetPage (n : nat)
| SetLoading (b : bool)
| SetRefreshing (b : bool)
| SetUnreadCount (n : nat)
| AlertAlert (title message : string).

Definition apply (e : Effect) (st : State) : State :=
  match e with
  | SetPosts l =>
      {| posts := l; hasMore := hasMore st; page := page st;
         searchQuery := searchQuery st; loading := loading st;
         refreshing := refreshing st; unreadCount := unreadCount st |}
  | SetPostsFn f =>
      {| posts := f (posts st); hasMore := hasMore st; page := page st;
         searchQuery := searchQuery st; loading := loading st;
         refreshing := refreshing st; unreadCount := unreadCount st |}
  | SetHasMore b =>
      {| posts := posts st; hasMore := b; page := page st;
         searchQuery := searchQuery st; loading := loading st;
         refreshing := refreshing st; unreadCount := unreadCount st |}
  | SetPage n =>
      {| posts := posts st; hasMore := hasMore st; page := n;
         searchQuery := searchQuery st; loading := loading st;
         refreshing := refreshing st; unreadCount := unreadCount st |}
  | SetLoading b =>
      {| posts := posts st; hasMore := hasMore st; page := page st;
         searchQuery := searchQuery st; loading := b;
         refreshing := refreshing st; unreadCount := unreadCount st |}
  | SetRefreshing b =>
      {| posts := posts st; hasMore := hasMore st; page := page st;
         searchQuery := searchQuery st; loading := loading st;
         refreshing := b; unreadCount := unreadCount st |}
  | SetUnreadCount n =>
      {| posts := posts st; hasMore := hasMore st; page := page st;
         searchQuery := searchQuery st; loading := loading st;
         refreshing := refreshing st; unreadCount := n |}
  | AlertAlert _ _ => st
  end.

(** The state a trace of a loader leaves, from the state it started in. *)
Definition after (tr : list (Wider.Event Effect)) (st : State) : State :=
  fold_left (fun s e => apply e s) (Wider.effects tr) st.

Definition PAGE_SIZE : nat := 10.

Definition loadUnreadCount (user : option User) : Wider.Script Effect unit :=
  match user with
  | None => SetUnreadCount 0 ;; return_
  | Some user =>
      (* Get conversations where user is participant *)
      resp <- await Wider.SelectConversationIds (user_id user) ;;
      match Wider.data resp with
      | None => SetUnreadCount 0 ;; return_
      | Some [] => SetUnreadCount 0 ;; return_
      | Some conversations =>
          let convIds := map (fun c => c) conversations in
          (* Count unread messages not sent by user *)
          counted <- await Wider.CountUnreadIn convIds (user_id user) ;;
          SetUnreadCount (match Wider.data counted with
                          | Some count => count
                          | None => 0
                          end) ;;
          return_
      end
  end.

(** The text [loadPosts] searches for: none when the query is blank. *)
Definition textSearch (st : State) : option string :=
  if JS.truthy (JS.trim (searchQuery st))
  then Some (JS.join " & " (JS.split_ws (JS.trim (searchQuery st))))
  else None.

(** [st] holds the values of the render the function was made in. *)
Definition loadPosts (st : State) (pageNum : nat) (shouldRefresh : bool)
    : Wider.Script Effect unit :=
  if loading st && negb shouldRefresh then return_
  else if negb (hasMore st) && negb shouldRefresh then return_
  else
    SetLoading true ;;
    let from_ := pageNum * PAGE_SIZE in
    let to_ := from_ + PAGE_SIZE - 1 in
    resp <- await Wider.SelectPosts (textSearch st) from_ to_ ;;
    SetLoading false ;;
    SetRefreshing false ;;
    match Wider.error resp with
    | Some e => AlertAlert "Unable to load posts" (Wider.message e) ;; return_
    | None =>
        match Wider.data resp with
        | Some data =>
            if shouldRefresh
            then
              SetPosts data ;;
              SetPage 0 ;;
              SetHasMore (List.length data =? PAGE_SIZE) ;;
              return_
            else
              SetPostsFn (fun prev => prev ++ data)%list ;;
              SetPage pageNum ;;
              SetHasMore (List.length data =? PAGE_SIZE) ;;
              return_
        | None => return_
        end
    end.

Definition onRefresh (st : State) : Wider.Script Effect unit :=
  SetRefreshing true ;; loadPosts st 0 true.

Definition onLoadMore (st : State) : Wider.Script Effect unit :=
  if negb (loading st) && hasMore st
  then loadPosts st (page st + 1) false
  else return_.

(** The rows a state searches for, once the server has read its query. *)
Definition matching (to_tsquery : string -> option (BazaarPost -> bool))
    (st : State) : option (BazaarPost -> bool) :=
  match textSearch st with
  | None => Some (fun _ => true)
  | Some q => to_tsquery q
  end.

(** The state after a pull to refresh, and after a scroll to the end of
    the list, each run to its end in a quiet world on the tables [db];
    the next one starts from the state the last one left. *)
Definition refreshed (to_tsquery : string -> option (BazaarPost -> bool))
    (ids clock : nat -> string) (uid : option string) (db : Backend.DB)
    (st : State) : State :=
  after (Wider.trace (Wider.run to_tsquery (quiet ids clock) 0 uid (onRefresh st) db))
        st.

Definition scrolled (to_tsquery : string -> option (BazaarPost -> bool))
    (ids clock : nat -> string) (uid : option string) (db : Backend.DB)
    (st : State) : State :=
  after (Wider.trace (Wider.run to_tsquery (quiet ids clock) 0 uid (onLoadMore st) db))
        st.

(** What holds of the state after a refresh and [k] scrolls, [all] being
    the listings searched for, newest first. *)
Definition paged (all : list BazaarPost) (query : string) (k : nat) (st : State)
    : Prop :=
  searchQuery st = query
  /\ loading st = false
  /\ refreshing st = false
  /\ posts st = firstn (PAGE_SIZE * (k + 1)) all
  /\ (hasMore st = true -> page st = k /\ PAGE_SIZE * (k + 1) <= List.length all)
  /\ (hasMore st = false -> List.length all < PAGE_SIZE * (k + 1)).

End BazaarScreenLoaders.

(* ================================================================== *)
(** ** Loader of the rating screen ([RateSellerScreen]) *)
(* ================================================================== *)

Module RateSellerScreenLoader.

Local Open Scope wider_scope.

(** The [useState] cells of the screen. *)
Record State := {
  post : option BazaarPost;
  sellerProfile : option Profile;
  rating : Z;
  reviewText : string;
  loading : bool;
  submitting : bool;
  existingRating : option Z
}.

(** [useState] initial values. *)
Definition initial : State :=
  {| post := None; sellerProfile := None; rating := 0%Z; reviewText := "";
     loading := true; submitting := false; existingRating := None |}.

Inductive Effect :=
| AlertAlert (title message : string)
| RouterBack
| SetPost (p : BazaarPost)
| SetSellerProfile (p : option Profile)
| SetRating (r : Z)
| SetReviewText (s : string)
| SetExistingRating (r : Z)
| SetLoading (b : bool).

Definition apply (e : Effect) (st : State) : State :=
  match e with
  | AlertAlert _ _ => st
  | RouterBack => st
  | SetPost p =>
      {| post := Some p; sellerProfile := sellerProfile st; rating := rating st;
         reviewText := reviewText st; loading := loading st;
         submitting := submitting st; existingRating := existingRating st |}
  | SetSellerProfile p =>
      {| post := post st; sellerProfile := p; rating := rating st;
         reviewText := reviewText st; loading := loading st;
         submitting := submitting st; existingRating := existingRating st |}
  | SetRating r =>
      {| post := post st; sellerProfile := sellerProfile st; rating := r;
         reviewText := reviewText st; loading := loading st;
         submitting := submitting st; existingRating := existingRating st |}
  | SetReviewText s =>
      {| post := post st; sellerProfile := sellerProfile st; rating := rating st;
         reviewText := s; loading := loading st;
         submitting := submitting st; existingRating := existingRating st |}
  | SetExistingRating r =>
      {| post := post st; sellerProfile := sellerProfile st; rating := rating st;
         reviewText := reviewText st; loading := loading st;
         submitting := submitting st; existingRating := Some r |}
  | SetLoading b =>
      {| post := post st; sellerProfile := sellerProfile st; rating := rating st;
         reviewText := reviewText st; loading := b;
         submitting := submitting st; existingRating := existingRating st |}
  end.

Definition after (tr : list (Wider.Event Effect)) (st : State) : State :=
  fold_left (fun s e => apply e s) (Wider.effects tr) st.


End RateSellerScreenLoader.

(* ================================================================== *)
(** ** Loader of the listing detail ([BazaarDetailScreen]) *)
(* ================================================================== *)

Module BazaarDetailScreenLoader.

(** The [useState] cells of the screen. *)
Record State := {
  post : option BazaarPost;
  sellerProfile : option Profile;
  loading : bool;
  refreshing : bool
}.

(** [useState] initial values. *)
Definition initial : State :=
  {| post := None; sellerProfile := None; loading := true; refreshing := false |}.

Inductive Effect :=
| AlertAlert (title message : string)
| SetPost (p : option BazaarPost)
| SetSellerProfile (p : option Profile)
| SetLoading (b : bool)
| SetRefreshing (b : bool).

Definition apply (e : Effect) (st : State) : State :=
  match e with
  | AlertAlert _ _ => st
  | SetPost p =>
      {| post := p; sellerProfile := sellerProfile st;
         loading := loading st; refreshing := refreshing st |}
  | SetSellerProfile p =>
      {| post := post st; sellerProfile := p;
         loading := loading st; refreshing := refreshing st |}
  | SetLoading b =>
      {| post := post st; sellerProfile := sellerProfile st;
         loading := b; refreshing := refreshing st |}
  | SetRefreshing b =>
      {| post := post st; sellerProfile := sellerProfile st;
         loading := loading st; refreshing := b |}
  end.

Fixpoint after (tr : list (Event Effect)) (st : State) : State :=
  match tr with
  | [] => st
  | Did e :: tr' => after tr' (apply e st)
  | Requested _ _ :: tr' => after tr' st
  end.

Definition loadPost (postId : string) : Script Effect unit :=
  SetRefreshing true ;;
  resp <- await Backend.SelectPost postId ;;
  match Backend.error resp with
  | Some e =>
      AlertAlert "Unable to load post" (Backend.message e) ;;
      SetLoading false ;;
      SetRefreshing false ;;
      return_
  | None =>
      SetPost (Backend.data resp) ;;
      (* Load seller profile *)
      match Backend.data resp with
      | Some data =>
          if JS.truthy (post_user_id data)
          then
            profile <- await Backend.SelectProfile (post_user_id data) ;;
            SetSellerProfile (Backend.data profile) ;;
            SetLoading false ;;
            SetRefreshing false ;;
            return_
          else SetLoading false ;; SetRefreshing false ;; return_
      | None => SetLoading false ;; SetRefreshing false ;; return_
      end
  end.

End BazaarDetailScreenLoader.


(* ================================================================== *)
(** ** Statements of the specification, in its own words *)
(* ================================================================== *)

Module Spec.

(** "Given a post with price 25.00 and currency CAD, the formatted price
    string is C$25; given currency USD, it is $25; given a null price, it
    is the literal string Contact for price." *)
Definition formats_as_specified
    (fmt : option Q -> option string -> option string) : Prop :=
  fmt (Some 25%Q) (Some "CAD") = Some "C$25"
  /\ fmt (Some 25%Q) (Some "USD") = Some "$25"
  /\ (forall currency, fmt None currency = Some "Contact for price").

(** "On create failure due to the uniqueness constraint, re-issue the
    lookup once before surfacing an error to the user": whenever the
    point lookup of the resolver misses and its create request is refused
    for the pair's uniqueness, the run holds the first lookup and exactly
    one more, and a conversation a lookup finds is navigated to. *)
Definition relookup_once : Prop :=
  forall (w : Backend.World) (n : nat) (user : User) (post : BazaarPost)
         (db : Backend.DB),
    let uid := Some (user_id user) in
    let lookup :=
      Backend.serve uid (w n)
        (Backend.SelectConversationId (post_id_ post) (user_id user)) db in
    let create :=
      Backend.serve uid (w (S n))
        (Backend.InsertConversation (post_id_ post) (user_id user)
           (post_user_id post))
        (fst lookup) in
    Backend.data (snd lookup) = None ->
    Backend.error (snd create)
    = Some (Backend.unique_violation "bazaar_conversations_post_id_buyer_id_key") ->
    let o := run w n uid
               (BazaarDetailScreen.handleMessageSeller (Some user) (Some post)) db in
    BazaarDetailScreen.lookups (trace o) = 2
    /\ (forall id, In id (BazaarDetailScreen.found (trace o)) ->
                   In ("/bazaar/messages/" ++ id)
                      (BazaarDetailScreen.navigations (trace o))).

(** "Must de-duplicate by message identifier before appending to the
    rendered list": with the channel of the thread open, merging the
    INSERT event of a message whose identifier the list holds once leaves
    exactly one copy of it. *)
Definition merge_deduplicates : Prop :=
  forall (conversationId : string) (u : User) (rt : ChatScreen.Runtime)
         (db : Backend.DB) (payload : BazaarMessage),
    ChatScreen.subscription rt = Some (ChatScreen.opened conversationId u) ->
    msg_conversation_id payload = conversationId ->
    ChatScreen.copies (msg_id payload) (ChatScreen.messages (ChatScreen.ui rt)) = 1 ->
    let rt' := fst (ChatScreen.step conversationId (Some u)
                      (ChatScreen.Inserted payload) (rt, db)) in
    ChatScreen.copies (msg_id payload) (ChatScreen.messages (ChatScreen.ui rt')) = 1.

(** "History is always fully loaded before the subscription is opened":
    at any moment after the mount, a channel that is open means the
    history load is over, and an INSERT event that arrives while the load
    is pending is not merged into the list. *)
Definition history_before_subscription : Prop :=
  forall (conversationId : string) (u : User) (evs : list ChatScreen.ScreenEvent)
         (db : Backend.DB),
    JS.truthy conversationId = true ->
    let x := ChatScreen.steps conversationId (Some u) (ChatScreen.Mounted :: evs)
               (ChatScreen.boot, db) in
    (ChatScreen.subscription (fst x) <> None ->
     ChatScreen.loading (ChatScreen.ui (fst x)) = false)
    /\ (forall payload,
          ChatScreen.loading (ChatScreen.ui (fst x)) = true ->
          ChatScreen.messages
            (ChatScreen.ui
               (fst (ChatScreen.step conversationId (Some u)
                       (ChatScreen.Inserted payload) x)))
          = ChatScreen.messages (ChatScreen.ui (fst x))).

End Spec.

(* ================================================================== *)
(** ** Sample rows *)
(* ================================================================== *)

Module Sample.

Definition amina : User := {| user_id := "u-amina" |}.
Definition bilal : User := {| user_id := "u-bilal" |}.

Definition lamp (status : PostStatus) (sold_at : option string) : BazaarPost :=
  {| post_id_ := "p-lamp";
     post_user_id := "u-bilal";
     post_title := "Brass Lamp";
     post_description := Some "Hand made";
     post_price := Some 25%Q;
     post_currency := Some "CAD";
     post_photo_url := None;
     post_city := Some "Toronto";
     post_contact := Some "bilal@example.org";
     post_contact_email := None;
     post_contact_phone := None;
     post_location := None;
     post_status := status;
     post_sold_at := sold_at;
     post_created_at := "2025-01-01T10:00:00.000Z" |}.

Definition rug : BazaarPost :=
  {| post_id_ := "p-rug";
     post_user_id := "u-amina";
     post_title := "Prayer rug";
     post_description := None;
     post_price := None;
     post_currency := None;
     post_photo_url := None;
     post_city := None;
     post_contact := Some "555 0100";
     post_contact_email := None;
     post_contact_phone := None;
     post_location := None;
     post_status := active;
     post_sold_at := None;
     post_created_at := "2025-01-02T10:00:00.000Z" |}.

Definition ids (n : nat) : string := "id-" ++ JS.digits (N.of_nat n).
Definition clock (n : nat) : string := "2025-03-01T00:00:0" ++ JS.digits (N.of_nat n) ++ ".000Z".

(** Amina asks Bilal about the lamp. *)
Definition thread : BazaarConversation :=
  {| conv_id := "c-1";
     conv_post_id := "p-lamp";
     conv_buyer_id := "u-amina";
     conv_seller_id := "u-bilal";
     conv_last_message_at := "2025-02-01T09:00:00.000Z";
     conv_created_at := "2025-02-01T09:00:00.000Z" |}.

Definition msg (id sender content : string) (is_read : bool) (at_ : string)
    : BazaarMessage :=
  {| msg_id := id;
     msg_conversation_id := "c-1";
     msg_sender_id := sender;
     msg_content := content;
     msg_is_read := is_read;
     msg_created_at := at_ |}.

Definition m1 := msg "m-1" "u-amina" "Is the lamp still there?" true "2025-02-01T09:00:00.000Z".
Definition m2 := msg "m-2" "u-bilal" "Yes it is" false "2025-02-01T09:05:00.000Z".
Definition m3 := msg "m-3" "u-bilal" "Come by today" false "2025-02-01T09:06:00.000Z".

Definition seller_profile (rating : Q) (count : Z) : Profile :=
  {| profile_id := "u-bilal";
     profile_first_name := Some "Bilal";
     profile_last_name := None;
     profile_seller_rating := rating;
     profile_seller_rating_count := count |}.

(** Tables with the two listings and nothing else. *)
Definition listed : Backend.DB :=
  {| Backend.bazaar_posts := [lamp active None; rug];
     Backend.bazaar_conversations := [];
     Backend.bazaar_messages := [];
     Backend.seller_ratings := [];
     Backend.profiles := [seller_profile 0 0] |}.

(** The same with Amina's thread and its three messages. *)
Definition chatting : Backend.DB :=
  {| Backend.bazaar_posts := [lamp active None; rug];
     Backend.bazaar_conversations := [thread];
     Backend.bazaar_messages := [m1; m2; m3];
     Backend.seller_ratings := [];
     Backend.profiles := [seller_profile 0 0] |}.

(** A world where, between the resolver's lookup and its create request,
    the same buyer's other device gets its own create request in. *)
Definition racing : Backend.World :=
  fun n =>
    {| Backend.interfere :=
         match n with
         | 1 => fun db =>
                  Backend.with_conversations
                    (Backend.bazaar_conversations db ++ [thread])%list db
         | _ => fun db => db
         end;
       Backend.network_ok := true;
       Backend.uuid := ids n;
       Backend.now := clock n |}.

(** Amina's chat screen on her thread, mounted and with its history
    loaded: the response to [loadMessages], the second call the effect
    made, has arrived. *)
Definition live : ChatScreen.Runtime * Backend.DB :=
  ChatScreen.steps "c-1" (Some amina)
    [ChatScreen.Mounted; ChatScreen.Responded 1 (quiet ids clock 0)]
    (ChatScreen.boot, chatting).

(** A message Bilal sends while the screen is being mounted. *)
Definition m4 := msg "m-4" "u-bilal" "Still interested?" false "2025-02-01T09:07:00.000Z".

(** The chat screen with a draft typed in. *)
Definition drafting (text : string) (sending : bool) : ChatScreen.State :=
  {| ChatScreen.conversation := Some thread;
     ChatScreen.otherProfile := None;
     ChatScreen.post := None;
     ChatScreen.messages := [m1; m2; m3];
     ChatScreen.newMessage := text;
     ChatScreen.loading := false;
     ChatScreen.sending := sending |}.

(** A world that loses every request. *)
Definition offline : Backend.World :=
  fun n => {| Backend.interfere := fun db => db;
              Backend.network_ok := false;
              Backend.uuid := ids n;
              Backend.now := clock n |}.

(** A filled-in new-listing form. *)
Definition teapot : BazaarNewScreen.Form :=
  {| BazaarNewScreen.title := " Copper teapot ";
     BazaarNewScreen.description := "";
     BazaarNewScreen.city := "Ottawa";
     BazaarNewScreen.contact := "amina@example.org";
     BazaarNewScreen.price := "40";
     BazaarNewScreen.currency := BazaarNewScreen.CAD;
     BazaarNewScreen.photo :=
       Some {| BazaarNewScreen.uri := "file:///teapot.jpg";
               BazaarNewScreen.fileSize := Some 204800%N |} |}.

(** [Number] on the one price the sample form holds. *)
Definition number (s : string) : option Q :=
  if (s =? "40")%string then Some 40%Q else None.

(** The lamp is sold and Amina has rated Bilal 3 for it; the trigger has
    brought his profile up to date. *)
Definition first_rating : SellerRating :=
  {| rating_id := "r-1";
     rating_seller_id := "u-bilal";
     rating_buyer_id := "u-amina";
     rating_post_id := Some "p-lamp";
     rating_rating := 3;
     rating_review_text := Some "Fine" |}.

Definition rated : Backend.DB :=
  {| Backend.bazaar_posts := [lamp sold (Some "2025-02-02T00:00:00.000Z"); rug];
     Backend.bazaar_conversations := [thread];
     Backend.bazaar_messages := [m1; m2; m3];
     Backend.seller_ratings := [first_rating];
     Backend.profiles := [seller_profile 3 1] |}.

(** The same before she rated. *)
Definition unrated : Backend.DB :=
  {| Backend.bazaar_posts := [lamp sold (Some "2025-02-02T00:00:00.000Z"); rug];
     Backend.bazaar_conversations := [thread];
     Backend.bazaar_messages := [m1; m2; m3];
     Backend.seller_ratings := [];
     Backend.profiles := [seller_profile 0 0] |}.

(** The policies of [seller_ratings] with the one the script lacks: a
    buyer may update their own rating. *)
Definition rating_policies_with_update : Backend.Policies SellerRating :=
  {| Backend.for_select := Backend.for_select Backend.rating_policies;
     Backend.for_insert := Backend.for_insert Backend.rating_policies;
     Backend.for_update := Some (fun uid r => (uid =? rating_buyer_id r)%string) |}.

End Sample.

(* ================================================================== *)
(** ** Facts about the built-ins *)
(* ================================================================== *)

Module JSFacts.

Lemma trimStart_blank (s : string) : JS.Blank s -> JS.trimStart s = "".
Proof.
  induction 1 as [|c s Hc _ IH|c1 c2 s H1 H2 _ IH|c1 c2 c3 s H1 H2 H3 _ IH];
    simpl.
  - reflexivity.
  - now rewrite Hc.
  - now rewrite H1, H2.
  - now rewrite H1, H2, H3.
Qed.

Lemma trim_blank (s : string) : JS.Blank s -> JS.trim s = "".
Proof.
  intro H. unfold JS.trim. now rewrite (trimStart_blank s H).
Qed.

(** [toFixed] on a number that is an integer, whatever fraction stands
    for it. *)
Lemma toFixed_n_integer (x : Q) (z : Z) (f : nat) :
  (0 <= z)%Z -> x == inject_Z z ->
  JS.toFixed_n x f = Z.to_N (z * 10 ^ Z.of_nat f).
Proof.
  intros Hz Hx. unfold JS.toFixed_n.
  unfold Qeq in Hx. simpl in Hx. rewrite Z.mul_1_r in Hx. rewrite Hx.
  set (d := Zpos (Qden x)). set (T := (10 ^ Z.of_nat f)%Z).
  assert (Hd : (0 < d)%Z) by (subst d; lia).
  rewrite Z.abs_eq by nia.
  f_equal. symmetry. apply Z.div_unique with (r := d); nia.
Qed.

Lemma sign_integer (x : Q) (z : Z) :
  (0 <= z)%Z -> x == inject_Z z -> (Qnum x <? 0)%Z = false.
Proof.
  intros Hz Hx. unfold Qeq in Hx. simpl in Hx. rewrite Z.mul_1_r in Hx.
  apply Z.ltb_ge. rewrite Hx. nia.
Qed.

Lemma toFixed_25 (x : Q) :
  x == 25 -> JS.toFixed x 0 = "25" /\ JS.toFixed x 2 = "25.00".
Proof.
  intro Hx. change (x == inject_Z 25) in Hx.
  unfold JS.toFixed.
  rewrite (sign_integer x 25), !(toFixed_n_integer x 25) by (lia || exact Hx).
  split; reflexivity.
Qed.

End JSFacts.

(* ================================================================== *)
(** ** Price formatting *)
(* ================================================================== *)

(** C3 (as amended).  For a price equal to 25: the marketplace grid's
    [formatPrice] gives [C$25] with currency CAD and [$25] with USD, and
    [Contact for price] for a null price; the detail screen's [formatPrice]
    gives [C$25.00 CAD] and [$25.00 USD], and null for a null price. *)
Theorem formatPrice_at_25 (price : Q) :
  price == 25 ->
  BazaarScreen.formatPrice (Some price) (Some "CAD") = "C$25"
  /\ BazaarScreen.formatPrice (Some price) (Some "USD") = "$25"
  /\ (forall currency, BazaarScreen.formatPrice None currency = "Contact for price")
  /\ BazaarDetailScreen.formatPrice (Some price) (Some "CAD") = Some "C$25.00 CAD"
  /\ BazaarDetailScreen.formatPrice (Some price) (Some "USD") = Some "$25.00 USD"
  /\ (forall currency, BazaarDetailScreen.formatPrice None currency = None).
Proof.
  intro H. destruct (JSFacts.toFixed_25 price H) as [H0 H2].
  unfold BazaarScreen.formatPrice, BazaarDetailScreen.formatPrice.
  simpl. rewrite H0, H2. repeat split; reflexivity.
Qed.

Lemma formatPrice_at_25_witness :
  BazaarScreen.formatPrice (Some (2500 # 100)) (Some "CAD") = "C$25"
  /\ BazaarDetailScreen.formatPrice (Some (2500 # 100)) (Some "CAD")
     = Some "C$25.00 CAD".
Proof.
  pose proof (formatPrice_at_25 (2500 # 100)) as H.
  split; apply H; reflexivity.
Defined.

(** C3, as stated, fails for the detail screen's [formatPrice]. *)
Lemma formatPrice_detail_not_as_specified :
  ~ Spec.formats_as_specified BazaarDetailScreen.formatPrice.
Proof.
  intros [H _]. vm_compute in H. discriminate H.
Qed.

(* ================================================================== *)
(** ** Client-side listing filter *)
(* ================================================================== *)

Lemma filteredPosts_incl posts q f user p :
  In p (BazaarScreen.filteredPosts posts q f user) ->
  match f, user with
  | BazaarScreen.mine, Some u => (post_user_id p =? user_id u)%string = true
  | _, _ => negb (PostStatus_eqb (post_status p) sold) = true
  end /\ In p posts.
Proof.
  unfold BazaarScreen.filteredPosts.
  set (query := JS.toLowerCase (JS.trim q)).
  intro H.
  assert (H' : In p (match f, user with
                     | BazaarScreen.mine, Some u =>
                         filter (fun post => (post_user_id post =? user_id u)%string) posts
                     | _, _ =>
                         filter (fun post => negb (PostStatus_eqb (post_status post) sold)) posts
                     end)).
  { destruct (negb (JS.truthy query)); [exact H|].
    apply filter_In in H. tauto. }
  clear H. destruct f, user; apply filter_In in H'; tauto.
Qed.

(** C10.  With the filter on [all], no post of the filtered list is sold,
    whatever was fetched, whatever the query and whoever is signed in; with
    the filter on [mine] and a user signed in, every post of the filtered
    list is that user's, and a sold post of the user that was fetched is in
    the list when the query is blank or matches it. *)
Theorem filteredPosts_scope (posts : list BazaarPost) (q : string)
    (user : option User) (u : User) :
  (forall p, In p (BazaarScreen.filteredPosts posts q BazaarScreen.all user) ->
             post_status p <> sold)
  /\ (forall p, In p (BazaarScreen.filteredPosts posts q BazaarScreen.mine (Some u)) ->
                post_user_id p = user_id u)
  /\ (forall p, In p posts -> post_user_id p = user_id u -> post_status p = sold ->
                JS.trim q = ""
                \/ BazaarScreen.matches (JS.toLowerCase (JS.trim q)) p = true ->
                In p (BazaarScreen.filteredPosts posts q BazaarScreen.mine (Some u))).
Proof.
  repeat split.
  - intros p H. apply filteredPosts_incl in H. destruct H as [H _].
    assert (Hs : negb (PostStatus_eqb (post_status p) sold) = true)
      by (destruct user; exact H).
    intro E. rewrite E in Hs. discriminate Hs.
  - intros p H. apply filteredPosts_incl in H. destruct H as [H _].
    now apply String.eqb_eq.
  - intros p Hin Hu _ Hq. unfold BazaarScreen.filteredPosts.
    assert (Hs : In p (filter (fun post => (post_user_id post =? user_id u)%string) posts)).
    { apply filter_In. split; [exact Hin|]. now apply String.eqb_eq. }
    destruct Hq as [Hq|Hq].
    + rewrite Hq. simpl. exact Hs.
    + destruct (negb (JS.truthy (JS.toLowerCase (JS.trim q)))); [exact Hs|].
      apply filter_In. split; assumption.
Qed.

Lemma filteredPosts_scope_witness :
  In (Sample.lamp sold (Some "2025-02-01T00:00:00.000Z"))
     (BazaarScreen.filteredPosts
        [Sample.rug; Sample.lamp sold (Some "2025-02-01T00:00:00.000Z")]
        " LAMP " BazaarScreen.mine (Some Sample.bilal)).
Proof.
  apply (filteredPosts_scope
           [Sample.rug; Sample.lamp sold (Some "2025-02-01T00:00:00.000Z")]
           " LAMP " None Sample.bilal).
  - simpl. right. left. reflexivity.
  - reflexivity.
  - reflexivity.
  - right. reflexivity.
Defined.

(* ================================================================== *)
(** ** Read state and unread counts *)
(* ================================================================== *)

Module ReadState.

Import Backend.

Lemma unread_after_set_is_read c u m : unread_inbound c u (set_is_read m) = false.
Proof.
  unfold unread_inbound. simpl. now rewrite andb_false_r.
Qed.

(** Whether a message row is visible or updatable depends on the
    conversations only. *)
Lemma select_policy_with_messages l db auth m :
  allowed (for_select (message_policies (with_messages l db))) auth m
  = allowed (for_select (message_policies db)) auth m.
Proof. reflexivity. Qed.

Lemma update_policy_is_select_policy db auth m :
  allowed (for_update (message_policies db)) auth m
  = allowed (for_select (message_policies db)) auth m.
Proof. reflexivity. Qed.

Lemma count_unread_mark_read auth c u db :
  count_unread auth c u (mark_read auth c u db) = 0.
Proof.
  unfold count_unread, visible_messages, mark_read, update_where.
  change (bazaar_messages (with_messages ?l db)) with l.
  induction (bazaar_messages db) as [|m l IH]; [reflexivity|].
  cbn [map filter].
  rewrite select_policy_with_messages in *.
  rewrite update_policy_is_select_policy.
  destruct (allowed (for_select (message_policies db)) auth m) eqn:Hv; cbn [andb].
  - destruct (unread_inbound c u m) eqn:Hu.
    + change (allowed (for_select (message_policies db)) auth (set_is_read m))
        with (allowed (for_select (message_policies db)) auth m).
      rewrite Hv. cbn [filter]. rewrite unread_after_set_is_read. exact IH.
    + rewrite Hv. cbn [filter]. rewrite Hu. exact IH.
  - rewrite Hv. exact IH.
Qed.

Lemma policy_after_mark_read auth' c u db auth m :
  allowed (for_select (message_policies (mark_read auth' c u db))) auth m
  = allowed (for_select (message_policies db)) auth m
  /\ allowed (for_update (message_policies (mark_read auth' c u db))) auth m
     = allowed (for_select (message_policies db)) auth m.
Proof. split; reflexivity. Qed.

Lemma mark_read_idempotent auth c u db :
  mark_read auth c u (mark_read auth c u db) = mark_read auth c u db.
Proof.
  unfold mark_read at 1 3. unfold with_messages.
  cbn [bazaar_posts bazaar_conversations seller_ratings profiles
       bazaar_messages mark_read with_messages].
  f_equal. unfold update_where. rewrite map_map. apply map_ext. intro m.
  set (cond := allowed (for_select (message_policies db)) auth m
               && allowed (for_update (message_policies db)) auth m
               && unread_inbound c u m).
  destruct (policy_after_mark_read auth c u db auth
              (if cond then set_is_read m else m)) as [-> ->].
  destruct cond eqn:Hc.
  - now rewrite unread_after_set_is_read, andb_false_r.
  - subst cond. rewrite update_policy_is_select_policy in Hc.
    now rewrite Hc.
Qed.

End ReadState.

Lemma run_markMessagesAsRead (w : Backend.World) (n : nat) (user : User)
    (c : string) (db : Backend.DB) :
  run w n (Some (user_id user)) (ChatScreen.markMessagesAsRead c (Some user)) db
  = if Backend.network_ok (w n)
    then {| result := tt;
            final := Backend.mark_read (Some (user_id user)) c (user_id user)
                       (Backend.interfere (w n) db);
            trace := [Requested (Backend.UpdateMessagesRead c (user_id user))
                                Backend.done];
            turns := S n |}
    else {| result := tt;
            final := Backend.interfere (w n) db;
            trace := [Requested (Backend.UpdateMessagesRead c (user_id user))
                                (Backend.failed Backend.request_failed)];
            turns := S n |}.
Proof.
  unfold ChatScreen.markMessagesAsRead. cbn [run]. unfold Backend.serve.
  destruct (Backend.network_ok (w n)); reflexivity.
Qed.

Lemma run_unread_count {E} (w : Backend.World) (n : nat) (auth : option string)
    (conv : BazaarConversation) (user : User) (db : Backend.DB) :
  result (run w n auth (@ConversationsScreen.unread_count E conv user) db)
  = if Backend.network_ok (w n)
    then Backend.count_unread auth (conv_id conv) (user_id user)
           (Backend.interfere (w n) db)
    else 0.
Proof.
  unfold ConversationsScreen.unread_count. cbn [run]. unfold Backend.serve.
  destruct (Backend.network_ok (w n)); reflexivity.
Qed.

(** C6.  When the bulk mark-read of the chat screen gets through, the
    unread count the inbox computes next for that conversation and user
    (no other write in between) is zero, whatever it was before, and a
    second bulk mark-read leaves the tables as the first left them. *)
Theorem markMessagesAsRead_clears_unread (w : Backend.World) (n : nat)
    (user : User) (conv : BazaarConversation) (db : Backend.DB) :
  Backend.network_ok (w n) = true ->
  (forall d, Backend.interfere (w (S n)) d = d) ->
  let uid := Some (user_id user) in
  let marked :=
    run w n uid (ChatScreen.markMessagesAsRead (conv_id conv) (Some user)) db in
  result (run w (turns marked) uid
            (@ConversationsScreen.unread_count ChatScreen.Effect conv user)
            (final marked)) = 0
  /\ final (run w (turns marked) uid
              (ChatScreen.markMessagesAsRead (conv_id conv) (Some user))
              (final marked)) = final marked.
Proof.
  intros Hnet Hquiet uid marked. subst marked uid.
  rewrite (run_markMessagesAsRead w n), Hnet. cbn [final turns].
  rewrite run_unread_count, run_markMessagesAsRead, !Hquiet.
  destruct (Backend.network_ok (w (S n))); cbn [final]; split;
    auto using ReadState.count_unread_mark_read, ReadState.mark_read_idempotent.
Qed.

Lemma markMessagesAsRead_clears_unread_witness :
  Backend.count_unread (Some "u-amina") "c-1" "u-amina" Sample.chatting = 2
  /\ result (run (quiet Sample.ids Sample.clock) 1 (Some "u-amina")
               (@ConversationsScreen.unread_count ChatScreen.Effect
                  Sample.thread Sample.amina)
               (final (run (quiet Sample.ids Sample.clock) 0 (Some "u-amina")
                         (ChatScreen.markMessagesAsRead "c-1" (Some Sample.amina))
                         Sample.chatting))) = 0.
Proof.
  split; [reflexivity|].
  apply (markMessagesAsRead_clears_unread (quiet Sample.ids Sample.clock) 0
           Sample.amina Sample.thread Sample.chatting).
  - reflexivity.
  - intro d. reflexivity.
Defined.

(* ================================================================== *)
(** ** The conversation resolver *)
(* ================================================================== *)

Module Resolver.

Import Backend BazaarDetailScreen.

(** The run of the resolver, by the responses to its two requests. *)
Lemma run_handleMessageSeller (w : World) (n : nat) (user : User)
    (post : BazaarPost) (db : DB) :
  let uid := Some (user_id user) in
  let lookup :=
    serve uid (w n) (SelectConversationId (post_id_ post) (user_id user)) db in
  let create :=
    serve uid (w (S n))
      (InsertConversation (post_id_ post) (user_id user) (post_user_id post))
      (fst lookup) in
  run w n uid (handleMessageSeller (Some user) (Some post)) db
  = match data (snd lookup) with
    | Some id =>
        {| result := tt; final := fst lookup;
           trace := [Requested (SelectConversationId (post_id_ post) (user_id user))
                               (snd lookup);
                     Did (RouterPush ("/bazaar/messages/" ++ id))];
           turns := S n |}
    | None =>
        {| result := tt; final := fst create;
           trace :=
             Requested (SelectConversationId (post_id_ post) (user_id user))
                       (snd lookup)
             :: Requested (InsertConversation (post_id_ post) (user_id user)
                             (post_user_id post))
                          (snd create)
             :: match error (snd create), data (snd create) with
                | Some _, _ =>
                    [Did (AlertAlert "Error"
                            "Unable to start conversation. Please try again.")]
                | None, Some newConv =>
                    [Did (RouterPush ("/bazaar/messages/" ++ conv_id newConv))]
                | None, None => []
                end;
           turns := S (S n) |}
    end.
Proof.
  intros uid lookup create. unfold handleMessageSeller. cbn [run].
  fold uid. fold lookup. destruct (data (snd lookup)) as [id|].
  - reflexivity.
  - cbn [run]. fold create.
    destruct (error (snd create)); [reflexivity|].
    destruct (data (snd create)); reflexivity.
Qed.

(** The buyer sees every conversation of the pair. *)
Lemma buyer_sees_pair (p b : string) (l : list BazaarConversation) :
  filter (fun c => allowed (for_select conversation_policies) (Some b) c
                   && same_pair p b c) l
  = filter (same_pair p b) l.
Proof.
  apply filter_ext. intro c. unfold same_pair. cbn.
  destruct (conv_buyer_id c =? b)%string eqn:E.
  - rewrite String.eqb_sym, E. now rewrite andb_true_r.
  - now rewrite !andb_false_r.
Qed.

Lemma serve_quiet_lookup ids clock n (p b : string) (db : DB) :
  serve (Some b) (quiet ids clock n) (SelectConversationId p b) db
  = (db, single conv_id (pair_rows p b db)).
Proof.
  unfold serve. cbn [quiet interfere network_ok negb].
  now rewrite buyer_sees_pair.
Qed.

Lemma existsb_false_filter {A} (f : A -> bool) (l : list A) :
  filter f l = [] -> existsb f l = false.
Proof.
  induction l as [|x l IH]; [reflexivity|]. cbn.
  destruct (f x); [discriminate|]. exact IH.
Qed.

Lemma existsb_id_fresh (id : string) (l : list BazaarConversation) :
  (forall c, In c l -> conv_id c <> id) ->
  existsb (fun c => (conv_id c =? id)%string) l = false.
Proof.
  induction l as [|x l IH]; intro H; [reflexivity|]. cbn.
  rewrite IH by (intros c Hc; apply H; now right).
  destruct (String.eqb_spec (conv_id x) id) as [E|E]; [|reflexivity].
  exfalso. apply (H x); [now left | exact E].
Qed.

(** With no row for the pair, the post present and a fresh identifier, the
    buyer's create request is accepted. *)
Lemma serve_quiet_create ids clock n (p b seller : string) (db : DB) :
  pair_rows p b db = [] ->
  has_post p db = true ->
  (forall c, In c (bazaar_conversations db) -> conv_id c <> ids n) ->
  let row := {| conv_id := ids n; conv_post_id := p; conv_buyer_id := b;
                conv_seller_id := seller;
                conv_last_message_at := clock n; conv_created_at := clock n |} in
  serve (Some b) (quiet ids clock n) (InsertConversation p b seller) db
  = (with_conversations (bazaar_conversations db ++ [row])%list db, ok row).
Proof.
  intros Hnone Hpost Hfresh row. unfold serve.
  cbn [quiet interfere network_ok negb]. unfold insert_conversation.
  cbn [uuid now quiet allowed for_insert conversation_policies conv_buyer_id].
  rewrite String.eqb_refl. cbn [negb].
  rewrite (existsb_id_fresh (ids n) _ Hfresh).
  rewrite (existsb_false_filter _ _ Hnone), Hpost. reflexivity.
Qed.

Lemma pair_rows_after_insert (p b : string) (row : BazaarConversation) (db : DB) :
  pair_rows p b db = [] ->
  conv_post_id row = p -> conv_buyer_id row = b ->
  pair_rows p b (with_conversations (bazaar_conversations db ++ [row])%list db)
  = [row].
Proof.
  intros Hnone Hp Hb. unfold pair_rows in *.
  cbn [bazaar_conversations with_conversations].
  rewrite filter_app, Hnone. cbn [filter app]. unfold same_pair.
  now rewrite Hp, Hb, !String.eqb_refl.
Qed.

End Resolver.

(** C1 (as amended).  When the point lookup of the resolver misses and its
    create request fails, for the pair's uniqueness or for any other
    reason, the run is the lookup, the create request and the alert
    "Unable to start conversation", in this order and nothing else: one
    lookup in all, none after the failure, and no navigation. *)
Theorem handleMessageSeller_create_failure (w : Backend.World) (n : nat)
    (user : User) (post : BazaarPost) (db : Backend.DB) :
  let uid := Some (user_id user) in
  let lookup :=
    Backend.serve uid (w n)
      (Backend.SelectConversationId (post_id_ post) (user_id user)) db in
  let create :=
    Backend.serve uid (w (S n))
      (Backend.InsertConversation (post_id_ post) (user_id user)
         (post_user_id post))
      (fst lookup) in
  Backend.data (snd lookup) = None ->
  Backend.error (snd create) <> None ->
  let o := run w n uid
             (BazaarDetailScreen.handleMessageSeller (Some user) (Some post)) db in
  trace o
  = [ Requested (Backend.SelectConversationId (post_id_ post) (user_id user))
                (snd lookup);
      Requested (Backend.InsertConversation (post_id_ post) (user_id user)
                   (post_user_id post))
                (snd create);
      Did (BazaarDetailScreen.AlertAlert "Error"
             "Unable to start conversation. Please try again.") ]
  /\ BazaarDetailScreen.lookups (trace o) = 1
  /\ BazaarDetailScreen.navigations (trace o) = [].
Proof.
  intros uid lookup create Hmiss Hfail o. subst o create lookup uid.
  rewrite (Resolver.run_handleMessageSeller w n user post db).
  cbv zeta. rewrite Hmiss.
  match goal with |- context [Backend.error ?r] =>
    destruct (Backend.error r) as [e|]; [|congruence] end.
  cbn [trace]. repeat split.
Qed.

Lemma handleMessageSeller_create_failure_witness :
  let o := run Sample.racing 0 (Some "u-amina")
             (BazaarDetailScreen.handleMessageSeller
                (Some Sample.amina) (Some (Sample.lamp active None)))
             Sample.listed in
  BazaarDetailScreen.lookups (trace o) = 1
  /\ BazaarDetailScreen.navigations (trace o) = []
  /\ Backend.bazaar_conversations (final o) = [Sample.thread].
Proof.
  pose proof (handleMessageSeller_create_failure Sample.racing 0 Sample.amina
                (Sample.lamp active None) Sample.listed) as H.
  cbv zeta in H.
  destruct H as (_ & Hl & Hn); [reflexivity | vm_compute; discriminate |].
  split; [exact Hl|]. split; [exact Hn|]. reflexivity.
Defined.

(** C1, as stated, fails: in the race the resolver looks up once, not
    twice, and never navigates to the conversation the other create
    request made. *)
Lemma handleMessageSeller_does_not_relookup : ~ Spec.relookup_once.
Proof.
  intro H.
  specialize (H Sample.racing 0 Sample.amina (Sample.lamp active None) Sample.listed).
  cbv zeta in H.
  destruct H as [H _]; [reflexivity | reflexivity |].
  vm_compute in H. discriminate H.
Qed.

(** C5.  In tables that hold at most one conversation for the pair and
    the post's row, with nothing else writing and a fresh identifier for a
    new row, two runs of the resolver in sequence navigate to the same
    conversation: the second run's lookup finds the one the first run
    found or created, it sends no create request and changes nothing, and
    the pair has that one conversation. *)
Theorem handleMessageSeller_twice (ids clock : nat -> string) (n : nat)
    (user : User) (post : BazaarPost) (db : Backend.DB) :
  List.length (Backend.pair_rows (post_id_ post) (user_id user) db) <= 1 ->
  Backend.has_post (post_id_ post) db = true ->
  (forall c, In c (Backend.bazaar_conversations db) -> conv_id c <> ids (S n)) ->
  let w := quiet ids clock in
  let uid := Some (user_id user) in
  let resolver :=
    BazaarDetailScreen.handleMessageSeller (Some user) (Some post) in
  let first := run w n uid resolver db in
  let second := run w (turns first) uid resolver (final first) in
  exists id,
    BazaarDetailScreen.navigations (trace first) = ["/bazaar/messages/" ++ id]
    /\ BazaarDetailScreen.navigations (trace second) = ["/bazaar/messages/" ++ id]
    /\ BazaarDetailScreen.found (trace second) = [id]
    /\ BazaarDetailScreen.creates (trace second) = 0
    /\ final second = final first
    /\ map conv_id (Backend.pair_rows (post_id_ post) (user_id user) (final second))
       = [id].
Proof.
  intros Hone Hpost Hfresh w uid resolver first second.
  subst second first resolver uid w.
  rewrite (Resolver.run_handleMessageSeller (quiet ids clock) n user post db).
  cbv zeta. rewrite Resolver.serve_quiet_lookup. cbn [fst snd].
  destruct (Backend.pair_rows (post_id_ post) (user_id user) db)
    as [|c [|c' l]] eqn:Hrows.
  - (* no conversation yet: the first run creates one *)
    cbn [Backend.single Backend.data Backend.failed].
    rewrite (Resolver.serve_quiet_create ids clock (S n) _ _ _ db Hrows Hpost Hfresh).
    cbv zeta. cbn [fst snd Backend.error Backend.data Backend.ok final turns trace].
    exists (ids (S n)).
    rewrite (Resolver.run_handleMessageSeller (quiet ids clock) (S (S n)) user post).
    cbv zeta. rewrite Resolver.serve_quiet_lookup. cbn [fst snd].
    rewrite !(Resolver.pair_rows_after_insert _ _ _ db Hrows) by reflexivity.
    cbn [Backend.single Backend.data Backend.ok final trace conv_id map].
    repeat split; try reflexivity.
    now rewrite (Resolver.pair_rows_after_insert _ _ _ db Hrows).
  - (* one conversation: both runs find it *)
    cbn [Backend.single Backend.data Backend.ok final turns trace].
    exists (conv_id c).
    rewrite (Resolver.run_handleMessageSeller (quiet ids clock) (S n) user post).
    cbv zeta. rewrite Resolver.serve_quiet_lookup. cbn [fst snd].
    rewrite Hrows.
    cbn [Backend.single Backend.data Backend.ok final trace].
    repeat split; try reflexivity.
    now rewrite Hrows.
  - cbn in Hone. lia.
Qed.

Lemma handleMessageSeller_twice_witness :
  let w := quiet Sample.ids Sample.clock in
  let resolver :=
    BazaarDetailScreen.handleMessageSeller
      (Some Sample.amina) (Some (Sample.lamp active None)) in
  let first := run w 0 (Some "u-amina") resolver Sample.listed in
  let second := run w (turns first) (Some "u-amina") resolver (final first) in
  BazaarDetailScreen.creates (trace first) = 1
  /\ exists id,
       BazaarDetailScreen.navigations (trace first) = ["/bazaar/messages/" ++ id]
       /\ BazaarDetailScreen.navigations (trace second) = ["/bazaar/messages/" ++ id].
Proof.
  cbv zeta. split; [reflexivity|].
  destruct (handleMessageSeller_twice Sample.ids Sample.clock 0 Sample.amina
              (Sample.lamp active None) Sample.listed) as (id & H1 & H2 & _).
  - cbn. lia.
  - reflexivity.
  - intros c [].
  - exists id. split; [exact H1 | exact H2].
Defined.

(* ================================================================== *)
(** ** The chat thread: history, channel and draft *)
(* ================================================================== *)

Module Chat.

Import ChatScreen.

Lemma copies_app id l1 l2 : copies id (l1 ++ l2) = copies id l1 + copies id l2.
Proof.
  unfold copies. now rewrite filter_app, length_app.
Qed.

(** The callback, run to its first [await]: the row goes to the end of the
    list; nothing else of the UI state changes. *)
Lemma settle_on_insert (u : User) (payload : BazaarMessage) (rt : Runtime) :
  messages (ui (settle (on_insert u payload) rt)) = (messages (ui rt) ++ [payload])%list
  /\ loading (ui (settle (on_insert u payload) rt)) = loading (ui rt)
  /\ subscription (settle (on_insert u payload) rt) = subscription rt.
Proof.
  unfold on_insert. cbn [settle].
  destruct (negb (msg_sender_id payload =? user_id u)%string);
    repeat split; reflexivity.
Qed.

End Chat.

(** C2 (as amended).  With the channel of the thread open, the callback
    appends the row of an INSERT event for the thread to the messages
    state as it is, without looking at identifiers: the list afterwards is
    the list before with the row at its end, so the number of copies of
    its identifier grows by one. *)
Theorem on_insert_appends (conversationId : string) (u : User)
    (rt : ChatScreen.Runtime) (db : Backend.DB) (payload : BazaarMessage) :
  ChatScreen.subscription rt = Some (ChatScreen.opened conversationId u) ->
  msg_conversation_id payload = conversationId ->
  let rt' := fst (ChatScreen.step conversationId (Some u)
                    (ChatScreen.Inserted payload) (rt, db)) in
  ChatScreen.messages (ChatScreen.ui rt')
  = (ChatScreen.messages (ChatScreen.ui rt) ++ [payload])%list
  /\ ChatScreen.copies (msg_id payload) (ChatScreen.messages (ChatScreen.ui rt'))
     = S (ChatScreen.copies (msg_id payload) (ChatScreen.messages (ChatScreen.ui rt))).
Proof.
  intros Hsub Hconv rt'. subst rt'. cbn [ChatScreen.step]. rewrite Hsub.
  cbn [ChatScreen.opened ChatScreen.filter_conversation_id ChatScreen.callback].
  rewrite Hconv, String.eqb_refl. cbn [fst].
  destruct (Chat.settle_on_insert u payload rt) as (Hm & _ & _).
  rewrite Hm. split; [reflexivity|].
  rewrite Chat.copies_app. unfold ChatScreen.copies at 2. cbn [filter].
  rewrite String.eqb_refl. cbn. lia.
Qed.

Lemma on_insert_appends_witness :
  ChatScreen.messages (ChatScreen.ui (fst Sample.live))
  = [Sample.m1; Sample.m2; Sample.m3]
  /\ ChatScreen.copies "m-3"
       (ChatScreen.messages
          (ChatScreen.ui
             (fst (ChatScreen.step "c-1" (Some Sample.amina)
                     (ChatScreen.Inserted Sample.m3) Sample.live)))) = 2.
Proof.
  split; [reflexivity|].
  apply (on_insert_appends "c-1" Sample.amina (fst Sample.live) (snd Sample.live)
           Sample.m3); reflexivity.
Defined.

(** C2, as stated, fails: the event of a message of the loaded history
    leaves two copies of it in the list. *)
Lemma on_insert_does_not_deduplicate : ~ Spec.merge_deduplicates.
Proof.
  intro H.
  specialize (H "c-1" Sample.amina (fst Sample.live) (snd Sample.live) Sample.m3).
  cbv zeta in H. specialize (H eq_refl eq_refl eq_refl).
  vm_compute in H. discriminate H.
Qed.

(** C4 (as amended).  The mount effect starts the history fetch and opens
    the channel in one go, without waiting for the fetch: right after the
    mount the channel of the thread is open, [loading] is still true and
    the call of [loadMessages] waits for its response; an INSERT event for
    the thread that arrives now is appended to the (empty) list, with the
    load still pending. *)
Theorem useEffect_subscribes_while_loading (conversationId : string) (u : User)
    (db : Backend.DB) :
  JS.truthy conversationId = true ->
  let x := ChatScreen.step conversationId (Some u) ChatScreen.Mounted
             (ChatScreen.boot, db) in
  ChatScreen.subscription (fst x) = Some (ChatScreen.opened conversationId u)
  /\ ChatScreen.loading (ChatScreen.ui (fst x)) = true
  /\ nth_error (ChatScreen.parked (fst x)) 1
     = Some (ChatScreen.loadMessages conversationId)
  /\ (forall payload,
        msg_conversation_id payload = conversationId ->
        let y := ChatScreen.step conversationId (Some u)
                   (ChatScreen.Inserted payload) x in
        ChatScreen.messages (ChatScreen.ui (fst y)) = [payload]
        /\ ChatScreen.loading (ChatScreen.ui (fst y)) = true).
Proof.
  intros Hid x. subst x. cbn [ChatScreen.step ChatScreen.useEffect].
  rewrite Hid. cbn [fst].
  split; [reflexivity|]. split; [reflexivity|]. split; [reflexivity|].
  intros payload Hconv. cbn [ChatScreen.step].
  cbn [ChatScreen.subscription ChatScreen.subscribe ChatScreen.opened
       ChatScreen.filter_conversation_id ChatScreen.callback].
  rewrite Hconv, String.eqb_refl. cbn [fst].
  match goal with |- context [ChatScreen.settle (ChatScreen.on_insert u payload) ?rt] =>
    destruct (Chat.settle_on_insert u payload rt) as (Hm & Hl & _) end.
  rewrite Hm, Hl. split; reflexivity.
Qed.

Lemma useEffect_subscribes_while_loading_witness :
  let x := ChatScreen.steps "c-1" (Some Sample.amina)
             [ChatScreen.Mounted; ChatScreen.Inserted Sample.m4]
             (ChatScreen.boot, Sample.chatting) in
  ChatScreen.messages (ChatScreen.ui (fst x)) = [Sample.m4]
  /\ ChatScreen.loading (ChatScreen.ui (fst x)) = true.
Proof.
  cbv zeta.
  destruct (useEffect_subscribes_while_loading "c-1" Sample.amina Sample.chatting
              eq_refl) as (_ & _ & _ & H).
  exact (H Sample.m4 eq_refl).
Defined.

(** C4, as stated, fails: right after the mount the channel is open and
    the history load is pending. *)
Lemma subscription_opens_before_history : ~ Spec.history_before_subscription.
Proof.
  intro H.
  destruct (H "c-1" Sample.amina [] Sample.chatting eq_refl) as [H1 _].
  cbn in H1. discriminate H1. intro E. discriminate E.
Qed.

(** C9.  [sendMessage] does nothing (no effect, no request) when the input
    is blank or a send is in flight.  Otherwise it sets [sending], clears
    the input and only then sends the insert of the trimmed text; when the
    response comes it resets [sending] and, if the response carries an
    error, puts the trimmed text back into the input; without an error the
    input stays empty.  The messages state is not touched either way. *)
Theorem sendMessage_keeps_draft (w : Backend.World) (n : nat)
    (conversationId : string) (user : User) (st : ChatScreen.State)
    (db : Backend.DB) :
  let uid := Some (user_id user) in
  let content := JS.trim (ChatScreen.newMessage st) in
  let o := run w n uid (ChatScreen.sendMessage conversationId (Some user) st) db in
  let resp :=
    snd (Backend.serve uid (w n)
           (Backend.InsertMessage conversationId (user_id user) content) db) in
  (JS.Blank (ChatScreen.newMessage st) \/ ChatScreen.sending st = true ->
   trace o = [] /\ final o = db)
  /\ (content <> "" -> ChatScreen.sending st = false ->
      trace o
      = (Did (ChatScreen.SetSending true)
         :: Did (ChatScreen.SetNewMessage "")
         :: Requested (Backend.InsertMessage conversationId (user_id user) content)
                      resp
         :: Did (ChatScreen.SetSending false)
         :: match Backend.error resp with
            | Some _ => [Did (ChatScreen.SetNewMessage content)]
            | None => []
            end)%list
      /\ ChatScreen.newMessage (ChatScreen.after (trace o) st)
         = match Backend.error resp with
           | Some _ => content
           | None => ""
           end
      /\ ChatScreen.messages (ChatScreen.after (trace o) st)
         = ChatScreen.messages st
      /\ ChatScreen.sending (ChatScreen.after (trace o) st) = false).
Proof.
  intros uid content o resp. subst o resp. unfold ChatScreen.sendMessage.
  fold content. split.
  - intros [Hb|Hs].
    + subst content. rewrite (JSFacts.trim_blank _ Hb). cbn. split; reflexivity.
    + rewrite Hs, orb_true_r. cbn. split; reflexivity.
  - intros Hc Hs. rewrite Hs.
    destruct content eqn:E; [congruence|]. cbn [JS.truthy negb orb].
    cbn [run trace].
    destruct (Backend.error (snd (Backend.serve uid (w n)
                (Backend.InsertMessage conversationId (user_id user) (String a s))
                db)));
      cbn [run trace ChatScreen.after ChatScreen.apply ChatScreen.newMessage
           ChatScreen.messages ChatScreen.sending];
      repeat split; reflexivity.
Qed.

Lemma sendMessage_keeps_draft_witness :
  let o := run Sample.offline 0 (Some "u-amina")
             (ChatScreen.sendMessage "c-1" (Some Sample.amina)
                (Sample.drafting "  On my way  " false))
             Sample.chatting in
  ChatScreen.newMessage
    (ChatScreen.after (trace o) (Sample.drafting "  On my way  " false))
  = "On my way"
  /\ trace (run Sample.offline 0 (Some "u-amina")
              (ChatScreen.sendMessage "c-1" (Some Sample.amina)
                 (Sample.drafting "On my way" true))
              Sample.chatting) = [].
Proof.
  cbv zeta. split.
  - destruct (sendMessage_keeps_draft Sample.offline 0 "c-1" Sample.amina
                (Sample.drafting "  On my way  " false) Sample.chatting)
      as [_ H].
    destruct H as (_ & H & _); [vm_compute; discriminate | reflexivity |].
    exact H.
  - destruct (sendMessage_keeps_draft Sample.offline 0 "c-1" Sample.amina
                (Sample.drafting "On my way" true) Sample.chatting)
      as [H _].
    destruct H as [H _]; [right; reflexivity | exact H].
Defined.

(* ================================================================== *)
(** ** Listing status *)
(* ================================================================== *)

Module Listing.

Import Backend.

Lemma posts_update_seller_rating seller db :
  bazaar_posts (update_seller_rating seller db) = bazaar_posts db.
Proof. reflexivity. Qed.

Lemma posts_fold_update_seller_rating (l : list SellerRating) db :
  bazaar_posts
    (fold_left (fun d r => update_seller_rating (rating_seller_id r) d) l db)
  = bazaar_posts db.
Proof.
  revert db. induction l as [|r l IH]; intro db; [reflexivity|].
  cbn [fold_left]. now rewrite IH.
Qed.

Lemma In_update_where {Row} (c : Row -> bool) (f : Row -> Row) l x :
  In x (update_where c f l) ->
  exists y, In y l /\ x = (if c y then f y else y).
Proof.
  unfold update_where. intro H. apply in_map_iff in H.
  destruct H as (y & Hy & Hin). exists y. split; [exact Hin | now symmetry].
Qed.

(** What one request leaves of the posts table: it is untouched, or one
    row with the turn's fresh identifier is added, or rows of one
    identifier are marked sold, or rows are deleted. *)
Lemma serve_posts auth t {T} (r : Req T) db :
  let before := bazaar_posts (interfere t db) in
  let after := bazaar_posts (fst (serve auth t r db)) in
  after = before
  \/ (exists row, after = (before ++ [row])%list /\ post_id_ row = uuid t
                  /\ has_post (uuid t) (interfere t db) = false)
  \/ (exists id ts, after = update_where (fun p => (post_id_ p =? id)%string)
                                         (set_sold ts) before)
  \/ (exists id, after = filter (fun p => negb (post_id_ p =? id)%string) before).
Proof.
  cbv zeta. unfold serve. destruct (negb (network_ok t)); [now left|].
  destruct r; cbn [fst]; try (now left).
  - unfold insert_conversation.
    repeat match goal with |- context [if ?c then _ else _] => destruct c end;
      now left.
  - unfold insert_message.
    repeat match goal with |- context [if ?c then _ else _] => destruct c end;
      now left.
  - unfold insert_post.
    destruct (existsb _ _) eqn:E; [now left|].
    right. left. eexists. split; [reflexivity|]. split; [reflexivity|exact E].
  - right. right. left. now exists id, sold_at.
  - right. right. right. exists id. unfold delete_post.
    now rewrite posts_fold_update_seller_rating.
  - unfold upsert_rating.
    repeat match goal with |- context [if ?c then _ else _] => destruct c end;
      now left.
Qed.

(** No request turns a sold listing into an active one. *)
Lemma serve_keeps_sold auth t {T} (r : Req T) db id :
  uuid t <> id \/ has_post id (interfere t db) = true ->
  sold_or_gone id (interfere t db) ->
  sold_or_gone id (fst (serve auth t r db)).
Proof.
  intros Hid Hsold p Hin Hp.
  destruct (serve_posts auth t r db)
    as [E|[(row & E & Hrow & Hnew)|[(i & ts & E)|(i & E)]]];
    rewrite E in Hin.
  - now apply Hsold.
  - apply in_app_or in Hin. destruct Hin as [Hin|[<-|[]]]; [now apply Hsold|].
    exfalso. destruct Hid as [Hid|Hid]; [congruence|].
    rewrite <- Hp, Hrow, Hnew in Hid. discriminate Hid.
  - apply In_update_where in Hin. destruct Hin as (y & Hy & ->).
    destruct (post_id_ y =? i)%string eqn:Ei; [reflexivity|]. now apply Hsold.
  - apply filter_In in Hin. now apply Hsold.
Qed.

(** Nor does any handler, whoever runs it, as long as the other writers
    of the world do not and no fresh identifier repeats the listing's. *)
Lemma run_keeps_sold {E A} (s : Script E A) w n auth db id :
  (forall k d, sold_or_gone id d -> sold_or_gone id (interfere (w k) d)) ->
  (forall k, uuid (w k) <> id) ->
  sold_or_gone id db ->
  sold_or_gone id (final (run w n auth s db)).
Proof.
  intros Hw Hids. revert n db.
  induction s as [a|e k IH|T r k IH]; intros n db Hsold; cbn [run final].
  - exact Hsold.
  - now apply IH.
  - apply IH. apply serve_keeps_sold; [left; apply Hids | now apply Hw].
Qed.

End Listing.

Module NewListing.

Import Backend BazaarNewScreen.

Lemma validate_has_photo Number f :
  validate Number f = [] -> exists ph, photo f = Some ph.
Proof.
  unfold validate. intro H.
  destruct (photo f) as [ph|]; [now exists ph|].
  repeat (apply app_eq_nil in H; destruct H as [_ H]). discriminate H.
Qed.

(** A valid form with a photo of admissible size, submitted in a quiet
    world: the photo goes up, then the row goes in. *)
Lemma run_handleSubmit Number stamp ids clock n user f q db :
  validate Number f = [] ->
  Number (price f) = Some q ->
  (forall ph, photo f = Some ph -> too_large ph = false) ->
  has_post (ids (S n)) db = false ->
  final (run (quiet ids clock) n (Some (user_id user))
           (handleSubmit Number stamp (Some user) f) db)
  = fst (insert_post (quiet ids clock (S n))
           (payload f (user_id user) q
              (Some ("bazaar-photos/" ++ user_id user ++ "/" ++ stamp ++ ".jpg")))
           db)
  /\ snd (insert_post (quiet ids clock (S n))
            (payload f (user_id user) q
               (Some ("bazaar-photos/" ++ user_id user ++ "/" ++ stamp ++ ".jpg")))
            db) = done.
Proof.
  intros Hvalid Hnum Hsize Hfresh.
  destruct (validate_has_photo Number f Hvalid) as (ph & Hph).
  unfold handleSubmit. rewrite Hvalid, Hnum. unfold uploadPhoto.
  rewrite Hph, (Hsize ph Hph).
  cbn [run bind final fst snd serve quiet interfere network_ok negb ok data error].
  unfold insert_post. cbn [uuid quiet]. unfold has_post in Hfresh. rewrite Hfresh.
  cbn [fst snd done error run final]. split; reflexivity.
Qed.

End NewListing.

Module MarkSold.

Import Backend BazaarDetailScreen.

Lemma existsb_update_where {Row} (f c : Row -> bool) (g : Row -> Row) l :
  (forall x, f (g x) = f x) ->
  existsb f (update_where c g l) = existsb f l.
Proof.
  intro H. unfold update_where. induction l as [|x l IH]; [reflexivity|].
  cbn. rewrite IH. destruct (c x); [now rewrite H | reflexivity].
Qed.

Lemma run_handleMarkAsSold_onPress w n auth t1 t2 post db :
  network_ok (w n) = true ->
  run w n auth (handleMarkAsSold_onPress t1 t2 post) db
  = {| result := tt;
       final := with_posts
                  (update_where (fun p => (post_id_ p =? post_id_ post)%string)
                     (set_sold t1) (bazaar_posts (interfere (w n) db)))
                  (interfere (w n) db);
       trace := [Requested (UpdatePostSold (post_id_ post) t1) done;
                 Did (SetPost (set_sold t2 post));
                 Did (AlertAlert "Success" "Your listing has been marked as sold!")];
       turns := S n |}.
Proof.
  intro Hnet. unfold handleMarkAsSold_onPress. cbn [run]. unfold serve.
  rewrite Hnet. reflexivity.
Qed.

End MarkSold.

(** C8.  A valid new-listing form submitted with nothing else going on
    adds one row to [bazaar_posts], and that row is active with a null
    [sold_at].  The press on "Mark as Sold", when its update gets through,
    leaves every row of the listing's identifier sold with the non-null
    [sold_at] it sent, keeps the listing in the table, and sets the
    screen's copy to sold.  No handler built from the requests of the
    screens, run by anyone, makes a sold listing active again, as long as
    the other writers do not and no fresh identifier repeats the
    listing's. *)
Theorem listing_status_lifecycle :
  (forall (Number : string -> option Q) (stamp : string)
          (ids clock : nat -> string) (n : nat) (user : User)
          (f : BazaarNewScreen.Form) (q : Q) (db : Backend.DB),
     BazaarNewScreen.validate Number f = [] ->
     Number (BazaarNewScreen.price f) = Some q ->
     (forall ph, BazaarNewScreen.photo f = Some ph ->
                 BazaarNewScreen.too_large ph = false) ->
     Backend.has_post (ids (S n)) db = false ->
     let o := run (quiet ids clock) n (Some (user_id user))
                (BazaarNewScreen.handleSubmit Number stamp (Some user) f) db in
     exists row,
       Backend.bazaar_posts (final o) = (Backend.bazaar_posts db ++ [row])%list
       /\ post_id_ row = ids (S n)
       /\ post_user_id row = user_id user
       /\ post_status row = active
       /\ post_sold_at row = None)
  /\ (forall (w : Backend.World) (n : nat) (auth : option string)
             (t1 t2 : string) (post : BazaarPost) (db : Backend.DB),
        Backend.network_ok (w n) = true ->
        let o := run w n auth
                   (BazaarDetailScreen.handleMarkAsSold_onPress t1 t2 post) db in
        (forall p, In p (Backend.bazaar_posts (final o)) ->
                   post_id_ p = post_id_ post ->
                   post_status p = sold /\ post_sold_at p = Some t1)
        /\ Backend.has_post (post_id_ post) (final o)
           = Backend.has_post (post_id_ post) (Backend.interfere (w n) db)
        /\ In (Did (BazaarDetailScreen.SetPost (Backend.set_sold t2 post)))
              (trace o)
        /\ post_status (Backend.set_sold t2 post) = sold
        /\ post_sold_at (Backend.set_sold t2 post) = Some t2)
  /\ (forall (E A : Type) (s : Script E A) (w : Backend.World) (n : nat)
             (auth : option string) (db : Backend.DB) (id : string),
        (forall k d, Backend.sold_or_gone id d ->
                     Backend.sold_or_gone id (Backend.interfere (w k) d)) ->
        (forall k, Backend.uuid (w k) <> id) ->
        Backend.sold_or_gone id db ->
        Backend.sold_or_gone id (final (run w n auth s db))).
Proof.
  split; [|split].
  - intros Number stamp ids clock n user f q db Hvalid Hnum Hsize Hfresh o.
    subst o.
    destruct (NewListing.run_handleSubmit Number stamp ids clock n user f q db
                Hvalid Hnum Hsize Hfresh) as [-> _].
    unfold Backend.insert_post. cbn [Backend.uuid quiet].
    unfold Backend.has_post in Hfresh. rewrite Hfresh. cbn [fst].
    eexists. split; [reflexivity|]. repeat split.
  - intros w n auth t1 t2 post db Hnet o. subst o.
    rewrite (MarkSold.run_handleMarkAsSold_onPress w n auth t1 t2 post db Hnet).
    cbn [final trace]. split; [|split; [|split; [|split]]].
    + intros p Hin Hp. cbn [Backend.bazaar_posts Backend.with_posts] in Hin.
      apply Listing.In_update_where in Hin. destruct Hin as (y & Hy & ->).
      destruct (post_id_ y =? post_id_ post)%string eqn:E.
      * split; reflexivity.
      * apply String.eqb_neq in E. contradiction.
    + unfold Backend.has_post. cbn [Backend.bazaar_posts Backend.with_posts].
      apply MarkSold.existsb_update_where. reflexivity.
    + right. left. reflexivity.
    + reflexivity.
    + reflexivity.
  - intros E A s w n auth db id Hw Hids Hsold.
    now apply Listing.run_keeps_sold.
Qed.

Lemma listing_status_lifecycle_witness :
  let created :=
    run (quiet Sample.ids Sample.clock) 0 (Some "u-amina")
      (BazaarNewScreen.handleSubmit Sample.number "1740787200000"
         (Some Sample.amina) Sample.teapot)
      Sample.listed in
  (exists row,
     Backend.bazaar_posts (final created)
     = (Backend.bazaar_posts Sample.listed ++ [row])%list
     /\ post_id_ row = "id-1" /\ post_user_id row = "u-amina"
     /\ post_status row = active /\ post_sold_at row = None)
  /\ Backend.has_post "p-lamp"
       (final (run (quiet Sample.ids Sample.clock) 2 (Some "u-bilal")
                 (BazaarDetailScreen.handleMarkAsSold_onPress
                    "2025-03-02T00:00:00.000Z" "2025-03-02T00:00:00.001Z"
                    (Sample.lamp active None))
                 (final created))) = true.
Proof.
  cbv zeta. destruct listing_status_lifecycle as (Hnew & Hsold & Hkeep). split.
  - apply (Hnew Sample.number "1740787200000" Sample.ids Sample.clock 0
             Sample.amina Sample.teapot 40%Q Sample.listed).
    + reflexivity.
    + reflexivity.
    + intros ph H. injection H as <-. reflexivity.
    + reflexivity.
  - match goal with |- Backend.has_post _ (final (run ?w ?n ?a (_ ?t1 ?t2 ?p) ?d)) = _ =>
      destruct (Hsold w n a t1 t2 p d eq_refl) as (_ & H & _) end.
    etransitivity; [exact H | reflexivity].
Defined.

(* ================================================================== *)
(** ** Seller ratings *)
(* ================================================================== *)

Module Ratings.

Import Backend.

(** The payload [handleSubmit] sends carries the buyer, the post, the
    stars, and a null review when the text is blank. *)
Lemma handleSubmit_payload postId user post rating reviewText existing w n db :
  rating <> 0%Z ->
  exists resp rest,
    trace (run w n (Some (user_id user))
             (RateSellerScreen.handleSubmit postId (Some user) (Some post)
                rating reviewText existing) db)
    = Did (RateSellerScreen.SetSubmitting true)
      :: Requested
           (UpsertRating {| rp_seller_id := post_user_id post;
                            rp_buyer_id := user_id user;
                            rp_post_id := postId;
                            rp_rating := rating;
                            rp_review_text := JS.or_null (JS.trim reviewText) |})
           resp
      :: rest.
Proof.
  intro H. unfold RateSellerScreen.handleSubmit.
  destruct (rating =? 0)%Z eqn:E; [apply Z.eqb_eq in E; contradiction|].
  cbn [run trace]. eexists. eexists. reflexivity.
Qed.

(** Under the policies of the script, an upsert that meets a row of its
    (buyer, post) is refused and changes nothing. *)
Lemma upsert_existing_refused auth t p db :
  existsb (conflicts p) (seller_ratings db) = true ->
  fst (upsert_rating rating_policies auth t p db) = db
  /\ error (snd (upsert_rating rating_policies auth t p db)) <> None.
Proof.
  intro Hex. unfold upsert_rating.
  destruct (negb (allowed _ auth _)); [split; [reflexivity|discriminate]|].
  destruct (negb _); [split; [reflexivity|discriminate]|].
  rewrite Hex.
  assert (Hno : forallb (fun r => negb (conflicts p r)
                                  || allowed (for_update rating_policies) auth r)
                        (seller_ratings db) = false).
  { apply existsb_exists in Hex. destruct Hex as (r & Hin & Hr).
    destruct (forallb _ _) eqn:F; [|reflexivity].
    rewrite forallb_forall in F. specialize (F r Hin).
    rewrite Hr in F. cbn in F. destruct auth; discriminate F. }
  rewrite Hno. split; [reflexivity|discriminate].
Qed.

(** An upsert never leaves more rows for its (buyer, post) than before,
    or than one: whatever the policies, there is no duplicate. *)
Lemma upsert_no_duplicate pol auth t p db :
  List.length (filter (conflicts p)
                 (seller_ratings (fst (upsert_rating pol auth t p db))))
  <= Nat.max 1 (List.length (filter (conflicts p) (seller_ratings db))).
Proof.
  unfold upsert_rating.
  destruct (negb (allowed _ auth _)); [cbn [fst]; lia|].
  destruct (negb _); [cbn [fst]; lia|].
  destruct (existsb (conflicts p) (seller_ratings db)) eqn:Hex.
  - destruct (forallb _ _); [|cbn [fst]; lia].
    destruct (negb _); cbn [fst]; [lia|].
    change (seller_ratings (update_seller_rating ?s ?d)) with (seller_ratings d).
    cbn [seller_ratings with_ratings]. unfold update_where.
    assert (H : forall l,
               List.length (filter (conflicts p)
                              (map (fun r => if conflicts p r then merge_rating p r else r) l))
               = List.length (filter (conflicts p) l)).
    { induction l as [|r l IH]; [reflexivity|]. cbn [map filter].
      destruct (conflicts p r) eqn:Hr.
      - assert (Hm : conflicts p (merge_rating p r) = true).
        { unfold conflicts, merge_rating. cbn. now rewrite !String.eqb_refl. }
        rewrite Hm. cbn [List.length]. now rewrite IH.
      - rewrite Hr. exact IH. }
    rewrite H. lia.
  - destruct (existsb (fun r => (rating_id r =? uuid t)%string) _);
      [cbn [fst]; lia|].
    destruct (negb _); cbn [fst]; [lia|].
    change (seller_ratings (update_seller_rating ?s ?d)) with (seller_ratings d).
    cbn [seller_ratings with_ratings].
    rewrite filter_app, length_app.
    assert (Hz : filter (conflicts p) (seller_ratings db) = []).
    { destruct (filter (conflicts p) (seller_ratings db)) as [|x l] eqn:F;
        [reflexivity|].
      assert (Hin : In x (filter (conflicts p) (seller_ratings db)))
        by (rewrite F; now left).
      apply filter_In in Hin.
      assert (existsb (conflicts p) (seller_ratings db) = true)
        by (apply existsb_exists; exists x; exact Hin).
      congruence. }
    rewrite Hz. cbn [List.length filter]. destruct (conflicts p _); cbn; lia.
Qed.

End Ratings.

(** C7, at the failing input.  Amina, who rated Bilal 3 for the lamp,
    submits 5 with no review text: the upsert keyed by (buyer, post) meets
    her row, the script gives [seller_ratings] no UPDATE policy, the
    statement is refused and the screen shows "Failed to submit rating".
    Her row still says 3 and Bilal's aggregate is still 3 from one
    rating. *)
Theorem handleSubmit_rerate_refused :
  let o := run (quiet Sample.ids Sample.clock) 0 (Some "u-amina")
             (RateSellerScreen.handleSubmit "p-lamp" (Some Sample.amina)
                (Some (Sample.lamp sold (Some "2025-02-02T00:00:00.000Z")))
                5 "" (Some 3%Z))
             Sample.rated in
  trace o
  = [ Did (RateSellerScreen.SetSubmitting true);
      Requested
        (Backend.UpsertRating
           {| Backend.rp_seller_id := "u-bilal";
              Backend.rp_buyer_id := "u-amina";
              Backend.rp_post_id := "p-lamp";
              Backend.rp_rating := 5;
              Backend.rp_review_text := None |})
        (Backend.failed (Backend.row_security_violation "seller_ratings"));
      Did (RateSellerScreen.SetSubmitting false);
      Did (RateSellerScreen.AlertAlert "Error"
             "Failed to submit rating. Please try again.") ]
  /\ Backend.seller_ratings (final o) = [Sample.first_rating]
  /\ map rating_rating (Backend.seller_ratings (final o)) = [3%Z]
  /\ Backend.profiles (final o) = [Sample.seller_profile 3 1].
Proof.
  cbv zeta. repeat split; reflexivity.
Qed.

(** What the claim describes is what the same statement does once buyers
    may update their own rating: the row is updated in place and the
    aggregate is 5 from one rating. *)
Lemma upsert_with_update_policy_updates_in_place :
  let db := fst (Backend.upsert_rating Sample.rating_policies_with_update
                   (Some "u-amina") (quiet Sample.ids Sample.clock 0)
                   {| Backend.rp_seller_id := "u-bilal";
                      Backend.rp_buyer_id := "u-amina";
                      Backend.rp_post_id := "p-lamp";
                      Backend.rp_rating := 5;
                      Backend.rp_review_text := None |}
                   Sample.rated) in
  map (fun r => (rating_id r, rating_rating r)) (Backend.seller_ratings db)
  = [("r-1", 5%Z)]
  /\ map (fun p => (profile_seller_rating p, profile_seller_rating_count p))
         (Backend.profiles db)
     = [(5%Q, 1%Z)].
Proof.
  cbv zeta. split; reflexivity.
Qed.

(** A first rating, which takes the INSERT path, passes the policies of
    the script. *)
Lemma handleSubmit_first_rating :
  let o := run (quiet Sample.ids Sample.clock) 0 (Some "u-amina")
             (RateSellerScreen.handleSubmit "p-lamp" (Some Sample.amina)
                (Some (Sample.lamp sold (Some "2025-02-02T00:00:00.000Z")))
                5 "  " None)
             Sample.unrated in
  map (fun r => (rating_buyer_id r, rating_post_id r, rating_rating r,
                 rating_review_text r))
      (Backend.seller_ratings (final o))
  = [("u-amina", Some "p-lamp", 5%Z, None)]
  /\ map (fun p => (profile_seller_rating p, profile_seller_rating_count p))
         (Backend.profiles (final o))
     = [(5%Q, 1%Z)].
Proof.
  cbv zeta. split; reflexivity.
Qed.

(* ================================================================== *)
(** ** Relative times *)
(* ================================================================== *)

Module Times.

(** Quotient and remainder of a time difference by a unit. *)
Ltac euclid d k :=
  pose proof (Z.div_mod d k ltac:(lia));
  pose proof (Z.mod_pos_bound d k ltac:(lia)).

Ltac units d :=
  change (1000 * 60 * 60 * 24)%Z with 86400000%Z in *;
  change (1000 * 60 * 60)%Z with 3600000%Z in *;
  change (1000 * 60)%Z with 60000%Z in *;
  euclid d 60000%Z; euclid d 3600000%Z; euclid d 86400000%Z;
  euclid (d / 86400000)%Z 7%Z.

Ltac branches :=
  repeat match goal with
         | |- context [(?a <? ?b)%Z] => destruct (Z.ltb_spec a b)
         | |- context [(?a =? ?b)%Z] => destruct (Z.eqb_spec a b)
         end.

End Times.

(** X1.  The grid's relative time of a listing, by the age [d] of the
    listing in milliseconds: under a minute, a date in the future
    included, it is [Just now]; then whole minutes from 1 to 59, whole
    hours from 1 to 23, whole days from 1 to 6, whole weeks from 1 to 4;
    from 30 days on it is the locale date. *)
Theorem formatRelativeTime_grid (now date : Z) (localeDate : string) :
  let d := (now - date)%Z in
  let r := BazaarScreen.formatRelativeTime now (Some date) localeDate in
  ((d < 60000)%Z -> r = "Just now")
  /\ ((60000 <= d < 3600000)%Z ->
      (1 <= d / 60000 <= 59)%Z /\ r = JS.num (d / 60000) ++ "m ago")
  /\ ((3600000 <= d < 86400000)%Z ->
      (1 <= d / 3600000 <= 23)%Z /\ r = JS.num (d / 3600000) ++ "h ago")
  /\ ((86400000 <= d < 604800000)%Z ->
      (1 <= d / 86400000 <= 6)%Z /\ r = JS.num (d / 86400000) ++ "d ago")
  /\ ((604800000 <= d < 2592000000)%Z ->
      (1 <= d / 86400000 / 7 <= 4)%Z
      /\ r = JS.num (d / 86400000 / 7) ++ "w ago")
  /\ ((2592000000 <= d)%Z -> r = localeDate).
Proof.
  intros d r. subst r. unfold BazaarScreen.formatRelativeTime. cbv zeta.
  fold d. Times.units d. Times.branches;
    repeat split; intros; try lia; reflexivity.
Qed.

(** X2.  The detail screen's relative time, by the age [d] in
    milliseconds: [Just now] under a minute; minutes from 1 to 59 and
    hours from 1 to 23, the unit in the plural also for 1; [Yesterday]
    from 24 hours up to 48; days from 2 to 6; weeks from 1 to 4; the
    locale date from 30 days on. *)
Theorem formatRelativeTime_detail (now date : Z) (localeDate : string) :
  let d := (now - date)%Z in
  let r := BazaarDetailScreen.formatRelativeTime now (Some date) localeDate in
  ((d < 60000)%Z -> r = "Just now")
  /\ ((60000 <= d < 120000)%Z -> r = "1 minutes ago")
  /\ ((60000 <= d < 3600000)%Z ->
      (1 <= d / 60000 <= 59)%Z /\ r = JS.num (d / 60000) ++ " minutes ago")
  /\ ((3600000 <= d < 86400000)%Z ->
      (1 <= d / 3600000 <= 23)%Z /\ r = JS.num (d / 3600000) ++ " hours ago")
  /\ ((86400000 <= d < 172800000)%Z -> r = "Yesterday")
  /\ ((172800000 <= d < 604800000)%Z ->
      (2 <= d / 86400000 <= 6)%Z /\ r = JS.num (d / 86400000) ++ " days ago")
  /\ ((604800000 <= d < 2592000000)%Z ->
      (1 <= d / 86400000 / 7 <= 4)%Z
      /\ r = JS.num (d / 86400000 / 7) ++ " weeks ago")
  /\ ((2592000000 <= d)%Z -> r = localeDate).
Proof.
  intros d r. subst r. unfold BazaarDetailScreen.formatRelativeTime. cbv zeta.
  fold d. Times.units d.
  assert (Hone : (60000 <= d < 120000)%Z -> (d / 60000 = 1)%Z) by lia.
  Times.branches; repeat split; intros; try lia; try reflexivity.
  all: rewrite Hone by lia; reflexivity.
Qed.

(** X3.  The inbox's relative time, by the age [d] in milliseconds:
    [Just now] under a minute; minutes from 1 to 59, hours from 1 to 23,
    days from 1 to 6; the locale date from 7 days on. *)
Theorem formatRelativeTime_inbox (now date : Z) (localeDate : string) :
  let d := (now - date)%Z in
  let r := ConversationsScreen.formatRelativeTime now (Some date) localeDate in
  ((d < 60000)%Z -> r = "Just now")
  /\ ((60000 <= d < 3600000)%Z ->
      (1 <= d / 60000 <= 59)%Z /\ r = JS.num (d / 60000) ++ "m")
  /\ ((3600000 <= d < 86400000)%Z ->
      (1 <= d / 3600000 <= 23)%Z /\ r = JS.num (d / 3600000) ++ "h")
  /\ ((86400000 <= d < 604800000)%Z ->
      (1 <= d / 86400000 <= 6)%Z /\ r = JS.num (d / 86400000) ++ "d")
  /\ ((604800000 <= d)%Z -> r = localeDate).
Proof.
  intros d r. subst r. unfold ConversationsScreen.formatRelativeTime. cbv zeta.
  fold d. Times.units d. Times.branches;
    repeat split; intros; try lia; reflexivity.
Qed.

(* ================================================================== *)
(** ** Names, contacts and sharing *)
(* ================================================================== *)

Module Contact.

Lemma includes_at_cons (c : ascii) (s : string) :
  JS.includes (String c s) "@" = Ascii.eqb c "@" || JS.includes s "@".
Proof.
  cbn [JS.includes String.prefix].
  destruct (ascii_dec "@" c) as [<-|Hne].
  - cbn. now destruct s.
  - destruct (Ascii.eqb_spec c "@") as [->|_]; [contradiction|]. reflexivity.
Qed.

Lemma includes_at_empty : JS.includes "" "@" = false.
Proof. reflexivity. Qed.

Lemma before_first_no_at (s : string) :
  JS.includes (JS.before_first "@" s) "@" = false.
Proof.
  induction s as [|c s IH]; [reflexivity|]. cbn [JS.before_first].
  destruct (Ascii.eqb_spec c "@") as [->|Hne]; [reflexivity|].
  rewrite includes_at_cons, IH.
  destruct (Ascii.eqb_spec c "@"); [contradiction|reflexivity].
Qed.

Lemma before_first_split (s : string) :
  JS.before_first "@" s = s
  \/ exists rest, s = JS.before_first "@" s ++ "@" ++ rest.
Proof.
  induction s as [|c s IH]; [now left|]. cbn [JS.before_first].
  destruct (Ascii.eqb_spec c "@") as [->|Hne].
  - right. now exists s.
  - destruct IH as [IH|(rest & IH)].
    + left. now rewrite IH.
    + right. exists rest. cbn [append]. f_equal. exact IH.
Qed.

Lemma append_empty (s : string) : s ++ "" = s.
Proof.
  induction s as [|c s IH]; [reflexivity|]. cbn. now rewrite IH.
Qed.

(** The bytes of the white space that takes more than one are all above
    the ASCII range. *)
Lemma ws2_high c1 c2 :
  JS.ws2 c1 c2 = true -> 128 <= nat_of_ascii c1 /\ 128 <= nat_of_ascii c2.
Proof.
  unfold JS.ws2. rewrite andb_true_iff, !Nat.eqb_eq. lia.
Qed.

Lemma ws3_high c1 c2 c3 :
  JS.ws3 c1 c2 c3 = true ->
  128 <= nat_of_ascii c1 /\ 128 <= nat_of_ascii c2 /\ 128 <= nat_of_ascii c3.
Proof.
  unfold JS.ws3. cbv zeta.
  rewrite !orb_true_iff, !andb_true_iff, !orb_true_iff, !andb_true_iff,
    !Nat.eqb_eq, !Nat.leb_le.
  lia.
Qed.

Lemma phone_char_not_at c : BazaarDetailScreen.phone_char c = true -> Ascii.eqb c "@" = false.
Proof.
  intro H. destruct (Ascii.eqb_spec c "@") as [->|]; [|reflexivity].
  vm_compute in H. discriminate H.
Qed.

Lemma high_not_at c : 128 <= nat_of_ascii c -> Ascii.eqb c "@" = false.
Proof.
  intro H. destruct (Ascii.eqb_spec c "@") as [->|]; [|reflexivity].
  vm_compute in H. lia.
Qed.

(** A value of the phone pattern holds no [@]. *)
Lemma phone_chars_no_at (n : nat) :
  forall s, String.length s <= n ->
            BazaarDetailScreen.phone_chars s = true -> JS.includes s "@" = false.
Proof.
  induction n as [|n IH]; intros s Hlen Hs.
  - destruct s; [reflexivity | cbn in Hlen; lia].
  - destruct s as [|c1 s1]; [reflexivity|].
    cbn [BazaarDetailScreen.phone_chars] in Hs. cbn [String.length] in Hlen.
    rewrite includes_at_cons.
    destruct (BazaarDetailScreen.phone_char c1) eqn:H1.
    + rewrite (phone_char_not_at c1 H1), (IH s1) by (lia || assumption).
      reflexivity.
    + destruct s1 as [|c2 s2]; [discriminate|]. cbn [String.length] in Hlen.
      rewrite includes_at_cons.
      destruct (JS.ws2 c1 c2) eqn:H2.
      * destruct (ws2_high c1 c2 H2) as [Ha Hb].
        rewrite (high_not_at c1 Ha), (high_not_at c2 Hb), (IH s2)
          by (lia || assumption).
        reflexivity.
      * destruct s2 as [|c3 s3]; [discriminate|]. cbn [String.length] in Hlen.
        rewrite includes_at_cons.
        destruct (JS.ws3 c1 c2 c3) eqn:H3; [|discriminate].
        destruct (ws3_high c1 c2 c3 H3) as (Ha & Hb & Hc).
        rewrite (high_not_at c1 Ha), (high_not_at c2 Hb), (high_not_at c3 Hc),
          (IH s3) by (lia || assumption).
        reflexivity.
Qed.

End Contact.

(** X4.  [getDisplayName] for a profile without a name (none at all, or
    both names null or empty): with a non-empty email it is what stands
    before the first [@] of the email, so it holds no [@] and the email is
    it alone or it, an [@] and a rest; with no email, or an empty one, it
    is [Anonymous]. *)
Theorem getDisplayName_falls_back (profile : option Profile) (email : string) :
  (forall p, profile = Some p ->
             Types.present (profile_first_name p) = false
             /\ Types.present (profile_last_name p) = false) ->
  email <> "" ->
  let r := Types.getDisplayName profile (Some email) in
  JS.includes r "@" = false
  /\ (r = email \/ exists rest, email = r ++ "@" ++ rest)
  /\ Types.getDisplayName profile None = "Anonymous"
  /\ Types.getDisplayName profile (Some "") = "Anonymous".
Proof.
  intros Hname Hemail r. subst r. unfold Types.getDisplayName.
  assert (Hno : Types.present (match profile with
                               | Some p => profile_first_name p | None => None end)
                || Types.present (match profile with
                                  | Some p => profile_last_name p | None => None end)
                = false).
  { destruct profile as [p|]; [|reflexivity].
    destruct (Hname p eq_refl) as [-> ->]. reflexivity. }
  rewrite Hno. cbn [Types.present JS.nullish JS.truthy].
  destruct email as [|c e]; [congruence|]. cbn [JS.truthy].
  split; [apply Contact.before_first_no_at|].
  split; [apply Contact.before_first_split|]. split; reflexivity.
Qed.

Lemma getDisplayName_falls_back_witness :
  Types.getDisplayName (Some (Sample.seller_profile 0 0)) None = "Bilal"
  /\ JS.includes
       (Types.getDisplayName None (Some "amina@example.org")) "@" = false.
Proof.
  split; [reflexivity|].
  apply (getDisplayName_falls_back None "amina@example.org").
  - intros p H. discriminate H.
  - discriminate.
Defined.

(** X5.  [handleContact] on the contact the screen shows.  A value of the
    phone pattern (the one for which the Call button is drawn) holds no
    [@], so the call opens [tel:] with that very value and the other two
    methods open [sms:].  A value with an [@] opens [mailto:] whatever the
    method.  An empty-string [contact] counts as the contact and makes the
    handler do nothing, whatever [contact_email] and [contact_phone]
    hold. *)
Theorem handleContact_routes (post : BazaarPost) (c : string) :
  (BazaarDetailScreen.contactValue (Some post) = Some c ->
   BazaarDetailScreen.phonePattern c = true ->
   BazaarDetailScreen.handleContact (Some post) BazaarDetailScreen.by_phone
   = BazaarDetailScreen.LinkingOpenURL ("tel:" ++ c)
   /\ BazaarDetailScreen.handleContact (Some post) BazaarDetailScreen.by_message
      = BazaarDetailScreen.LinkingOpenURL ("sms:" ++ c)
   /\ BazaarDetailScreen.handleContact (Some post) BazaarDetailScreen.by_email
      = BazaarDetailScreen.LinkingOpenURL ("sms:" ++ c))
  /\ (BazaarDetailScreen.contactValue (Some post) = Some c ->
      JS.includes c "@" = true ->
      forall method,
        BazaarDetailScreen.handleContact (Some post) method
        = BazaarDetailScreen.LinkingOpenURL ("mailto:" ++ c))
  /\ (post_contact post = Some "" ->
      forall method,
        BazaarDetailScreen.handleContact (Some post) method
        = BazaarDetailScreen.Nothing).
Proof.
  split; [|split].
  - intros Hc Hp. unfold BazaarDetailScreen.handleContact. rewrite Hc.
    unfold BazaarDetailScreen.phonePattern in Hp.
    apply andb_prop in Hp. destruct Hp as [Ht Hp].
    rewrite Ht. cbn [negb].
    rewrite (Contact.phone_chars_no_at (String.length c) c (le_n _) Hp).
    unfold BazaarDetailScreen.phonePattern. rewrite Ht, Hp.
    repeat split; reflexivity.
  - intros Hc Hat method. unfold BazaarDetailScreen.handleContact. rewrite Hc.
    destruct c as [|a c]; [discriminate Hat|]. cbn [JS.truthy negb].
    now rewrite Hat.
  - intros Hc method. unfold BazaarDetailScreen.handleContact.
    cbn [BazaarDetailScreen.contactValue]. rewrite Hc. reflexivity.
Qed.

Lemma handleContact_routes_witness :
  BazaarDetailScreen.handleContact (Some Sample.rug) BazaarDetailScreen.by_phone
  = BazaarDetailScreen.LinkingOpenURL "tel:555 0100"
  /\ BazaarDetailScreen.handleContact (Some (Sample.lamp active None))
       BazaarDetailScreen.by_phone
     = BazaarDetailScreen.LinkingOpenURL "mailto:bilal@example.org".
Proof.
  split.
  - apply (handleContact_routes Sample.rug "555 0100"); reflexivity.
  - apply (handleContact_routes (Sample.lamp active None) "bilal@example.org");
      reflexivity.
Defined.

(** X6.  The text [handleShare] hands to the share sheet: with a null or
    zero price it is the lead and the title alone; with a price that is
    not zero and no currency (null or empty) it ends in [ - null], the
    detail screen's [formatPrice] giving null; with a price equal to 25 in
    CAD it ends in [ - C$25.00 CAD]. *)
Theorem handleShare_message (post : BazaarPost) (price : Q) :
  ((post_price post = None \/ (post_price post = Some price /\ price == 0)) ->
   BazaarDetailScreen.handleShare (Some post)
   = BazaarDetailScreen.ShareShare ("Check out this listing: " ++ post_title post))
  /\ (post_price post = Some price -> ~ price == 0 ->
      post_currency post = None \/ post_currency post = Some "" ->
      BazaarDetailScreen.handleShare (Some post)
      = BazaarDetailScreen.ShareShare
          ("Check out this listing: " ++ post_title post ++ " - null"))
  /\ (post_price post = Some price -> price == 25 ->
      post_currency post = Some "CAD" ->
      BazaarDetailScreen.handleShare (Some post)
      = BazaarDetailScreen.ShareShare
          ("Check out this listing: " ++ post_title post ++ " - C$25.00 CAD")).
Proof.
  unfold BazaarDetailScreen.handleShare. split; [|split].
  - intros [->|[-> H0]]; [now rewrite Contact.append_empty|].
    unfold Qeq in H0. cbn in H0. rewrite Z.mul_1_r in H0. rewrite H0.
    cbn [Z.eqb]. now rewrite Contact.append_empty.
  - intros -> Hnz Hcur.
    assert (Hq : (Qnum price =? 0)%Z = false).
    { apply Z.eqb_neq. intro E. apply Hnz. unfold Qeq. cbn. now rewrite E. }
    rewrite Hq. destruct Hcur as [->| ->]; reflexivity.
  - intros Hp H25 Hc. rewrite Hp, Hc.
    assert (Hq : (Qnum price =? 0)%Z = false).
    { apply Z.eqb_neq. unfold Qeq in H25. cbn in H25. lia. }
    rewrite Hq.
    destruct (JSFacts.toFixed_25 price H25) as [_ H2].
    unfold BazaarDetailScreen.formatPrice. cbn [JS.truthy negb].
    rewrite H2. reflexivity.
Qed.

Lemma handleShare_message_witness :
  BazaarDetailScreen.handleShare (Some (Sample.lamp active None))
  = BazaarDetailScreen.ShareShare
      "Check out this listing: Brass Lamp - C$25.00 CAD".
Proof.
  apply (handleShare_message (Sample.lamp active None) 25%Q); reflexivity.
Defined.


(* ================================================================== *)
(** ** The chat thread: sending, history, read marks *)
(* ================================================================== *)

Module Thread.

Import Backend ChatScreen.

Lemma existsb_map_same {A} (f : A -> bool) (g : A -> A) (l : list A) :
  (forall x, f (g x) = f x) -> existsb f (map g l) = existsb f l.
Proof.
  intro H. induction l as [|x l IH]; [reflexivity|]. cbn. now rewrite H, IH.
Qed.

(** The timestamp trigger keeps who takes part in which conversation. *)
Lemma participant_update_conversation_timestamp m db uid c :
  participant (update_conversation_timestamp m db) uid c = participant db uid c.
Proof.
  unfold participant, update_conversation_timestamp.
  cbn [bazaar_conversations with_conversations].
  apply existsb_map_same. intro x.
  destruct (conv_id x =? msg_conversation_id m)%string; reflexivity.
Qed.

Lemma existsb_msg_fresh (id : string) (l : list BazaarMessage) :
  (forall m, In m l -> msg_id m <> id) ->
  existsb (fun m => (msg_id m =? id)%string) l = false.
Proof.
  induction l as [|x l IH]; intro H; [reflexivity|]. cbn.
  rewrite IH by (intros m Hm; apply H; now right).
  destruct (String.eqb_spec (msg_id x) id) as [E|E]; [|reflexivity].
  exfalso. apply (H x); [now left | exact E].
Qed.

Lemma serve_quiet_send ids clock n (c uid content : string) (db : DB) :
  participant db uid c = true ->
  (forall m, In m (bazaar_messages db) -> msg_id m <> ids n) ->
  serve (Some uid) (quiet ids clock n) (InsertMessage c uid content) db
  = (update_conversation_timestamp (sent_row (ids n) c uid content (clock n))
       (with_messages
          (bazaar_messages db ++ [sent_row (ids n) c uid content (clock n)])%list
          db),
     done).
Proof.
  intros Hpart Hfresh. unfold serve.
  cbn [quiet interfere network_ok negb]. unfold insert_message.
  cbn [uuid now quiet allowed for_insert message_policies msg_sender_id
       msg_conversation_id].
  rewrite String.eqb_refl, Hpart. cbn [andb negb].
  now rewrite (existsb_msg_fresh (ids n) _ Hfresh).
Qed.

Lemma serve_quiet_send_refused ids clock n (c uid content : string) (db : DB) :
  participant db uid c = false ->
  serve (Some uid) (quiet ids clock n) (InsertMessage c uid content) db
  = (db, failed (row_security_violation "bazaar_messages")).
Proof.
  intro Hpart. unfold serve.
  cbn [quiet interfere network_ok negb]. unfold insert_message.
  cbn [uuid now quiet allowed for_insert message_policies msg_sender_id
       msg_conversation_id].
  now rewrite String.eqb_refl, Hpart.
Qed.

(** Sorting by creation time keeps the rows. *)
Lemma insert_by_created_at_perm m l :
  Permutation (insert_by_created_at m l) (m :: l).
Proof.
  induction l as [|x l IH]; [apply Permutation_refl|]. cbn.
  destruct (msg_created_at m <? msg_created_at x)%string.
  - apply Permutation_refl.
  - eapply perm_trans; [apply perm_skip, IH | apply perm_swap].
Qed.

Lemma order_by_created_at_perm l : Permutation (order_by_created_at l) l.
Proof.
  unfold order_by_created_at.
  assert (H : forall acc, Permutation
                            (fold_left (fun acc m => insert_by_created_at m acc) l acc)
                            (acc ++ l)).
  { induction l as [|x l IH]; intro acc; cbn [fold_left].
    - rewrite app_nil_r. apply Permutation_refl.
    - eapply perm_trans; [apply IH|].
      eapply perm_trans;
        [apply Permutation_app_tail, insert_by_created_at_perm|].
      cbn. apply Permutation_cons_app. apply Permutation_refl. }
  apply (H []).
Qed.

Lemma ltb_lt a b : (a <? b)%string = true <-> String_as_OT.lt a b.
Proof.
  unfold String.ltb. rewrite <- String_as_OT.cmp_lt.
  unfold String_as_OT.cmp. destruct (a ?= b)%string; split; congruence.
Qed.

Lemma ltb_false_flip a b :
  (a <? b)%string = false -> (b <? a)%string = true \/ a = b.
Proof.
  unfold String.ltb. rewrite (String.compare_antisym b a).
  destruct (a ?= b)%string eqn:E; cbn; intro H; try discriminate.
  - right. now apply String.compare_eq_iff.
  - now left.
Qed.

Lemma not_after_trans a b c : not_after a b -> not_after b c -> not_after a c.
Proof.
  unfold not_after. intros Hab Hbc.
  destruct (msg_created_at c <? msg_created_at a)%string eqn:Hca; [|reflexivity].
  exfalso. apply ltb_lt in Hca.
  destruct (ltb_false_flip _ _ Hab) as [H1|H1];
    destruct (ltb_false_flip _ _ Hbc) as [H2|H2].
  - apply ltb_lt in H1, H2.
    pose proof (String_as_OT.lt_trans _ _ _ H1 (String_as_OT.lt_trans _ _ _ H2 Hca)) as F.
    exact (String_as_OT.lt_not_eq _ _ F eq_refl).
  - apply ltb_lt in H1. rewrite H2 in Hca.
    pose proof (String_as_OT.lt_trans _ _ _ H1 Hca) as F.
    exact (String_as_OT.lt_not_eq _ _ F eq_refl).
  - apply ltb_lt in H2. rewrite <- H1 in Hca.
    pose proof (String_as_OT.lt_trans _ _ _ H2 Hca) as F.
    exact (String_as_OT.lt_not_eq _ _ F eq_refl).
  - rewrite H2, H1 in Hca. exact (String_as_OT.lt_not_eq _ _ Hca eq_refl).
Qed.

Lemma insert_by_created_at_sorted m l :
  StronglySorted not_after l -> StronglySorted not_after (insert_by_created_at m l).
Proof.
  induction 1 as [|x l Hs IH Hx]; cbn.
  - constructor; constructor.
  - destruct (msg_created_at m <? msg_created_at x)%string eqn:E.
    + constructor; [now constructor|].
      assert (Hmx : not_after m x).
      { unfold not_after. apply ltb_lt in E.
        destruct (msg_created_at x <? msg_created_at m)%string eqn:F; [|reflexivity].
        apply ltb_lt in F.
        exfalso. exact (String_as_OT.lt_not_eq _ _ (String_as_OT.lt_trans _ _ _ E F) eq_refl). }
      constructor; [exact Hmx|].
      rewrite Forall_forall in *. intros y Hy.
      exact (not_after_trans _ _ _ Hmx (Hx y Hy)).
    + constructor; [exact IH|].
      rewrite Forall_forall in *. intros y Hy.
      apply (Permutation_in _ (insert_by_created_at_perm m l)) in Hy.
      destruct Hy as [<-|Hy]; [exact E | now apply Hx].
Qed.

Lemma order_by_created_at_sorted l : StronglySorted not_after (order_by_created_at l).
Proof.
  unfold order_by_created_at.
  assert (H : forall acc, StronglySorted not_after acc ->
                          StronglySorted not_after
                            (fold_left (fun acc m => insert_by_created_at m acc) l acc)).
  { induction l as [|x l IH]; intros acc Hacc; cbn [fold_left]; [exact Hacc|].
    apply IH. now apply insert_by_created_at_sorted. }
  apply H. constructor.
Qed.

End Thread.

Module ThreadRuns.

Import Backend ChatScreen.

Lemma run_loadMessages w n auth c db :
  run w n auth (loadMessages c) db
  = if network_ok (w n)
    then let rows := order_by_created_at
                       (filter (fun m => (msg_conversation_id m =? c)%string)
                               (visible_messages auth (interfere (w n) db))) in
         {| result := tt; final := interfere (w n) db;
            trace := [Requested (SelectMessages c) (ok rows);
                      Did (SetMessages rows); Did (SetLoading false)];
            turns := S n |}
    else {| result := tt; final := interfere (w n) db;
            trace := [Requested (SelectMessages c) (failed request_failed);
                      Did (SetLoading false)];
            turns := S n |}.
Proof.
  unfold loadMessages. cbn [run]. unfold serve.
  destruct (network_ok (w n)); reflexivity.
Qed.

Lemma run_sendMessage w n c user st db :
  JS.trim (newMessage st) <> "" -> sending st = false ->
  let content := JS.trim (newMessage st) in
  let served := serve (Some (user_id user)) (w n)
                  (InsertMessage c (user_id user) content) db in
  run w n (Some (user_id user)) (sendMessage c (Some user) st) db
  = {| result := tt; final := fst served;
       trace := Did (SetSending true) :: Did (SetNewMessage "")
                :: Requested (InsertMessage c (user_id user) content) (snd served)
                :: Did (SetSending false)
                :: match error (snd served) with
                   | Some _ => [Did (SetNewMessage content)]
                   | None => []
                   end;
       turns := S n |}.
Proof.
  intros Hc Hs. cbv zeta. unfold sendMessage. rewrite Hs.
  destruct (JS.trim (newMessage st)) eqn:E; [congruence|].
  cbn [JS.truthy negb orb run].
  match goal with |- context [error ?r] => destruct (error r) end; reflexivity.
Qed.

Lemma press_starts c user rt db :
  JS.trim (newMessage (ui rt)) <> "" -> sending (ui rt) = false ->
  sending (ui (fst (step c (Some user) PressedSend (rt, db)))) = true
  /\ List.length (parked (fst (step c (Some user) PressedSend (rt, db))))
     = S (List.length (parked rt)).
Proof.
  intros Hd Hs. cbn [step fst]. unfold sendMessage. rewrite Hs.
  destruct (JS.trim (newMessage (ui rt))) eqn:E; [congruence|].
  cbn [JS.truthy negb orb settle ui parked apply sending].
  split; [reflexivity|]. rewrite length_app. cbn. lia.
Qed.

Lemma press_ignored c user rt db :
  sending (ui rt) = true -> step c (Some user) PressedSend (rt, db) = (rt, db).
Proof.
  intro Hs. cbn [step]. unfold sendMessage. rewrite Hs, orb_true_r.
  reflexivity.
Qed.

End ThreadRuns.

(** X7.  A message sent comes back with the history.  For a party to the
    conversation, with a draft that is not blank, nothing else writing and
    a fresh identifier: [sendMessage] adds to [bazaar_messages] exactly
    one row, with the trimmed draft as content, the user as sender and
    unread, and leaves the input empty; the [loadMessages] that follows
    holds that row in the messages state and ends the loading. *)
Theorem sendMessage_then_loadMessages (ids clock : nat -> string) (n : nat)
    (c : string) (user : User) (st : ChatScreen.State) (db : Backend.DB) :
  Backend.participant db (user_id user) c = true ->
  (forall m, In m (Backend.bazaar_messages db) -> msg_id m <> ids n) ->
  JS.trim (ChatScreen.newMessage st) <> "" ->
  ChatScreen.sending st = false ->
  let w := quiet ids clock in
  let uid := Some (user_id user) in
  let row := Backend.sent_row (ids n) c (user_id user)
               (JS.trim (ChatScreen.newMessage st)) (clock n) in
  let sent := run w n uid (ChatScreen.sendMessage c (Some user) st) db in
  let st1 := ChatScreen.after (trace sent) st in
  let loaded := run w (turns sent) uid (ChatScreen.loadMessages c) (final sent) in
  let st2 := ChatScreen.after (trace loaded) st1 in
  Backend.bazaar_messages (final sent) = (Backend.bazaar_messages db ++ [row])%list
  /\ ChatScreen.newMessage st1 = ""
  /\ ChatScreen.sending st1 = false
  /\ In row (ChatScreen.messages st2)
  /\ ChatScreen.loading st2 = false.
Proof.
  intros Hpart Hfresh Hdraft Hsending w uid row sent st1 loaded st2.
  subst st2 loaded st1 sent uid w.
  rewrite (ThreadRuns.run_sendMessage _ n c user st db Hdraft Hsending).
  cbv zeta. rewrite (Thread.serve_quiet_send ids clock n c _ _ db Hpart Hfresh).
  cbn [fst snd Backend.error Backend.done final trace turns ChatScreen.after
       ChatScreen.apply ChatScreen.newMessage ChatScreen.sending].
  fold row. rewrite ThreadRuns.run_loadMessages.
  cbn [quiet Backend.network_ok Backend.interfere trace ChatScreen.after
       ChatScreen.apply ChatScreen.messages ChatScreen.loading].
  split; [reflexivity|]. split; [reflexivity|]. split; [reflexivity|].
  split; [|reflexivity].
  apply (Permutation_in _ (Permutation_sym (Thread.order_by_created_at_perm _))).
  apply filter_In. split.
  - unfold Backend.visible_messages. apply filter_In. split.
    + cbn [Backend.bazaar_messages Backend.update_conversation_timestamp
           Backend.with_conversations Backend.with_messages].
      apply in_or_app. right. now left.
    + cbn [Backend.allowed Backend.for_select Backend.message_policies].
      rewrite Thread.participant_update_conversation_timestamp.
      exact Hpart.
  - cbn. apply String.eqb_refl.
Qed.

Lemma sendMessage_then_loadMessages_witness :
  let w := quiet Sample.ids Sample.clock in
  let st := Sample.drafting "  On my way  " false in
  let sent := run w 0 (Some "u-amina")
                (ChatScreen.sendMessage "c-1" (Some Sample.amina) st)
                Sample.chatting in
  let loaded := run w 1 (Some "u-amina") (ChatScreen.loadMessages "c-1")
                  (final sent) in
  In (Backend.sent_row "id-0" "c-1" "u-amina" "On my way"
        "2025-03-01T00:00:00.000Z")
     (ChatScreen.messages
        (ChatScreen.after (trace loaded) (ChatScreen.after (trace sent) st))).
Proof.
  cbv zeta.
  apply (sendMessage_then_loadMessages Sample.ids Sample.clock 0 "c-1"
           Sample.amina (Sample.drafting "  On my way  " false) Sample.chatting).
  - reflexivity.
  - intros m [<-|[<-|[<-|[]]]]; discriminate.
  - vm_compute. discriminate.
  - reflexivity.
Defined.

(** X8.  Who is no party to the conversation cannot add to it: the insert
    of [sendMessage] is refused by the policy of [bazaar_messages], the
    tables stay as they are, and the trimmed draft is put back into the
    input. *)
Theorem sendMessage_refused_for_stranger (ids clock : nat -> string) (n : nat)
    (c : string) (user : User) (st : ChatScreen.State) (db : Backend.DB) :
  Backend.participant db (user_id user) c = false ->
  JS.trim (ChatScreen.newMessage st) <> "" ->
  ChatScreen.sending st = false ->
  let sent := run (quiet ids clock) n (Some (user_id user))
                (ChatScreen.sendMessage c (Some user) st) db in
  final sent = db
  /\ ChatScreen.newMessage (ChatScreen.after (trace sent) st)
     = JS.trim (ChatScreen.newMessage st)
  /\ ChatScreen.sending (ChatScreen.after (trace sent) st) = false
  /\ In (Requested
           (Backend.InsertMessage c (user_id user)
              (JS.trim (ChatScreen.newMessage st)))
           (Backend.failed (Backend.row_security_violation "bazaar_messages")))
        (trace sent).
Proof.
  intros Hpart Hdraft Hsending sent. subst sent.
  rewrite (ThreadRuns.run_sendMessage _ n c user st db Hdraft Hsending).
  cbv zeta. rewrite (Thread.serve_quiet_send_refused ids clock n c _ _ db Hpart).
  cbn [fst snd Backend.error Backend.failed final trace ChatScreen.after
       ChatScreen.apply ChatScreen.newMessage ChatScreen.sending].
  repeat split. right. right. left. reflexivity.
Qed.

Lemma sendMessage_refused_for_stranger_witness :
  final (run (quiet Sample.ids Sample.clock) 0 (Some "u-zayd")
           (ChatScreen.sendMessage "c-1" (Some {| user_id := "u-zayd" |})
              (Sample.drafting "Hello" false))
           Sample.chatting)
  = Sample.chatting.
Proof.
  apply (sendMessage_refused_for_stranger Sample.ids Sample.clock 0 "c-1"
           {| user_id := "u-zayd" |} (Sample.drafting "Hello" false)
           Sample.chatting).
  - reflexivity.
  - vm_compute. discriminate.
  - reflexivity.
Defined.

(** X9.  No double send.  With a draft that is not blank and no send in
    flight, a press on send leaves one call waiting for its response; a
    second press before the response does nothing, also when the user has
    typed a new text in between. *)
Theorem second_press_does_nothing (c : string) (user : User)
    (rt : ChatScreen.Runtime) (db : Backend.DB) (text : string) :
  JS.trim (ChatScreen.newMessage (ChatScreen.ui rt)) <> "" ->
  ChatScreen.sending (ChatScreen.ui rt) = false ->
  let x := (rt, db) in
  let pressed := ChatScreen.step c (Some user) ChatScreen.PressedSend x in
  List.length (ChatScreen.parked (fst pressed))
  = S (List.length (ChatScreen.parked rt))
  /\ ChatScreen.steps c (Some user)
       [ChatScreen.PressedSend; ChatScreen.PressedSend] x
     = pressed
  /\ ChatScreen.steps c (Some user)
       [ChatScreen.PressedSend; ChatScreen.Typed text; ChatScreen.PressedSend] x
     = ChatScreen.steps c (Some user)
         [ChatScreen.PressedSend; ChatScreen.Typed text] x.
Proof.
  intros Hdraft Hsending x pressed. subst pressed x.
  destruct (ThreadRuns.press_starts c user rt db Hdraft Hsending) as (Hs & Hl).
  split; [exact Hl|].
  unfold ChatScreen.steps. cbn [fold_left].
  destruct (ChatScreen.step c (Some user) ChatScreen.PressedSend (rt, db))
    as [rt' db'] eqn:E.
  cbn [fst] in Hs. split.
  - now apply ThreadRuns.press_ignored.
  - change (ChatScreen.step c (Some user) (ChatScreen.Typed text) (rt', db'))
      with ({| ChatScreen.ui :=
                 ChatScreen.apply (ChatScreen.SetNewMessage text) (ChatScreen.ui rt');
               ChatScreen.parked := ChatScreen.parked rt';
               ChatScreen.subscription := ChatScreen.subscription rt' |}, db').
    apply ThreadRuns.press_ignored. exact Hs.
Qed.

Lemma second_press_does_nothing_witness :
  List.length
    (ChatScreen.parked
       (fst (ChatScreen.steps "c-1" (Some Sample.amina)
               [ChatScreen.PressedSend; ChatScreen.PressedSend]
               ({| ChatScreen.ui := Sample.drafting "Salam" false;
                   ChatScreen.parked := [];
                   ChatScreen.subscription := None |}, Sample.chatting)))) = 1.
Proof.
  destruct (second_press_does_nothing "c-1" Sample.amina
              {| ChatScreen.ui := Sample.drafting "Salam" false;
                 ChatScreen.parked := [];
                 ChatScreen.subscription := None |}
              Sample.chatting "x") as (H1 & H2 & _).
  - vm_compute. discriminate.
  - reflexivity.
  - rewrite H2. exact H1.
Defined.

(** X10.  What [loadMessages] leaves in the messages state.  It always
    ends the loading.  When its request gets through, the state holds the
    rows of the conversation the caller may see, each once, in ascending
    order of creation time.  When it does not, the list is left as it
    was. *)
Theorem loadMessages_history (w : Backend.World) (n : nat)
    (auth : option string) (c : string) (st : ChatScreen.State)
    (db : Backend.DB) :
  let o := run w n auth (ChatScreen.loadMessages c) db in
  let st' := ChatScreen.after (trace o) st in
  ChatScreen.loading st' = false
  /\ (Backend.network_ok (w n) = true ->
      StronglySorted Backend.not_after (ChatScreen.messages st')
      /\ Permutation (ChatScreen.messages st')
           (filter (fun m => (msg_conversation_id m =? c)%string)
                   (Backend.visible_messages auth (Backend.interfere (w n) db))))
  /\ (Backend.network_ok (w n) = false ->
      ChatScreen.messages st' = ChatScreen.messages st).
Proof.
  intros o st'. subst st' o. rewrite ThreadRuns.run_loadMessages.
  destruct (Backend.network_ok (w n));
    cbn [trace ChatScreen.after ChatScreen.apply ChatScreen.loading
         ChatScreen.messages].
  - split; [reflexivity|]. split; [|discriminate]. intros _. split.
    + apply Thread.order_by_created_at_sorted.
    + apply Thread.order_by_created_at_perm.
  - split; [reflexivity|]. split; [discriminate|]. reflexivity.
Qed.

Module ReadMarks.

Import Backend.

Lemma update_where_Forall2 {Row} (c : Row -> bool) (f : Row -> Row) (l : list Row) :
  Forall2 (fun x y => (c x = true /\ y = f x) \/ (c x = false /\ y = x))
          l (update_where c f l).
Proof.
  unfold update_where. induction l as [|x l IH]; cbn; constructor; [|exact IH].
  destruct (c x); [left|right]; split; reflexivity.
Qed.

Lemma count_unread_other_conversation auth c c' u db :
  c' <> c ->
  count_unread auth c' u (mark_read auth c u db) = count_unread auth c' u db.
Proof.
  intro Hne. unfold count_unread, visible_messages, mark_read, update_where.
  cbn [bazaar_messages with_messages].
  change (allowed (for_select (message_policies (with_messages ?l db))) auth)
    with (allowed (for_select (message_policies db)) auth).
  induction (bazaar_messages db) as [|m l IH]; [reflexivity|].
  cbn [map filter].
  assert (Hsame :
    forall m', m' = (if allowed (for_select (message_policies db)) auth m
                        && allowed (for_update (message_policies db)) auth m
                        && unread_inbound c u m
                     then set_is_read m else m) ->
    allowed (for_select (message_policies db)) auth m'
    = allowed (for_select (message_policies db)) auth m
    /\ unread_inbound c' u m' = unread_inbound c' u m).
  { intros m' ->.
    destruct (allowed (for_select (message_policies db)) auth m
              && allowed (for_update (message_policies db)) auth m
              && unread_inbound c u m) eqn:E; [|split; reflexivity].
    split; [reflexivity|].
    apply andb_prop in E. destruct E as [_ E]. unfold unread_inbound in *.
    apply andb_prop in E. destruct E as [E _].
    apply andb_prop in E. destruct E as [E _].
    apply String.eqb_eq in E. cbn [msg_conversation_id set_is_read].
    destruct (String.eqb_spec (msg_conversation_id m) c') as [E'|_];
      [congruence | reflexivity]. }
  destruct (Hsame _ eq_refl) as [-> Hu].
  destruct (allowed (for_select (message_policies db)) auth m);
    [|exact IH].
  cbn [filter]. rewrite Hu.
  destruct (unread_inbound c' u m); cbn [List.length]; now rewrite IH.
Qed.

End ReadMarks.

(** X11.  What the bulk mark-read leaves alone.  Whether its request gets
    through or not, [markMessagesAsRead] changes no table but
    [bazaar_messages]; there, each row stays as it was or becomes the same
    row marked read, and only a row of the conversation, sent by someone
    else and unread, is marked; the unread count of every other
    conversation is what it was. *)
Theorem markMessagesAsRead_frame (w : Backend.World) (n : nat) (user : User)
    (c : string) (db : Backend.DB) :
  let before := Backend.interfere (w n) db in
  let after :=
    final (run w n (Some (user_id user))
             (ChatScreen.markMessagesAsRead c (Some user)) db) in
  Backend.bazaar_posts after = Backend.bazaar_posts before
  /\ Backend.bazaar_conversations after = Backend.bazaar_conversations before
  /\ Backend.seller_ratings after = Backend.seller_ratings before
  /\ Backend.profiles after = Backend.profiles before
  /\ Forall2 (fun m m' =>
                m' = m
                \/ (m' = Backend.set_is_read m
                    /\ msg_conversation_id m = c
                    /\ msg_sender_id m <> user_id user
                    /\ msg_is_read m = false))
             (Backend.bazaar_messages before) (Backend.bazaar_messages after)
  /\ (forall c', c' <> c ->
        Backend.count_unread (Some (user_id user)) c' (user_id user) after
        = Backend.count_unread (Some (user_id user)) c' (user_id user) before).
Proof.
  intros before after. subst after before. rewrite run_markMessagesAsRead.
  destruct (Backend.network_ok (w n)); cbn [final].
  - repeat split; try reflexivity.
    + unfold Backend.mark_read. cbn [Backend.bazaar_messages Backend.with_messages].
      eapply Forall2_impl; [|apply ReadMarks.update_where_Forall2].
      intros m m' [[Hc ->]|[_ ->]]; [right|now left].
      split; [reflexivity|].
      apply andb_prop in Hc. destruct Hc as [_ Hc].
      unfold Backend.unread_inbound in Hc.
      apply andb_prop in Hc. destruct Hc as [Hc Hr].
      apply andb_prop in Hc. destruct Hc as [Hc Hsnd].
      split; [now apply String.eqb_eq|]. split.
      * apply negb_true_iff in Hsnd. now apply String.eqb_neq.
      * now apply negb_true_iff.
    + intros c' Hne. now apply ReadMarks.count_unread_other_conversation.
  - repeat split; try reflexivity.
    induction (Backend.bazaar_messages (Backend.interfere (w n) db));
      constructor; [now left | assumption].
Qed.

(* ================================================================== *)
(** ** What the tables keep *)
(* ================================================================== *)

Module Tables.

Import Backend.

(** The rating trigger writes [profiles] only. *)
Lemma fold_update_seller_rating_tables (l : list SellerRating) db :
  let db' := fold_left (fun d r => update_seller_rating (rating_seller_id r) d) l db in
  bazaar_posts db' = bazaar_posts db
  /\ bazaar_conversations db' = bazaar_conversations db
  /\ bazaar_messages db' = bazaar_messages db
  /\ seller_ratings db' = seller_ratings db.
Proof.
  cbv zeta. revert db. induction l as [|r l IH]; intro db; [repeat split|].
  cbn [fold_left]. destruct (IH (update_seller_rating (rating_seller_id r) db))
    as (-> & -> & -> & ->).
  repeat split.
Qed.

(** What one request leaves of the conversations table: it is untouched,
    or a row is added whose (post, buyer) pair had none, or the rows keep
    their pairs, or rows are deleted. *)
Lemma serve_conversations auth t {T} (r : Req T) db :
  let before := bazaar_conversations (interfere t db) in
  let after := bazaar_conversations (fst (serve auth t r db)) in
  after = before
  \/ (exists row, after = (before ++ [row])%list
                  /\ existsb (same_pair (conv_post_id row) (conv_buyer_id row))
                             before = false)
  \/ (exists f, after = map f before
                /\ forall c, conv_post_id (f c) = conv_post_id c
                             /\ conv_buyer_id (f c) = conv_buyer_id c)
  \/ (exists q, after = filter q before).
Proof.
  cbv zeta. unfold serve. destruct (negb (network_ok t)); [now left|].
  destruct r; cbn [fst]; try (now left).
  - unfold insert_conversation.
    destruct (negb (allowed _ auth _)); [now left|].
    destruct (existsb (fun c => (conv_id c =? uuid t)%string) _); [now left|].
    destruct (existsb (same_pair post_id buyer_id) _) eqn:E; [now left|].
    destruct (negb _); [now left|].
    right. left. eexists. split; [reflexivity|]. exact E.
  - unfold insert_message.
    destruct (negb (allowed _ auth _)); [now left|].
    destruct (existsb _ _); [now left|].
    right. right. left. eexists. split; [reflexivity|].
    intro c. cbn. destruct (conv_id c =? conversation_id)%string; split; reflexivity.
  - unfold insert_post. destruct (existsb _ _); now left.
  - right. right. right. unfold delete_post.
    destruct (fold_update_seller_rating_tables
                (filter (fun r => opt_eqb (rating_post_id r) id)
                        (seller_ratings (interfere t db)))
                (with_ratings
                   (update_where (fun r => opt_eqb (rating_post_id r) id) clear_post
                      (seller_ratings (interfere t db)))
                   (with_messages
                      (filter
                         (fun m =>
                            negb (existsb
                                    (fun c => (conv_id c =? msg_conversation_id m)%string)
                                    (filter (fun c => (conv_post_id c =? id)%string)
                                       (bazaar_conversations (interfere t db)))))
                         (bazaar_messages (interfere t db)))
                      (with_conversations
                         (filter (fun c => negb (conv_post_id c =? id)%string)
                            (bazaar_conversations (interfere t db)))
                         (with_posts
                            (filter (fun p => negb (post_id_ p =? id)%string)
                               (bazaar_posts (interfere t db)))
                            (interfere t db))))))
      as (_ & -> & _ & _).
    eexists. reflexivity.
  - unfold upsert_rating.
    repeat match goal with |- context [if ?c then _ else _] => destruct c end;
      now left.
Qed.

Lemma filter_length_le {A} (f q : A -> bool) (l : list A) :
  List.length (filter f (filter q l)) <= List.length (filter f l).
Proof.
  induction l as [|x l IH]; [reflexivity|]. cbn.
  destruct (q x); cbn; destruct (f x); cbn; lia.
Qed.

Lemma filter_map_same {A} (f : A -> bool) (g : A -> A) (l : list A) :
  (forall x, f (g x) = f x) ->
  List.length (filter f (map g l)) = List.length (filter f l).
Proof.
  intro H. induction l as [|x l IH]; [reflexivity|]. cbn. rewrite H.
  destruct (f x); cbn; now rewrite IH.
Qed.

Lemma serve_keeps_one_conversation_per_pair auth t {T} (r : Req T) db :
  one_conversation_per_pair (interfere t db) ->
  one_conversation_per_pair (fst (serve auth t r db)).
Proof.
  intros Hone p b. specialize (Hone p b). unfold pair_rows in *.
  destruct (serve_conversations auth t r db)
    as [E|[(row & E & Hnew)|[(f & E & Hf)|(q & E)]]]; rewrite E.
  - exact Hone.
  - rewrite filter_app, length_app. cbn [filter].
    destruct (same_pair p b row) eqn:Hrow; cbn [List.length]; [|lia].
    unfold same_pair in Hrow. apply andb_prop in Hrow. destruct Hrow as [Hp Hb].
    apply String.eqb_eq in Hp, Hb. rewrite Hp, Hb in Hnew.
    assert (Hz : filter (same_pair p b) (bazaar_conversations (interfere t db)) = []).
    { destruct (filter (same_pair p b) (bazaar_conversations (interfere t db)))
        as [|x l] eqn:F; [reflexivity|].
      assert (Hin : In x (filter (same_pair p b)
                            (bazaar_conversations (interfere t db))))
        by (rewrite F; now left).
      apply filter_In in Hin.
      assert (existsb (same_pair p b) (bazaar_conversations (interfere t db)) = true)
        by (apply existsb_exists; exists x; exact Hin).
      congruence. }
    rewrite Hz. cbn. lia.
  - rewrite filter_map_same; [exact Hone|].
    intro c. unfold same_pair. destruct (Hf c) as [-> ->]. reflexivity.
  - pose proof (filter_length_le (same_pair p b) q
                  (bazaar_conversations (interfere t db))). lia.
Qed.

End Tables.

(** X12.  One conversation per (post, buyer), whoever does what.  If the
    tables hold at most one conversation for every pair, so they do after
    any handler built from the requests of the screens has run, for any
    user and whatever gets lost on the way, as long as the other writers
    of the world keep to it as well. *)
Theorem run_keeps_one_conversation_per_pair (E A : Type) (s : Script E A)
    (w : Backend.World) (n : nat) (auth : option string) (db : Backend.DB) :
  (forall k d, Backend.one_conversation_per_pair d ->
               Backend.one_conversation_per_pair (Backend.interfere (w k) d)) ->
  Backend.one_conversation_per_pair db ->
  Backend.one_conversation_per_pair (final (run w n auth s db)).
Proof.
  intro Hw. revert n db.
  induction s as [a|e k IH|T r k IH]; intros n db Hone; cbn [run final].
  - exact Hone.
  - now apply IH.
  - apply IH. apply Tables.serve_keeps_one_conversation_per_pair. now apply Hw.
Qed.

Lemma run_keeps_one_conversation_per_pair_witness :
  Backend.one_conversation_per_pair
    (final (run (quiet Sample.ids Sample.clock) 0 (Some "u-amina")
              (BazaarDetailScreen.handleMessageSeller
                 (Some Sample.amina) (Some (Sample.lamp active None)))
              Sample.chatting)).
Proof.
  apply (run_keeps_one_conversation_per_pair _ _ _ (quiet Sample.ids Sample.clock) 0).
  - intros k d Hd. exact Hd.
  - intros p b. unfold Backend.pair_rows. cbn.
    destruct (Backend.same_pair p b Sample.thread); cbn; lia.
Defined.

Module RatingTables.

Import Backend.

Lemma rating_rows_conflicts p db :
  rating_rows (rp_buyer_id p) (rp_post_id p) db
  = filter (conflicts p) (seller_ratings db).
Proof. reflexivity. Qed.

Lemma filter_nil_of_existsb {A} (f : A -> bool) (l : list A) :
  existsb f l = false -> filter f l = [].
Proof.
  induction l as [|x l IH]; [reflexivity|]. cbn.
  destruct (f x); [discriminate|]. exact IH.
Qed.

Lemma filter_map_le {A} (f : A -> bool) (g : A -> A) (l : list A) :
  (forall x, f (g x) = true -> f x = true) ->
  List.length (filter f (map g l)) <= List.length (filter f l).
Proof.
  intro H. induction l as [|x l IH]; [reflexivity|]. cbn.
  destruct (f (g x)) eqn:E.
  - rewrite (H x E). cbn. lia.
  - destruct (f x); cbn; lia.
Qed.

(** A request under the policies of the script: a rating for a (buyer,
    post) that has one changes nothing; one for a pair that has none, in
    range and for a post that exists, is added with the turn's
    identifier. *)
Lemma upsert_under_script_policies auth t p db :
  let out := upsert_rating rating_policies auth t p db in
  fst out = db
  \/ (existsb (conflicts p) (seller_ratings db) = false
      /\ (1 <= rp_rating p <= 5)%Z
      /\ auth = Some (rp_buyer_id p)
      /\ fst out
         = update_seller_rating (rp_seller_id p)
             (with_ratings
                (seller_ratings db
                 ++ [{| rating_id := uuid t;
                        rating_seller_id := rp_seller_id p;
                        rating_buyer_id := rp_buyer_id p;
                        rating_post_id := Some (rp_post_id p);
                        rating_rating := rp_rating p;
                        rating_review_text := rp_review_text p |}])%list
                db)
      /\ snd out = done).
Proof.
  cbv zeta.
  destruct (existsb (conflicts p) (seller_ratings db)) eqn:Hex.
  - left. now apply Ratings.upsert_existing_refused.
  - unfold upsert_rating. rewrite Hex.
    destruct (allowed (for_insert rating_policies) auth _) eqn:Hins;
      cbn [negb]; [|now left].
    destruct ((1 <=? rp_rating p)%Z && (rp_rating p <=? 5)%Z) eqn:Hrange;
      cbn [negb]; [|now left].
    destruct (existsb (fun r => (rating_id r =? uuid t)%string) _); [now left|].
    destruct (has_post (rp_post_id p) db); cbn [negb]; [|now left].
    right. split; [reflexivity|]. split.
    { apply andb_prop in Hrange. destruct Hrange as [H1 H2].
      apply Z.leb_le in H1, H2. lia. }
    split; [|split; reflexivity].
    destruct auth as [uid|]; [|discriminate Hins].
    cbn in Hins. apply String.eqb_eq in Hins. now rewrite Hins.
Qed.

Lemma sum_ratings_bounds (l : list SellerRating) :
  ratings_in_range l ->
  (Z.of_nat (List.length l) <= sum_ratings l <= 5 * Z.of_nat (List.length l))%Z.
Proof.
  induction l as [|r l IH]; intro H; [cbn; lia|].
  cbn [sum_ratings fold_right List.length]. fold (sum_ratings l).
  assert (Hr : (1 <= rating_rating r <= 5)%Z) by (apply H; now left).
  assert (Hl : ratings_in_range l) by (intros x Hx; apply H; now right).
  specialize (IH Hl). lia.
Qed.

(** The stored mean of ratings between 1 and 5 is between 1 and 5. *)
Lemma round1_avg_bounds (l : list SellerRating) :
  l <> [] -> ratings_in_range l ->
  (1 <= round1_avg l)%Q /\ (round1_avg l <= 5)%Q.
Proof.
  intros Hne Hr. pose proof (sum_ratings_bounds l Hr) as Hs.
  unfold round1_avg. destruct l as [|r l]; [congruence|].
  set (n := Z.of_nat (List.length (r :: l))) in *.
  set (s := sum_ratings (r :: l)) in *.
  assert (Hn : (0 < n)%Z) by (subst n; cbn [List.length]; lia).
  rewrite Z.sgn_pos, Z.abs_eq, Z.mul_1_l by lia.
  assert (Hlo : (10 <= (2 * 10 * s + n) / (2 * n))%Z)
    by (apply Z.div_le_lower_bound; nia).
  assert (Hhi : ((2 * 10 * s + n) / (2 * n) <= 50)%Z).
  { apply Z.lt_succ_r. apply Z.div_lt_upper_bound; nia. }
  rewrite !Qred_correct. unfold Qle. cbn [Qnum Qden inject_Z]. lia.
Qed.

Lemma serve_ratings auth t {T} (r : Req T) db :
  let before := seller_ratings (interfere t db) in
  let after := seller_ratings (fst (serve auth t r db)) in
  after = before
  \/ (exists row, after = (before ++ [row])%list
                  /\ forall b p, (rating_buyer_id row =? b)%string
                                 && opt_eqb (rating_post_id row) p = true ->
                                 rating_rows b p (interfere t db) = [])
  \/ (exists id, after = update_where (fun r => opt_eqb (rating_post_id r) id)
                                      clear_post before).
Proof.
  cbv zeta. unfold serve. destruct (negb (network_ok t)); [now left|].
  destruct r; cbn [fst]; try (now left).
  - unfold insert_conversation.
    repeat match goal with |- context [if ?c then _ else _] => destruct c end;
      now left.
  - unfold insert_message.
    repeat match goal with |- context [if ?c then _ else _] => destruct c end;
      now left.
  - unfold insert_post. destruct (existsb _ _); now left.
  - right. right. exists id. unfold delete_post.
    match goal with |- context [fold_left ?f ?l ?d] =>
      destruct (Tables.fold_update_seller_rating_tables l d) as (_ & _ & _ & ->) end.
    reflexivity.
  - destruct (upsert_under_script_policies auth t payload (interfere t db))
      as [->|(Hex & _ & _ & -> & _)]; [now left|].
    right. left. eexists. split; [reflexivity|].
    intros b p Hkey. cbn [rating_buyer_id rating_post_id opt_eqb] in Hkey.
    apply andb_prop in Hkey. destruct Hkey as [Hb Hp].
    apply String.eqb_eq in Hb, Hp. subst b p.
    rewrite rating_rows_conflicts. now apply filter_nil_of_existsb.
Qed.

Lemma serve_keeps_one_rating_per_pair auth t {T} (r : Req T) db :
  one_rating_per_pair (interfere t db) ->
  one_rating_per_pair (fst (serve auth t r db)).
Proof.
  intros Hone b p. specialize (Hone b p). unfold rating_rows in *.
  destruct (serve_ratings auth t r db) as [E|[(row & E & Hnew)|(id & E)]];
    rewrite E.
  - exact Hone.
  - rewrite filter_app, length_app. cbn [filter].
    destruct ((rating_buyer_id row =? b)%string && opt_eqb (rating_post_id row) p)
      eqn:Hrow; cbn [List.length]; [|lia].
    specialize (Hnew b p Hrow). unfold rating_rows in Hnew. rewrite Hnew.
    cbn. lia.
  - unfold update_where.
    etransitivity; [apply filter_map_le | exact Hone].
    intros x Hx. destruct (opt_eqb (rating_post_id x) id); [|exact Hx].
    cbn in Hx. now rewrite andb_false_r in Hx.
Qed.

End RatingTables.

(** X13.  One rating per (buyer, post), whoever does what.  If the tables
    hold at most one rating of every buyer for every post, so they do
    after any handler built from the requests of the screens has run, as
    long as the other writers of the world keep to it as well. *)
Theorem run_keeps_one_rating_per_pair (E A : Type) (s : Script E A)
    (w : Backend.World) (n : nat) (auth : option string) (db : Backend.DB) :
  (forall k d, Backend.one_rating_per_pair d ->
               Backend.one_rating_per_pair (Backend.interfere (w k) d)) ->
  Backend.one_rating_per_pair db ->
  Backend.one_rating_per_pair (final (run w n auth s db)).
Proof.
  intro Hw. revert n db.
  induction s as [a|e k IH|T r k IH]; intros n db Hone; cbn [run final].
  - exact Hone.
  - now apply IH.
  - apply IH. apply RatingTables.serve_keeps_one_rating_per_pair. now apply Hw.
Qed.

Lemma run_keeps_one_rating_per_pair_witness :
  Backend.one_rating_per_pair
    (final (run (quiet Sample.ids Sample.clock) 0 (Some "u-amina")
              (RateSellerScreen.handleSubmit "p-lamp" (Some Sample.amina)
                 (Some (Sample.lamp sold (Some "2025-02-02T00:00:00.000Z")))
                 5 "" None)
              Sample.unrated)).
Proof.
  apply (run_keeps_one_rating_per_pair _ _ _ (quiet Sample.ids Sample.clock) 0).
  - intros k d Hd. exact Hd.
  - intros b p. cbn. lia.
Defined.

(** X14.  A first rating and the seller's aggregate.  With stars from 1
    to 5, no rating of this buyer for this post yet, the post in the
    table, a fresh identifier and nothing else writing, [handleSubmit]
    adds one row to [seller_ratings] (the review trimmed, null when
    blank) and the trigger leaves on the seller's profile the number of
    the seller's ratings and their mean rounded to one decimal; with the
    seller's earlier ratings between 1 and 5, that mean is between 1 and
    5. *)
Theorem handleSubmit_first_rating_aggregate (ids clock : nat -> string) (n : nat)
    (postId : string) (user : User) (post : BazaarPost) (rating : Z)
    (reviewText : string) (existing : option Z) (db : Backend.DB) :
  (1 <= rating <= 5)%Z ->
  Backend.rating_rows (user_id user) postId db = [] ->
  Backend.has_post postId db = true ->
  (forall r, In r (Backend.seller_ratings db) -> rating_id r <> ids (n)) ->
  Backend.ratings_in_range (Backend.seller_ratings db) ->
  let o := run (quiet ids clock) n (Some (user_id user))
             (RateSellerScreen.handleSubmit postId (Some user) (Some post)
                rating reviewText existing) db in
  let row := {| rating_id := ids n;
                rating_seller_id := post_user_id post;
                rating_buyer_id := user_id user;
                rating_post_id := Some postId;
                rating_rating := rating;
                rating_review_text := JS.or_null (JS.trim reviewText) |} in
  let theirs := Backend.ratings_of (post_user_id post)
                  (Backend.seller_ratings db ++ [row])%list in
  Backend.seller_ratings (final o) = (Backend.seller_ratings db ++ [row])%list
  /\ (forall p, In p (Backend.profiles (final o)) ->
                profile_id p = post_user_id post ->
                profile_seller_rating_count p = Z.of_nat (List.length theirs)
                /\ profile_seller_rating p = Backend.round1_avg theirs
                /\ (1 <= profile_seller_rating p)%Q
                /\ (profile_seller_rating p <= 5)%Q).
Proof.
  intros Hrange Hnone Hpost Hfresh Hold o row theirs. subst o.
  assert (Hserve :
    Backend.serve (Some (user_id user)) (quiet ids clock n)
      (Backend.UpsertRating
         {| Backend.rp_seller_id := post_user_id post;
            Backend.rp_buyer_id := user_id user;
            Backend.rp_post_id := postId;
            Backend.rp_rating := rating;
            Backend.rp_review_text := JS.or_null (JS.trim reviewText) |})
      db
    = (Backend.update_seller_rating (post_user_id post)
         (Backend.with_ratings (Backend.seller_ratings db ++ [row])%list db),
       Backend.done)).
  { unfold Backend.serve.
    cbn [quiet Backend.interfere Backend.network_ok negb].
    unfold Backend.upsert_rating.
    cbn [Backend.allowed Backend.for_insert Backend.rating_policies rating_buyer_id
         Backend.rp_buyer_id Backend.rp_rating Backend.rp_post_id Backend.uuid quiet
         Backend.rp_seller_id Backend.rp_review_text].
    rewrite String.eqb_refl. cbn [negb].
    assert (H15 : ((1 <=? rating)%Z && (rating <=? 5)%Z) = true).
    { apply andb_true_intro. split; apply Z.leb_le; lia. }
    rewrite H15. cbn [negb].
    assert (Hex : existsb
                    (Backend.conflicts
                       {| Backend.rp_seller_id := post_user_id post;
                          Backend.rp_buyer_id := user_id user;
                          Backend.rp_post_id := postId;
                          Backend.rp_rating := rating;
                          Backend.rp_review_text := JS.or_null (JS.trim reviewText) |})
                    (Backend.seller_ratings db) = false)
      by (apply Resolver.existsb_false_filter; exact Hnone).
    rewrite Hex.
    assert (Hid : existsb (fun r => (rating_id r =? ids n)%string)
                          (Backend.seller_ratings db) = false).
    { destruct (existsb (fun r => (rating_id r =? ids n)%string)
                  (Backend.seller_ratings db)) eqn:F; [|reflexivity].
      apply existsb_exists in F. destruct F as (r & Hin & Hr).
      apply String.eqb_eq in Hr. exfalso. exact (Hfresh r Hin Hr). }
    rewrite Hid, Hpost. reflexivity. }
  unfold RateSellerScreen.handleSubmit.
  destruct (rating =? 0)%Z eqn:E0; [apply Z.eqb_eq in E0; lia|].
  cbn [run final]. rewrite Hserve.
  cbn [fst snd Backend.error Backend.done run final].
  split; [reflexivity|].
  intros p Hin Hp. unfold Backend.update_seller_rating in Hin.
  cbn [Backend.profiles Backend.with_profiles Backend.with_ratings
       Backend.seller_ratings] in Hin.
  apply in_map_iff in Hin. destruct Hin as (p0 & Hp0 & Hin0).
  fold theirs in Hp0.
  destruct (profile_id p0 =? post_user_id post)%string eqn:Eid.
  - subst p. cbn [profile_seller_rating_count profile_seller_rating].
    split; [reflexivity|]. split; [reflexivity|].
    apply RatingTables.round1_avg_bounds.
    + subst theirs. unfold Backend.ratings_of. rewrite filter_app. cbn [filter].
      subst row. cbn [rating_seller_id]. rewrite String.eqb_refl.
      intro F. apply app_eq_nil in F. destruct F as [_ F]. discriminate F.
    + intros r Hr. subst theirs. unfold Backend.ratings_of in Hr.
      apply filter_In in Hr. destruct Hr as [Hr _].
      apply in_app_or in Hr. destruct Hr as [Hr|[<-|[]]]; [now apply Hold|].
      exact Hrange.
  - subst p. apply String.eqb_neq in Eid. contradiction.
Qed.

Lemma handleSubmit_first_rating_aggregate_witness :
  map (fun p => (profile_seller_rating_count p, profile_seller_rating p))
      (Backend.profiles
         (final (run (quiet Sample.ids Sample.clock) 0 (Some "u-amina")
                   (RateSellerScreen.handleSubmit "p-lamp" (Some Sample.amina)
                      (Some (Sample.lamp sold (Some "2025-02-02T00:00:00.000Z")))
                      4 " Kind seller " None)
                   Sample.unrated)))
  = [(1%Z, 4%Q)]
  /\ Backend.seller_ratings
       (final (run (quiet Sample.ids Sample.clock) 0 (Some "u-amina")
                 (RateSellerScreen.handleSubmit "p-lamp" (Some Sample.amina)
                    (Some (Sample.lamp sold (Some "2025-02-02T00:00:00.000Z")))
                    4 " Kind seller " None)
                 Sample.unrated))
     = [{| rating_id := "id-0"; rating_seller_id := "u-bilal";
           rating_buyer_id := "u-amina"; rating_post_id := Some "p-lamp";
           rating_rating := 4; rating_review_text := Some "Kind seller" |}].
Proof.
  split; [reflexivity|].
  apply (handleSubmit_first_rating_aggregate Sample.ids Sample.clock 0 "p-lamp"
           Sample.amina (Sample.lamp sold (Some "2025-02-02T00:00:00.000Z"))
           4 " Kind seller " None Sample.unrated).
  - lia.
  - reflexivity.
  - reflexivity.
  - intros r [].
  - intros r [].
Defined.

(** X15.  No rating outside 1 to 5 is stored.  With stars below 1 or
    above 5, [handleSubmit] leaves the tables as they are but for what
    other writers did (zero stars send no request, the rest is refused by
    the CHECK of the column), and it does not thank the user. *)
Theorem handleSubmit_out_of_range (w : Backend.World) (n : nat)
    (postId : string) (user : User) (post : BazaarPost) (rating : Z)
    (reviewText : string) (existing : option Z) (db : Backend.DB) :
  (rating < 1 \/ 5 < rating)%Z ->
  let o := run w n (Some (user_id user))
             (RateSellerScreen.handleSubmit postId (Some user) (Some post)
                rating reviewText existing) db in
  (final o = db \/ final o = Backend.interfere (w n) db)
  /\ (forall message,
        ~ In (Did (RateSellerScreen.AlertAlert "Thank you!" message)) (trace o))
  /\ (rating = 0%Z ->
      trace o = [Did (RateSellerScreen.AlertAlert "Rating required"
                        "Please select a star rating")]).
Proof.
  intros Hout o. subst o. unfold RateSellerScreen.handleSubmit.
  destruct (rating =? 0)%Z eqn:E0.
  - cbn [run final trace]. split; [now left|]. split; [|reflexivity].
    intros message [F|[]]. discriminate F.
  - cbn [run final trace]. unfold Backend.serve.
    destruct (Backend.network_ok (w n)); cbn [negb fst snd].
    + unfold Backend.upsert_rating.
      destruct (negb (Backend.allowed _ _ _)).
      * cbn [fst snd Backend.error Backend.failed run final trace].
        split; [now right|]. split.
        -- intros message [F|[F|[F|[F|[]]]]]; discriminate F.
        -- intro F. apply Z.eqb_neq in E0. contradiction.
      * assert (H15 : ((1 <=? rating)%Z && (rating <=? 5)%Z) = false).
        { apply andb_false_iff. destruct Hout; [left|right]; apply Z.leb_gt; lia. }
        cbn [Backend.rp_rating]. rewrite H15.
        cbn [negb fst snd Backend.error Backend.failed run final trace].
        split; [now right|]. split.
        -- intros message [F|[F|[F|[F|[]]]]]; discriminate F.
        -- intro F. apply Z.eqb_neq in E0. contradiction.
    + cbn [fst snd Backend.error Backend.failed run final trace].
      split; [now right|]. split.
      * intros message [F|[F|[F|[F|[]]]]]; discriminate F.
      * intro F. apply Z.eqb_neq in E0. contradiction.
Qed.

Lemma handleSubmit_out_of_range_witness :
  final (run (quiet Sample.ids Sample.clock) 0 (Some "u-amina")
           (RateSellerScreen.handleSubmit "p-lamp" (Some Sample.amina)
              (Some (Sample.lamp sold (Some "2025-02-02T00:00:00.000Z")))
              6 "" None)
           Sample.unrated)
  = Sample.unrated.
Proof.
  destruct (handleSubmit_out_of_range (quiet Sample.ids Sample.clock) 0 "p-lamp"
              Sample.amina (Sample.lamp sold (Some "2025-02-02T00:00:00.000Z"))
              6 "" None Sample.unrated) as ([H|H] & _); [lia | exact H | exact H].
Defined.

(* ================================================================== *)
(** ** Deleting and marking a listing that is gone *)
(* ================================================================== *)

Module ListingRows.

Import Backend.

Lemma update_where_none {Row} (c : Row -> bool) (f : Row -> Row) (l : list Row) :
  existsb c l = false -> update_where c f l = l.
Proof.
  unfold update_where. induction l as [|x l IH]; [reflexivity|]. cbn.
  destruct (c x); [discriminate|]. intro H. now rewrite IH.
Qed.

Lemma delete_post_tables id db :
  bazaar_posts (delete_post id db)
  = filter (fun p => negb (post_id_ p =? id)%string) (bazaar_posts db)
  /\ bazaar_conversations (delete_post id db)
     = filter (fun c => negb (conv_post_id c =? id)%string) (bazaar_conversations db)
  /\ bazaar_messages (delete_post id db)
     = filter (fun m =>
                 negb (existsb (fun c => (conv_id c =? msg_conversation_id m)%string)
                         (filter (fun c => (conv_post_id c =? id)%string)
                                 (bazaar_conversations db))))
              (bazaar_messages db)
  /\ seller_ratings (delete_post id db)
     = update_where (fun r => opt_eqb (rating_post_id r) id) clear_post
                    (seller_ratings db).
Proof.
  unfold delete_post.
  match goal with |- context [fold_left ?f ?l ?d] =>
    destruct (Tables.fold_update_seller_rating_tables l d) as (-> & -> & -> & ->) end.
  repeat split.
Qed.

End ListingRows.

(** X16.  Deleting a listing, when the request gets through: the listing
    is gone and the other listings stay; so are the conversations about
    it, and exactly the messages of those conversations; every rating
    stays, with its seller, buyer, stars and review, and none refers to
    the listing any more; the screen goes back. *)
Theorem handleDelete_cascades (w : Backend.World) (n : nat)
    (auth : option string) (post : BazaarPost) (db : Backend.DB) :
  Backend.network_ok (w n) = true ->
  let before := Backend.interfere (w n) db in
  let o := run w n auth (BazaarDetailScreen.handleDelete_onPress post) db in
  let id := post_id_ post in
  trace o = [Requested (Backend.DeletePost id) Backend.done;
             Did BazaarDetailScreen.RouterBack]
  /\ (forall p, In p (Backend.bazaar_posts (final o)) <->
                In p (Backend.bazaar_posts before) /\ post_id_ p <> id)
  /\ (forall c, In c (Backend.bazaar_conversations (final o)) <->
                In c (Backend.bazaar_conversations before) /\ conv_post_id c <> id)
  /\ (forall m, In m (Backend.bazaar_messages (final o)) <->
                In m (Backend.bazaar_messages before)
                /\ forall c, In c (Backend.bazaar_conversations before) ->
                             conv_id c = msg_conversation_id m ->
                             conv_post_id c <> id)
  /\ map (fun r => (rating_id r, rating_seller_id r, rating_buyer_id r,
                    rating_rating r, rating_review_text r))
         (Backend.seller_ratings (final o))
     = map (fun r => (rating_id r, rating_seller_id r, rating_buyer_id r,
                      rating_rating r, rating_review_text r))
           (Backend.seller_ratings before)
  /\ (forall r, In r (Backend.seller_ratings (final o)) ->
                rating_post_id r <> Some id).
Proof.
  intros Hnet before o id. subst o.
  unfold BazaarDetailScreen.handleDelete_onPress. cbn [run]. unfold Backend.serve.
  rewrite Hnet. cbn [negb fst snd Backend.error Backend.done run final trace].
  fold before. fold id.
  destruct (ListingRows.delete_post_tables id before) as (Hp & Hc & Hm & Hr).
  split; [reflexivity|]. split; [|split; [|split; [|split]]].
  - intro p. rewrite Hp, filter_In, negb_true_iff, String.eqb_neq. reflexivity.
  - intro c. rewrite Hc, filter_In, negb_true_iff, String.eqb_neq. reflexivity.
  - intro m. rewrite Hm, filter_In, negb_true_iff. split.
    + intros [Hin Hgone]. split; [exact Hin|]. intros c Hc' Hid Hpost.
      assert (existsb (fun c => (conv_id c =? msg_conversation_id m)%string)
                (filter (fun c => (conv_post_id c =? id)%string)
                        (Backend.bazaar_conversations before)) = true).
      { apply existsb_exists. exists c. split.
        - apply filter_In. split; [exact Hc'|]. now apply String.eqb_eq.
        - now apply String.eqb_eq. }
      congruence.
    + intros [Hin Hkeep]. split; [exact Hin|].
      destruct (existsb _ _) eqn:F; [|reflexivity].
      apply existsb_exists in F. destruct F as (c & Hc' & Hid).
      apply filter_In in Hc'. destruct Hc' as [Hc' Hpost].
      apply String.eqb_eq in Hid, Hpost. exfalso.
      exact (Hkeep c Hc' Hid Hpost).
  - rewrite Hr. unfold Backend.update_where. rewrite map_map.
    apply map_ext. intro r.
    destruct (Backend.opt_eqb (rating_post_id r) id); reflexivity.
  - intros r Hin. rewrite Hr in Hin.
    apply Listing.In_update_where in Hin. destruct Hin as (y & _ & ->).
    destruct (Backend.opt_eqb (rating_post_id y) id) eqn:E.
    + discriminate.
    + intro F. rewrite F in E. cbn in E. now rewrite String.eqb_refl in E.
Qed.

Lemma handleDelete_cascades_witness :
  let o := run (quiet Sample.ids Sample.clock) 0 (Some "u-bilal")
             (BazaarDetailScreen.handleDelete_onPress
                (Sample.lamp sold (Some "2025-02-02T00:00:00.000Z")))
             Sample.rated in
  Backend.bazaar_conversations (final o) = []
  /\ Backend.bazaar_messages (final o) = []
  /\ trace o = [Requested (Backend.DeletePost "p-lamp") Backend.done;
                Did BazaarDetailScreen.RouterBack].
Proof.
  cbv zeta. split; [reflexivity|]. split; [reflexivity|].
  apply (handleDelete_cascades (quiet Sample.ids Sample.clock) 0 (Some "u-bilal")
           (Sample.lamp sold (Some "2025-02-02T00:00:00.000Z")) Sample.rated).
  reflexivity.
Defined.

(** X17.  Marking as sold a listing that is no longer in the table.  The
    update matches no row and reports no error: the table is left as it
    was, yet the screen sets its copy of the listing to sold and shows the
    success alert. *)
Theorem handleMarkAsSold_on_missing_row (w : Backend.World) (n : nat)
    (auth : option string) (t1 t2 : string) (post : BazaarPost)
    (db : Backend.DB) :
  Backend.network_ok (w n) = true ->
  Backend.has_post (post_id_ post) (Backend.interfere (w n) db) = false ->
  let o := run w n auth
             (BazaarDetailScreen.handleMarkAsSold_onPress t1 t2 post) db in
  final o = Backend.interfere (w n) db
  /\ trace o
     = [Requested (Backend.UpdatePostSold (post_id_ post) t1) Backend.done;
        Did (BazaarDetailScreen.SetPost (Backend.set_sold t2 post));
        Did (BazaarDetailScreen.AlertAlert "Success"
               "Your listing has been marked as sold!")].
Proof.
  intros Hnet Hgone o. subst o.
  rewrite (MarkSold.run_handleMarkAsSold_onPress w n auth t1 t2 post db Hnet).
  cbn [final trace]. split; [|reflexivity].
  unfold Backend.has_post in Hgone.
  rewrite (ListingRows.update_where_none _ _ _ Hgone).
  now destruct (Backend.interfere (w n) db).
Qed.

Lemma handleMarkAsSold_on_missing_row_witness :
  final (run (quiet Sample.ids Sample.clock) 0 (Some "u-bilal")
           (BazaarDetailScreen.handleMarkAsSold_onPress
              "2025-03-02T00:00:00.000Z" "2025-03-02T00:00:00.001Z"
              (Sample.lamp active None))
           (Backend.delete_post "p-lamp" Sample.chatting))
  = Backend.delete_post "p-lamp" Sample.chatting.
Proof.
  apply (handleMarkAsSold_on_missing_row (quiet Sample.ids Sample.clock) 0
           (Some "u-bilal") "2025-03-02T00:00:00.000Z" "2025-03-02T00:00:00.001Z"
           (Sample.lamp active None) (Backend.delete_post "p-lamp" Sample.chatting));
    reflexivity.
Defined.

(* ================================================================== *)
(** ** Submitting a new listing *)
(* ================================================================== *)

Module NewListingRuns.

Import Backend BazaarNewScreen.

(** An accepted insert of a post adds one row, the user's. *)
Lemma insert_post_accepted auth t p d :
  error (snd (serve auth t (InsertPost p) d)) = None ->
  exists row,
    bazaar_posts (fst (serve auth t (InsertPost p) d))
    = (bazaar_posts (interfere t d) ++ [row])%list
    /\ post_user_id row = pp_user_id p
    /\ post_title row = pp_title p.
Proof.
  unfold serve. destruct (negb (network_ok t)); [discriminate|].
  unfold insert_post. destruct (existsb _ _); [discriminate|].
  intros _. cbn [fst]. eexists. split; [reflexivity|]. split; reflexivity.
Qed.

(** The runs of [handleSubmit] on a valid form, by what happens to the
    photo and to the row. *)
Lemma run_handleSubmit_valid Number stamp w n user f q ph db :
  validate Number f = [] ->
  Number (price f) = Some q ->
  photo f = Some ph ->
  let uid := Some (user_id user) in
  let file := user_id user ++ "/" ++ stamp ++ ".jpg" in
  let up := serve uid (w n) (UploadPhoto file) db in
  let ins := serve uid (w (S n))
               (InsertPost (payload f (user_id user) q (data (snd up)))) (fst up) in
  let o := run w n uid (handleSubmit Number stamp (Some user) f) db in
  if too_large ph
  then trace o = [Did (SetErrors []); Did (SetLoading true);
                  Did (AlertAlert "Unable to create listing"
                         "Photo size must be less than 5MB.");
                  Did (SetLoading false)]
       /\ final o = db
  else match error (snd up) with
       | Some e =>
           trace o = [Did (SetErrors []); Did (SetLoading true);
                      Requested (UploadPhoto file) (snd up);
                      Did (AlertAlert "Unable to create listing" (message e));
                      Did (SetLoading false)]
           /\ final o = fst up
       | None =>
           match error (snd ins) with
           | Some e =>
               trace o = [Did (SetErrors []); Did (SetLoading true);
                          Requested (UploadPhoto file) (snd up);
                          Requested (InsertPost (payload f (user_id user) q
                                                   (data (snd up))))
                                    (snd ins);
                          Did (AlertAlert "Unable to create listing" (message e));
                          Did (SetLoading false)]
               /\ final o = fst ins
           | None =>
               trace o = [Did (SetErrors []); Did (SetLoading true);
                          Requested (UploadPhoto file) (snd up);
                          Requested (InsertPost (payload f (user_id user) q
                                                   (data (snd up))))
                                    (snd ins);
                          Did RouterBack;
                          Did (SetLoading false)]
               /\ final o = fst ins
           end
       end.
Proof.
  intros Hvalid Hnum Hph. cbv zeta. unfold handleSubmit.
  rewrite Hvalid, Hnum. unfold uploadPhoto. rewrite Hph.
  destruct (too_large ph).
  - cbn [bind run trace final]. split; reflexivity.
  - cbn [bind run trace final].
    destruct (error (snd (serve (Some (user_id user)) (w n)
                            (UploadPhoto (user_id user ++ "/" ++ stamp ++ ".jpg")) db)))
      as [e|] eqn:Eup.
    + cbn [bind run trace final]. split; reflexivity.
    + cbn [bind run trace final].
      match goal with |- context [error (snd ?s)] =>
        destruct (error (snd s)) as [e|] end;
        cbn [run trace final]; split; reflexivity.
Qed.

End NewListingRuns.

(** X18.  What [validate] asks for, and what an invalid form does.  Each
    error stands for its field: the title, the price (blank or not a
    number), the contact, the photo; there is no error exactly when the
    trimmed title, price and contact are not empty, the price is a number
    and a photo is chosen.  With any error, [handleSubmit] records the
    errors and does nothing else: no request, no loading state, no
    alert. *)
Theorem handleSubmit_invalid_form (Number : string -> option Q) (stamp : string)
    (w : Backend.World) (n : nat) (user : User) (f : BazaarNewScreen.Form)
    (db : Backend.DB) :
  let errors := BazaarNewScreen.validate Number f in
  (In ("title", "Title is required") errors
   <-> JS.trim (BazaarNewScreen.title f) = "")
  /\ (In ("price", "Valid price is required") errors
      <-> JS.trim (BazaarNewScreen.price f) = ""
          \/ Number (BazaarNewScreen.price f) = None)
  /\ (In ("contact", "Contact method is required") errors
      <-> JS.trim (BazaarNewScreen.contact f) = "")
  /\ (In ("photo", "Photo is required") errors
      <-> BazaarNewScreen.photo f = None)
  /\ (errors = []
      <-> JS.trim (BazaarNewScreen.title f) <> ""
          /\ JS.trim (BazaarNewScreen.price f) <> ""
          /\ Number (BazaarNewScreen.price f) <> None
          /\ JS.trim (BazaarNewScreen.contact f) <> ""
          /\ BazaarNewScreen.photo f <> None)
  /\ (errors <> [] ->
      let o := run w n (Some (user_id user))
                 (BazaarNewScreen.handleSubmit Number stamp (Some user) f) db in
      trace o = [Did (BazaarNewScreen.SetErrors errors)] /\ final o = db).
Proof.
  intro errors. subst errors.
  assert (Hrun : BazaarNewScreen.validate Number f <> [] ->
                 run w n (Some (user_id user))
                   (BazaarNewScreen.handleSubmit Number stamp (Some user) f) db
                 = {| result := tt; final := db;
                      trace := [Did (BazaarNewScreen.SetErrors
                                       (BazaarNewScreen.validate Number f))];
                      turns := n |}).
  { intro Hne. unfold BazaarNewScreen.handleSubmit.
    destruct (BazaarNewScreen.validate Number f) as [|e l]; [now destruct Hne|].
    reflexivity. }
  split; [|split; [|split; [|split; [|split]]]];
    try (intro Hne; rewrite (Hrun Hne); split; reflexivity);
    clear Hrun; unfold BazaarNewScreen.validate;
    destruct (JS.trim (BazaarNewScreen.title f)) as [|a1 s1];
    destruct (JS.trim (BazaarNewScreen.price f)) as [|a2 s2];
    destruct (Number (BazaarNewScreen.price f)) as [q|];
    destruct (JS.trim (BazaarNewScreen.contact f)) as [|a3 s3];
    destruct (BazaarNewScreen.photo f) as [ph|];
    cbn [JS.truthy negb orb app In];
    (split; intro H);
    repeat match goal with
           | H : _ \/ _ |- _ => destruct H as [H|H]
           | H : _ /\ _ |- _ => destruct H
           | H : False |- _ => destruct H
           end;
    try discriminate; try congruence; try reflexivity;
    try (repeat split; congruence);
    try (now left); try (now right);
    try (now right; left); try (now right; right; left);
    try (now (left; reflexivity)); try (now (right; reflexivity));
    try (now (do 3 right; left)); try (now (do 2 right; left)).
Qed.

Lemma handleSubmit_invalid_form_witness :
  trace (run (quiet Sample.ids Sample.clock) 0 (Some "u-amina")
           (BazaarNewScreen.handleSubmit (fun _ => None) "1740787200000"
              (Some Sample.amina) Sample.teapot)
           Sample.listed)
  = [Did (BazaarNewScreen.SetErrors [("price", "Valid price is required")])].
Proof.
  apply (handleSubmit_invalid_form (fun _ => None) "1740787200000"
           (quiet Sample.ids Sample.clock) 0 Sample.amina Sample.teapot
           Sample.listed).
  discriminate.
Defined.

(** X19.  How a valid form ends.  Whatever the world does, [handleSubmit]
    ends with the loading state off, and it either goes back or shows the
    alert "Unable to create listing", never both and never neither.  It
    goes back only when the row went in: the table then holds one more
    row, the user's, with the trimmed title.  A photo above 5 MB is told
    so in the alert and nothing is sent. *)
Theorem handleSubmit_outcome (Number : string -> option Q) (stamp : string)
    (w : Backend.World) (n : nat) (user : User) (f : BazaarNewScreen.Form)
    (q : Q) (db : Backend.DB) :
  BazaarNewScreen.validate Number f = [] ->
  Number (BazaarNewScreen.price f) = Some q ->
  let o := run w n (Some (user_id user))
             (BazaarNewScreen.handleSubmit Number stamp (Some user) f) db in
  let back := In (Did BazaarNewScreen.RouterBack) (trace o) in
  let alerted :=
    exists message,
      In (Did (BazaarNewScreen.AlertAlert "Unable to create listing" message))
         (trace o) in
  last (trace o) (Did BazaarNewScreen.RouterBack)
  = Did (BazaarNewScreen.SetLoading false)
  /\ (back \/ alerted)
  /\ ~ (back /\ alerted)
  /\ (back ->
      exists row,
        Backend.bazaar_posts (final o)
        = (Backend.bazaar_posts
             (Backend.interfere (w (S n)) (Backend.interfere (w n) db))
           ++ [row])%list
        /\ post_user_id row = user_id user
        /\ post_title row = JS.trim (BazaarNewScreen.title f))
  /\ (forall ph, BazaarNewScreen.photo f = Some ph ->
                 BazaarNewScreen.too_large ph = true ->
                 requested (trace o) = 0 /\ final o = db
                 /\ In (Did (BazaarNewScreen.AlertAlert "Unable to create listing"
                               "Photo size must be less than 5MB."))
                       (trace o)).
Proof.
  intros Hvalid Hnum o back alerted. subst back alerted o.
  destruct (NewListing.validate_has_photo Number f Hvalid) as (ph & Hph).
  pose proof (NewListingRuns.run_handleSubmit_valid Number stamp w n user f q ph db
                Hvalid Hnum Hph) as Hrun.
  cbv zeta in Hrun.
  destruct (BazaarNewScreen.too_large ph) eqn:Hlarge.
  - destruct Hrun as [-> ->]. cbn [last].
    split; [reflexivity|]. split; [right; eexists; right; right; left; reflexivity|].
    split; [intros [[F|[F|[F|[F|[]]]]] _]; discriminate F|].
    split; [intros [F|[F|[F|[F|[]]]]]; discriminate F|].
    intros ph' Hph' _. split; [reflexivity|]. split; [reflexivity|].
    right. right. left. reflexivity.
  - assert (Hsmall : forall ph', BazaarNewScreen.photo f = Some ph' ->
                                 BazaarNewScreen.too_large ph' = true -> False).
    { intros ph' Hph' Hl. rewrite Hph in Hph'. injection Hph' as <-. congruence. }
    destruct (Backend.error (snd (Backend.serve (Some (user_id user)) (w n)
                (Backend.UploadPhoto (user_id user ++ "/" ++ stamp ++ ".jpg")) db)))
      as [e|] eqn:Eup.
    + destruct Hrun as [-> ->]. cbn [last].
      split; [reflexivity|].
      split; [right; eexists; right; right; right; left; reflexivity|].
      split; [intros [[F|[F|[F|[F|[F|[]]]]]] _]; discriminate F|].
      split; [intros [F|[F|[F|[F|[F|[]]]]]]; discriminate F|].
      intros ph' Hph' Hl. destruct (Hsmall ph' Hph' Hl).
    + match type of Hrun with context [Backend.error (snd ?s)] =>
        destruct (Backend.error (snd s)) as [e|] eqn:Eins end.
      * destruct Hrun as [-> ->]. cbn [last].
        split; [reflexivity|].
        split; [right; eexists; right; right; right; right; left; reflexivity|].
        split; [intros [[F|[F|[F|[F|[F|[F|[]]]]]]] _]; discriminate F|].
        split; [intros [F|[F|[F|[F|[F|[F|[]]]]]]]; discriminate F|].
        intros ph' Hph' Hl. destruct (Hsmall ph' Hph' Hl).
      * destruct Hrun as [-> ->]. cbn [last].
        split; [reflexivity|].
        split; [left; right; right; right; right; left; reflexivity|].
        split; [intros [_ (message & [F|[F|[F|[F|[F|[F|[]]]]]]])]; discriminate F|].
        split.
        -- intros _.
           destruct (NewListingRuns.insert_post_accepted _ _ _ _ Eins)
             as (row & Hrows & Huser & Htitle).
           exists row. rewrite Hrows. split; [|split; assumption].
           f_equal. f_equal. unfold Backend.serve.
           destruct (negb (Backend.network_ok (w n))); reflexivity.
        -- intros ph' Hph' Hl. destruct (Hsmall ph' Hph' Hl).
Qed.

Lemma handleSubmit_outcome_witness :
  last (trace (run Sample.offline 0 (Some "u-amina")
                 (BazaarNewScreen.handleSubmit Sample.number "1740787200000"
                    (Some Sample.amina) Sample.teapot)
                 Sample.listed))
       (Did BazaarNewScreen.RouterBack)
  = Did (BazaarNewScreen.SetLoading false).
Proof.
  apply (handleSubmit_outcome Sample.number "1740787200000" Sample.offline 0
           Sample.amina Sample.teapot 40%Q Sample.listed); reflexivity.
Defined.

(* ================================================================== *)
(** ** Opening a conversation *)
(* ================================================================== *)

Module Opening.

Import Backend ChatScreen.

(** Somebody who takes no part in a conversation is shown no row of it. *)
Lemma stranger_sees_no_conversation uid cid l :
  existsb (fun c => (conv_id c =? cid)%string
                    && ((conv_buyer_id c =? uid)%string
                        || (conv_seller_id c =? uid)%string)) l = false ->
  filter (fun c => allowed (for_select conversation_policies) (Some uid) c
                   && (conv_id c =? cid)%string) l = [].
Proof.
  induction l as [|c l IH]; [reflexivity|].
  cbn [existsb filter]. intro H. apply orb_false_iff in H. destruct H as [Hc Hl].
  rewrite (IH Hl). cbn [allowed for_select conversation_policies].
  rewrite (String.eqb_sym uid (conv_buyer_id c)), (String.eqb_sym uid (conv_seller_id c)).
  rewrite andb_comm. rewrite Hc. reflexivity.
Qed.

End Opening.

(** X20.  Who [loadConversation] shows.  Either the screen goes back with
    nothing set, or the row it sets is a row of the table with the asked
    id in which the viewer takes part, and the profile it then asks for
    is the other party's: the seller's for the buyer, the buyer's for the
    seller (so not the viewer's own, unless buyer and seller are the same
    user); the post it asks for is the row's.  A viewer who takes no part
    in the conversation is always sent back. *)
Theorem loadConversation_other_party (w : Backend.World) (n : nat) (user : User)
    (conversationId : string) (db : Backend.DB) :
  let db1 := Backend.interfere (w n) db in
  let o := run w n (Some (user_id user))
             (ChatScreen.loadConversation conversationId (Some user)) db in
  ((exists r1,
       trace o = [Requested (Backend.SelectConversation conversationId) r1;
                  Did ChatScreen.RouterBack])
   \/ (exists c other r2 r3,
          trace o = [Requested (Backend.SelectConversation conversationId)
                               (Backend.ok c);
                     Did (ChatScreen.SetConversation c);
                     Requested (Backend.SelectProfile other) r2;
                     Did (ChatScreen.SetOtherProfile (Backend.data r2));
                     Requested (Backend.SelectPost (conv_post_id c)) r3;
                     Did (ChatScreen.SetPost (Backend.data r3))]
          /\ In c (Backend.bazaar_conversations db1)
          /\ conv_id c = conversationId
          /\ (user_id user = conv_buyer_id c \/ user_id user = conv_seller_id c)
          /\ (user_id user = conv_buyer_id c -> other = conv_seller_id c)
          /\ (user_id user <> conv_buyer_id c -> other = conv_buyer_id c)
          /\ (conv_buyer_id c <> conv_seller_id c -> other <> user_id user)))
  /\ (Backend.participant db1 (user_id user) conversationId = false ->
      trace o = [Requested (Backend.SelectConversation conversationId)
                           (Backend.failed Backend.not_a_single_row);
                 Did ChatScreen.RouterBack]
      \/ trace o = [Requested (Backend.SelectConversation conversationId)
                              (Backend.failed Backend.request_failed);
                    Did ChatScreen.RouterBack]).
Proof.
  cbv zeta. unfold ChatScreen.loadConversation.
  cbn [bind run trace].
  remember (Backend.serve (Some (user_id user)) (w n)
              (Backend.SelectConversation conversationId) db) as s eqn:Hs.
  unfold Backend.serve in Hs.
  destruct (negb (Backend.network_ok (w n))) eqn:Hnet; subst s.
  { cbn [fst snd Backend.failed Backend.error Backend.data run trace].
    split; [left; eexists; reflexivity|]. intros _. right. reflexivity. }
  split.
  - destruct (filter _ (Backend.bazaar_conversations (Backend.interfere (w n) db)))
      as [|c [|c' l]] eqn:Hrows;
      cbn [fst snd Backend.single Backend.failed Backend.ok Backend.error
             Backend.data run trace bind];
      try (left; eexists; reflexivity).
    right.
    assert (Hc : In c (filter (fun c0 =>
                  Backend.allowed (Backend.for_select Backend.conversation_policies)
                    (Some (user_id user)) c0
                  && (conv_id c0 =? conversationId)%string)
                (Backend.bazaar_conversations (Backend.interfere (w n) db))))
      by (rewrite Hrows; left; reflexivity).
    apply filter_In in Hc. destruct Hc as [Hin Hc].
    apply andb_true_iff in Hc. destruct Hc as [Hpol Hid].
    cbn [Backend.allowed Backend.for_select Backend.conversation_policies] in Hpol.
    apply String.eqb_eq in Hid.
    do 4 eexists. split; [reflexivity|].
    split; [exact Hin|]. split; [exact Hid|].
    unfold opt_user_is.
    split.
    { apply orb_true_iff in Hpol. destruct Hpol as [H|H];
        apply String.eqb_eq in H; [left|right]; exact H. }
    split.
    { intro Hb. rewrite <- Hb, String.eqb_refl. reflexivity. }
    split.
    { intro Hb. destruct (conv_buyer_id c =? user_id user)%string eqn:E;
        [apply String.eqb_eq in E; congruence | reflexivity]. }
    intro Hne. destruct (conv_buyer_id c =? user_id user)%string eqn:E.
    + apply String.eqb_eq in E. congruence.
    + apply String.eqb_neq in E. exact E.
  - intro Hstranger. unfold Backend.participant in Hstranger.
    rewrite (Opening.stranger_sees_no_conversation _ _ _ Hstranger).
    cbn [fst snd Backend.single Backend.failed Backend.error Backend.data run trace].
    left. reflexivity.
Qed.

(* ================================================================== *)
(** ** Pages of the grid *)
(* ================================================================== *)

Module Pages.

Import Backend BazaarScreenLoaders.

Lemma firstn_then_range {A} (a b : nat) (l : list A) :
  0 < b ->
  (firstn a l ++ Wider.range a (a + b - 1) l)%list = firstn (a + b) l.
Proof.
  intro Hb. unfold Wider.range. replace (S (a + b - 1)) with (a + b) by lia.
  rewrite <- (firstn_skipn a (firstn (a + b) l)) at 2.
  rewrite firstn_firstn. replace (Init.Nat.min a (a + b)) with a by lia.
  reflexivity.
Qed.

Lemma length_range {A} (a b : nat) (l : list A) :
  0 < b ->
  List.length (Wider.range a (a + b - 1) l) = Nat.min (a + b) (List.length l) - a.
Proof.
  intro Hb. unfold Wider.range. replace (S (a + b - 1)) with (a + b) by lia.
  rewrite length_skipn, length_firstn. reflexivity.
Qed.

(** A page that gets through, in a quiet world. *)
Lemma serve_quiet_page to_tsquery uid ids clock n st rows from_ to_ db :
  matching to_tsquery st = Some rows ->
  Wider.serve to_tsquery uid (quiet ids clock n)
    (Wider.SelectPosts (textSearch st) from_ to_) db
  = (db, Wider.ok (Wider.range from_ to_ (Wider.select_posts rows db))).
Proof.
  unfold matching, Wider.serve.
  cbn [quiet interfere network_ok negb].
  destruct (textSearch st) as [q|].
  - intros ->. reflexivity.
  - intro H. injection H as <-. reflexivity.
Qed.

(** The state [loadPosts] leaves when it passes its guards. *)
Lemma loadPosts_quiet to_tsquery uid ids clock n st rows pageNum shouldRefresh db :
  matching to_tsquery st = Some rows ->
  loading st && negb shouldRefresh = false ->
  negb (hasMore st) && negb shouldRefresh = false ->
  forall st',
    let data := Wider.range (pageNum * PAGE_SIZE) (pageNum * PAGE_SIZE + PAGE_SIZE - 1)
                  (Wider.select_posts rows db) in
    after (Wider.trace (Wider.run to_tsquery (quiet ids clock) n uid
                          (loadPosts st pageNum shouldRefresh) db)) st'
    = {| posts := if shouldRefresh then data else (posts st' ++ data)%list;
         hasMore := (List.length data =? PAGE_SIZE);
         page := if shouldRefresh then 0 else pageNum;
         searchQuery := searchQuery st';
         loading := false;
         refreshing := false;
         unreadCount := unreadCount st' |}.
Proof.
  intros Hrows Hg1 Hg2 st'. cbv zeta. unfold loadPosts. rewrite Hg1, Hg2.
  cbn [Wider.run Wider.trace].
  rewrite (serve_quiet_page to_tsquery uid ids clock n st rows _ _ db Hrows).
  cbn [fst snd Wider.ok Wider.error Wider.data].
  destruct shouldRefresh; reflexivity.
Qed.

Lemma matching_same to_tsquery st st0 :
  searchQuery st = searchQuery st0 ->
  matching to_tsquery st = matching to_tsquery st0.
Proof.
  intro H. unfold matching, textSearch. rewrite H. reflexivity.
Qed.

Lemma refreshed_paged to_tsquery ids clock uid db st0 rows :
  matching to_tsquery st0 = Some rows ->
  paged (Wider.select_posts rows db) (searchQuery st0) 0
        (refreshed to_tsquery ids clock uid db st0).
Proof.
  intro readable.
  unfold refreshed, onRefresh. cbn [Wider.run Wider.trace].
  unfold after. cbn [Wider.effects fold_left]. fold (after
    (Wider.trace (Wider.run to_tsquery (quiet ids clock) 0 uid (loadPosts st0 0 true) db))
    (apply (SetRefreshing true) st0)).
  rewrite (loadPosts_quiet to_tsquery uid ids clock 0 st0 rows 0 true db readable);
    [| now rewrite andb_false_r | now rewrite andb_false_r].
  cbv zeta. set (all := Wider.select_posts rows db).
  pose proof (length_range 0 PAGE_SIZE all) as Hlen.
  unfold paged, PAGE_SIZE in *. cbn [Nat.mul Nat.add] in *.
  specialize (Hlen ltac:(lia)).
  cbn [searchQuery loading refreshing posts hasMore page apply].
  split; [reflexivity|]. split; [reflexivity|]. split; [reflexivity|].
  split; [unfold Wider.range; cbn [skipn Nat.sub]; reflexivity|].
  split.
  - intro H. apply Nat.eqb_eq in H. rewrite Hlen in H. lia.
  - intro H. apply Nat.eqb_neq in H. rewrite Hlen in H. lia.
Qed.

Lemma scrolled_paged to_tsquery ids clock uid db st0 rows k st :
  matching to_tsquery st0 = Some rows ->
  paged (Wider.select_posts rows db) (searchQuery st0) k st ->
  paged (Wider.select_posts rows db) (searchQuery st0) (S k)
        (scrolled to_tsquery ids clock uid db st).
Proof.
  intros readable (Hq & Hl & Hr & Hp & Hmore & Hend).
  unfold scrolled, onLoadMore. rewrite Hl. cbn [negb andb].
  set (all := Wider.select_posts rows db) in *.
  destruct (hasMore st) eqn:Hh.
  - destruct (Hmore eq_refl) as [Hpage Hfull].
    assert (Hrows : matching to_tsquery st = Some rows)
      by (rewrite (matching_same to_tsquery st st0 Hq); exact readable).
    rewrite (loadPosts_quiet to_tsquery uid ids clock 0 st rows (page st + 1) false db
               Hrows);
      [| now rewrite Hl | now rewrite Hh].
    cbv zeta. fold all. rewrite Hpage.
    pose proof (length_range ((k + 1) * PAGE_SIZE) PAGE_SIZE all) as Hlen.
    pose proof (firstn_then_range ((k + 1) * PAGE_SIZE) PAGE_SIZE all) as Hcat.
    unfold paged, PAGE_SIZE in *.
    specialize (Hlen ltac:(lia)). specialize (Hcat ltac:(lia)).
    cbn [searchQuery loading refreshing posts hasMore page].
    split; [exact Hq|]. split; [reflexivity|]. split; [reflexivity|].
    split.
    { rewrite Hp. replace (10 * (k + 1)) with ((k + 1) * 10) by lia.
      rewrite Hcat. f_equal. lia. }
    split.
    + intro H. apply Nat.eqb_eq in H. rewrite Hlen in H. lia.
    + intro H. apply Nat.eqb_neq in H. rewrite Hlen in H. lia.
  - cbn [Wider.run Wider.trace]. unfold after. cbn [Wider.effects fold_left].
    specialize (Hend eq_refl). unfold paged, PAGE_SIZE in *.
    split; [exact Hq|]. split; [exact Hl|]. split; [exact Hr|].
    split.
    { rewrite Hp. rewrite !firstn_all2 by lia. reflexivity. }
    split.
    + rewrite Hh. discriminate.
    + intros _. lia.
Qed.

Lemma browsed_paged to_tsquery ids clock uid db st0 rows k :
  matching to_tsquery st0 = Some rows ->
  paged (Wider.select_posts rows db) (searchQuery st0) k
        (Nat.iter k (scrolled to_tsquery ids clock uid db)
                  (refreshed to_tsquery ids clock uid db st0)).
Proof.
  intro readable. induction k as [|k IH]; [now apply refreshed_paged|].
  cbn [Nat.iter nat_rect]. apply scrolled_paged; assumption.
Qed.

End Pages.

Module Newest.

Import Backend.

Lemma ltb_false_trans a b c :
  (a <? b)%string = false -> (b <? c)%string = false -> (a <? c)%string = false.
Proof.
  intros Hab Hbc. destruct (a <? c)%string eqn:Hac; [|reflexivity].
  exfalso. apply Thread.ltb_lt in Hac.
  destruct (Thread.ltb_false_flip _ _ Hab) as [H1|H1];
    destruct (Thread.ltb_false_flip _ _ Hbc) as [H2|H2].
  - apply Thread.ltb_lt in H1, H2.
    pose proof (String_as_OT.lt_trans _ _ _ H2 (String_as_OT.lt_trans _ _ _ H1 Hac)) as F.
    exact (String_as_OT.lt_not_eq _ _ F eq_refl).
  - apply Thread.ltb_lt in H1. rewrite <- H2 in Hac.
    pose proof (String_as_OT.lt_trans _ _ _ H1 Hac) as F.
    exact (String_as_OT.lt_not_eq _ _ F eq_refl).
  - apply Thread.ltb_lt in H2. rewrite H1 in Hac.
    pose proof (String_as_OT.lt_trans _ _ _ H2 Hac) as F.
    exact (String_as_OT.lt_not_eq _ _ F eq_refl).
  - rewrite H1, H2 in Hac. exact (String_as_OT.lt_not_eq _ _ Hac eq_refl).
Qed.

Lemma insert_newest_first_perm p l :
  Permutation (Wider.insert_newest_first p l) (p :: l).
Proof.
  induction l as [|x l IH]; [apply Permutation_refl|]. cbn.
  destruct (post_created_at p <? post_created_at x)%string.
  - eapply Permutation_trans; [apply perm_skip; exact IH|]. apply perm_swap.
  - apply Permutation_refl.
Qed.

Lemma newest_first_perm l : Permutation (Wider.newest_first l) l.
Proof.
  induction l as [|x l IH]; [apply Permutation_refl|]. cbn.
  eapply Permutation_trans; [apply insert_newest_first_perm|].
  apply perm_skip. exact IH.
Qed.

Lemma insert_newest_first_sorted p l :
  StronglySorted (fun a b => (post_created_at a <? post_created_at b)%string = false) l ->
  StronglySorted (fun a b => (post_created_at a <? post_created_at b)%string = false)
                 (Wider.insert_newest_first p l).
Proof.
  induction 1 as [|x l Hs IH Hx]; cbn.
  - constructor; constructor.
  - destruct (post_created_at p <? post_created_at x)%string eqn:E.
    + constructor; [exact IH|].
      apply Forall_forall. intros y Hy.
      apply (Permutation_in _ (insert_newest_first_perm p l)) in Hy.
      destruct Hy as [<-|Hy].
      * destruct (post_created_at x <? post_created_at p)%string eqn:F; [|reflexivity].
        exfalso. apply Thread.ltb_lt in E, F.
        exact (String_as_OT.lt_not_eq _ _ (String_as_OT.lt_trans _ _ _ E F) eq_refl).
      * rewrite Forall_forall in Hx. now apply Hx.
    + constructor; [now constructor|].
      constructor; [exact E|].
      apply Forall_forall. intros y Hy. rewrite Forall_forall in Hx.
      exact (ltb_false_trans _ _ _ E (Hx y Hy)).
Qed.

Lemma newest_first_sorted l :
  StronglySorted (fun a b => (post_created_at a <? post_created_at b)%string = false)
                 (Wider.newest_first l).
Proof.
  induction l as [|x l IH]; [constructor|]. cbn.
  apply insert_newest_first_sorted. exact IH.
Qed.

End Newest.

(** X21.  Pages of the grid.  In a quiet world, with the search text one
    the server can read (or blank), after a pull to refresh and [k]
    scrolls to the end of the list, each run to its end, the grid holds
    the first 10 (k + 1) of the listings searched for, newest first, each
    once and in the order of the table's [created_at]; no load is left
    pending.  While more is expected the page number is [k].  Once a page
    comes back short the grid holds every listing searched for, and a
    further scroll sends no request. *)
Theorem onLoadMore_pages (to_tsquery : string -> option (BazaarPost -> bool))
    (ids clock : nat -> string) (uid : option string) (db : Backend.DB)
    (st0 : BazaarScreenLoaders.State) (rows : BazaarPost -> bool) (k : nat) :
  BazaarScreenLoaders.matching to_tsquery st0 = Some rows ->
  let all := Wider.select_posts rows db in
  let st := Nat.iter k (BazaarScreenLoaders.scrolled to_tsquery ids clock uid db)
              (BazaarScreenLoaders.refreshed to_tsquery ids clock uid db st0) in
  BazaarScreenLoaders.posts st = firstn (10 * (k + 1)) all
  /\ Permutation all (filter rows (Backend.bazaar_posts db))
  /\ StronglySorted
       (fun a b => (post_created_at a <? post_created_at b)%string = false) all
  /\ BazaarScreenLoaders.loading st = false
  /\ BazaarScreenLoaders.refreshing st = false
  /\ (BazaarScreenLoaders.hasMore st = true -> BazaarScreenLoaders.page st = k)
  /\ (BazaarScreenLoaders.hasMore st = false ->
      BazaarScreenLoaders.posts st = all
      /\ Wider.requested
           (Wider.trace
              (Wider.run to_tsquery (quiet ids clock) 0 uid
                 (BazaarScreenLoaders.onLoadMore st) db)) = 0).
Proof.
  intros readable all st.
  pose proof (Pages.browsed_paged to_tsquery ids clock uid db st0 rows k readable)
    as (Hq & Hl & Hr & Hp & Hmore & Hend).
  fold all in Hp, Hmore, Hend. fold st in Hq, Hl, Hr, Hp, Hmore, Hend.
  unfold BazaarScreenLoaders.PAGE_SIZE in *.
  split; [exact Hp|].
  split; [apply Newest.newest_first_perm|].
  split; [apply Newest.newest_first_sorted|].
  split; [exact Hl|]. split; [exact Hr|].
  split; [intro H; exact (proj1 (Hmore H))|].
  intro H. split.
  - rewrite Hp. apply firstn_all2. specialize (Hend H). lia.
  - unfold BazaarScreenLoaders.onLoadMore. rewrite H, andb_false_r. reflexivity.
Qed.

Lemma onLoadMore_pages_witness :
  BazaarScreenLoaders.posts
    (Nat.iter 1
       (BazaarScreenLoaders.scrolled (fun _ => None) Sample.ids Sample.clock None
          Sample.listed)
       (BazaarScreenLoaders.refreshed (fun _ => None) Sample.ids Sample.clock None
          Sample.listed BazaarScreenLoaders.initial))
  = firstn (10 * (1 + 1)) (Wider.select_posts (fun _ => true) Sample.listed).
Proof.
  exact (proj1 (onLoadMore_pages (fun _ => None) Sample.ids Sample.clock None
                  Sample.listed BazaarScreenLoaders.initial (fun _ => true) 1
                  eq_refl)).
Defined.

(** X22.  A refresh always settles.  In any world, [onRefresh] sends one
    request and leaves neither [loading] nor [refreshing] set.  Either
    the request got through, and the grid then holds the page it
    brought, at most ten listings, as page 0 and expects more exactly
    when there were ten; or it did not get through, and the listings,
    the page number and [hasMore] are as before, and the alert "Unable
    to load posts" carries the error's message.  While [loading] is set,
    as it is when the screen mounts, [loadPosts] without the refresh
    flag and [onLoadMore] send nothing and set nothing. *)
Theorem onRefresh_settles (to_tsquery : string -> option (BazaarPost -> bool))
    (w : Backend.World) (n : nat) (uid : option string) (db : Backend.DB)
    (st : BazaarScreenLoaders.State) :
  let o := Wider.run to_tsquery w n uid (BazaarScreenLoaders.onRefresh st) db in
  let st' := BazaarScreenLoaders.after (Wider.trace o) st in
  Wider.requested (Wider.trace o) = 1
  /\ BazaarScreenLoaders.loading st' = false
  /\ BazaarScreenLoaders.refreshing st' = false
  /\ BazaarScreenLoaders.searchQuery st' = BazaarScreenLoaders.searchQuery st
  /\ ((BazaarScreenLoaders.page st' = 0
       /\ List.length (BazaarScreenLoaders.posts st') <= 10
       /\ BazaarScreenLoaders.hasMore st'
          = (List.length (BazaarScreenLoaders.posts st') =? 10)
       /\ forall title message,
            ~ In (BazaarScreenLoaders.AlertAlert title message)
                 (Wider.effects (Wider.trace o)))
      \/ (BazaarScreenLoaders.posts st' = BazaarScreenLoaders.posts st
          /\ BazaarScreenLoaders.page st' = BazaarScreenLoaders.page st
          /\ BazaarScreenLoaders.hasMore st' = BazaarScreenLoaders.hasMore st
          /\ exists e,
               In (BazaarScreenLoaders.AlertAlert "Unable to load posts"
                     (Wider.message e))
                  (Wider.effects (Wider.trace o))))
  /\ (BazaarScreenLoaders.loading st = true ->
      forall pageNum,
        Wider.trace (Wider.run to_tsquery w n uid
                       (BazaarScreenLoaders.loadPosts st pageNum false) db) = []
        /\ Wider.trace (Wider.run to_tsquery w n uid
                          (BazaarScreenLoaders.onLoadMore st) db) = []).
Proof.
  cbv zeta. unfold BazaarScreenLoaders.onRefresh, BazaarScreenLoaders.loadPosts.
  rewrite !andb_false_r.
  cbn [Wider.run Wider.trace Wider.requested Wider.effects].
  remember (Wider.serve to_tsquery uid (w n)
              (Wider.SelectPosts (BazaarScreenLoaders.textSearch st)
                 (0 * BazaarScreenLoaders.PAGE_SIZE)
                 (0 * BazaarScreenLoaders.PAGE_SIZE + BazaarScreenLoaders.PAGE_SIZE - 1))
              db) as served eqn:Hs.
  assert (Hserved :
            (exists e, snd served = Wider.failed e)
            \/ (exists data, snd served = Wider.ok data /\ List.length data <= 10)).
  { subst served. unfold Wider.serve.
    destruct (negb (Backend.network_ok (w n))); [left; eexists; reflexivity|].
    destruct (BazaarScreenLoaders.textSearch st) as [q|];
      [destruct (to_tsquery q) as [rows|]; [|left; eexists; reflexivity]|];
      right; eexists; (split; [reflexivity|]);
      unfold BazaarScreenLoaders.PAGE_SIZE; cbn [Nat.mul Nat.add];
      rewrite (Pages.length_range 0 10) by lia; lia. }
  split.
  { destruct Hserved as [(e & ->)|(data & -> & _)];
      cbn [Wider.failed Wider.ok Wider.error Wider.data Wider.run Wider.trace
             Wider.requested]; reflexivity. }
  destruct Hserved as [(e & ->)|(data & -> & Hlen)];
    cbn [Wider.failed Wider.ok Wider.error Wider.data Wider.run Wider.trace
           Wider.effects];
    unfold BazaarScreenLoaders.after;
    cbn [Wider.effects fold_left BazaarScreenLoaders.apply
           BazaarScreenLoaders.loading BazaarScreenLoaders.refreshing
           BazaarScreenLoaders.searchQuery BazaarScreenLoaders.page
           BazaarScreenLoaders.posts BazaarScreenLoaders.hasMore].
  - split; [reflexivity|]. split; [reflexivity|]. split; [reflexivity|].
    split.
    + right. split; [reflexivity|]. split; [reflexivity|]. split; [reflexivity|].
      exists e. do 4 right. left. reflexivity.
    + intros Hl pageNum. rewrite Hl. split; [reflexivity|].
      unfold BazaarScreenLoaders.onLoadMore. rewrite Hl. reflexivity.
  - split; [reflexivity|]. split; [reflexivity|]. split; [reflexivity|].
    split.
    + left. split; [reflexivity|]. split; [exact Hlen|]. split; [reflexivity|].
      intros title message [F|[F|[F|[F|[F|[F|[F|[]]]]]]]]; discriminate F.
    + intros Hl pageNum. rewrite Hl. split; [reflexivity|].
      unfold BazaarScreenLoaders.onLoadMore. rewrite Hl. reflexivity.
Qed.

(* ================================================================== *)
(** ** The unread badge of the grid *)
(* ================================================================== *)

Module Badge.

Import Backend BazaarScreenLoaders.

Lemma length_filter_or {A} (a b : A -> bool) (l : list A) :
  (forall x, In x l -> a x = true -> b x = true -> False) ->
  List.length (filter (fun x => a x || b x) l)
  = List.length (filter a l) + List.length (filter b l).
Proof.
  induction l as [|x l IH]; [reflexivity|]. intro Hd. cbn [filter].
  assert (IH' := IH (fun y Hy => Hd y (or_intror Hy))).
  specialize (Hd x (or_introl eq_refl)).
  destruct (a x), (b x); cbn [orb List.length]; rewrite IH'; try lia.
  all: exfalso; now apply Hd.
Qed.

Lemma unread_inbound_in_cons id ids u m :
  Wider.unread_inbound_in (id :: ids) u m
  = unread_inbound id u m || Wider.unread_inbound_in ids u m.
Proof.
  unfold Wider.unread_inbound_in, unread_inbound. cbn [existsb].
  destruct (msg_conversation_id m =? id)%string, (msg_is_read m),
    (msg_sender_id m =? u)%string,
    (existsb (String.eqb (msg_conversation_id m)) ids); reflexivity.
Qed.

(** A count over several conversations is the sum of the counts over
    each, when no identifier is listed twice. *)
Lemma count_in_sum (ids : list string) (u : string) (l : list BazaarMessage) :
  NoDup ids ->
  List.length (filter (Wider.unread_inbound_in ids u) l)
  = list_sum (map (fun id => List.length (filter (unread_inbound id u) l)) ids).
Proof.
  induction 1 as [|id ids Hnot Hnd IH].
  - cbn [map list_sum]. induction l as [|m l IHl]; [reflexivity|].
    cbn [filter]. unfold Wider.unread_inbound_in at 1. cbn [existsb andb]. exact IHl.
  - unfold list_sum in *. cbn [map fold_right]. rewrite <- IH.
    rewrite (filter_ext _ (fun m => unread_inbound id u m
                                    || Wider.unread_inbound_in ids u m))
      by (intro m; apply unread_inbound_in_cons).
    apply length_filter_or.
    intros m _ Ha Hb. apply Hnot.
    unfold unread_inbound in Ha. unfold Wider.unread_inbound_in in Hb.
    apply andb_true_iff in Ha. destruct Ha as [Ha _].
    apply andb_true_iff in Ha. destruct Ha as [Ha _].
    apply andb_true_iff in Hb. destruct Hb as [Hb _].
    apply andb_true_iff in Hb. destruct Hb as [Hb _].
    apply String.eqb_eq in Ha. apply existsb_exists in Hb.
    destruct Hb as (x & Hin & Hx). apply String.eqb_eq in Hx. congruence.
Qed.

(** The identifiers of the rows a user takes part in are distinct when
    the identifiers of the table are. *)
Lemma own_ids_distinct (u : string) (rows : list BazaarConversation) :
  NoDup (map conv_id rows) ->
  NoDup (map conv_id (filter (Wider.takes_part u) rows)).
Proof.
  intro Hpk. induction rows as [|c rows IH]; cbn [filter map]; [constructor|].
  apply NoDup_cons_iff in Hpk. destruct Hpk as [Hfresh Hrest].
  destruct (Wider.takes_part u c); [|exact (IH Hrest)].
  cbn [map]. apply NoDup_cons; [|exact (IH Hrest)].
  intro Hin. apply Hfresh. apply in_map_iff in Hin.
  destruct Hin as (c' & Hid & Hc'). apply filter_In in Hc'.
  apply in_map_iff. exists c'. split; [exact Hid|exact (proj1 Hc')].
Qed.

(** Under the policy for SELECT, the caller's own filter selects the rows
    the caller takes part in. *)
Lemma own_conversations uid (l : list BazaarConversation) :
  filter (fun c => allowed (for_select conversation_policies) (Some uid) c
                   && Wider.takes_part uid c) l
  = filter (Wider.takes_part uid) l.
Proof.
  apply filter_ext. intro c.
  cbn [allowed for_select conversation_policies]. unfold Wider.takes_part.
  rewrite (String.eqb_sym uid (conv_buyer_id c)), (String.eqb_sym uid (conv_seller_id c)).
  apply andb_diag.
Qed.

End Badge.

(** X23.  The unread badge of the grid.  With no identifier of a
    conversation held twice, in a quiet world, [loadUnreadCount] sets
    the badge to the sum, over the conversations the user takes part in,
    of the unread count the inbox shows for each; the tables are not
    written.  Signed out, it sets 0 without a request; when its first
    request is lost it sets 0 as well. *)
Theorem loadUnreadCount_badge (to_tsquery : string -> option (BazaarPost -> bool))
    (ids clock : nat -> string) (n : nat) (user : User) (db : Backend.DB)
    (st : BazaarScreenLoaders.State) :
  NoDup (map conv_id (Backend.bazaar_conversations db)) ->
  let uid := user_id user in
  let o := Wider.run to_tsquery (quiet ids clock) n (Some uid)
             (BazaarScreenLoaders.loadUnreadCount (Some user)) db in
  let mine := filter (Wider.takes_part uid) (Backend.bazaar_conversations db) in
  BazaarScreenLoaders.unreadCount (BazaarScreenLoaders.after (Wider.trace o) st)
  = list_sum (map (fun c => Backend.count_unread (Some uid) (conv_id c) uid db) mine)
  /\ Wider.final o = db
  /\ (forall w : Backend.World,
        Wider.trace (Wider.run to_tsquery w n None
                       (BazaarScreenLoaders.loadUnreadCount None) db)
        = [Wider.Did (BazaarScreenLoaders.SetUnreadCount 0)])
  /\ (forall w : Backend.World,
        Backend.network_ok (w n) = false ->
        BazaarScreenLoaders.unreadCount
          (BazaarScreenLoaders.after
             (Wider.trace (Wider.run to_tsquery w n (Some uid)
                             (BazaarScreenLoaders.loadUnreadCount (Some user)) db))
             st) = 0).
Proof.
  intros Hpk uid o mine. subst o.
  split; [|split; [|split]].
  - unfold BazaarScreenLoaders.loadUnreadCount.
    cbn [Wider.run Wider.trace Wider.serve quiet Backend.interfere Backend.network_ok
           negb fst snd Wider.ok Wider.data].
    fold uid. rewrite Badge.own_conversations. fold mine.
    destruct mine as [|c0 rest] eqn:Hmine; [reflexivity|].
    cbn [map]. rewrite map_id.
    cbn [Wider.run Wider.trace Wider.serve quiet Backend.interfere Backend.network_ok
           negb fst snd Wider.ok Wider.data].
    unfold BazaarScreenLoaders.after.
    cbn [Wider.effects fold_left BazaarScreenLoaders.apply
           BazaarScreenLoaders.unreadCount].
    change (conv_id c0 :: map conv_id rest) with (map conv_id (c0 :: rest)).
    rewrite Badge.count_in_sum.
    + rewrite map_map. reflexivity.
    + rewrite <- Hmine. apply Badge.own_ids_distinct. exact Hpk.
  - unfold BazaarScreenLoaders.loadUnreadCount.
    cbn [Wider.run Wider.final Wider.serve quiet Backend.interfere Backend.network_ok
           negb fst snd Wider.ok Wider.data].
    destruct (map conv_id (filter _ _)) as [|i l]; [reflexivity|].
    cbn [Wider.run Wider.final Wider.serve quiet Backend.interfere Backend.network_ok
           negb fst snd Wider.ok Wider.data]. reflexivity.
  - intro w. reflexivity.
  - intros w Hnet. unfold BazaarScreenLoaders.loadUnreadCount.
    cbn [Wider.run Wider.trace Wider.serve]. rewrite Hnet. reflexivity.
Qed.

Lemma loadUnreadCount_badge_witness :
  BazaarScreenLoaders.unreadCount
    (BazaarScreenLoaders.after
       (Wider.trace
          (Wider.run (fun _ => None) (quiet Sample.ids Sample.clock) 0
             (Some "u-amina")
             (BazaarScreenLoaders.loadUnreadCount (Some Sample.amina))
             Sample.chatting))
       BazaarScreenLoaders.initial)
  = list_sum
      (map (fun c => Backend.count_unread (Some "u-amina") (conv_id c) "u-amina"
                       Sample.chatting)
           (filter (Wider.takes_part "u-amina")
                   (Backend.bazaar_conversations Sample.chatting))).
Proof.
  refine (proj1 (loadUnreadCount_badge (fun _ => None) Sample.ids Sample.clock 0
                   Sample.amina Sample.chatting BazaarScreenLoaders.initial _)).
  cbn. constructor; [intros []|constructor].
Defined.

(* ================================================================== *)
(** ** Reopening the rating screen *)
(* ================================================================== *)

Module Prefill.

Import Backend RateSellerScreenLoader.




End Prefill.



(* ================================================================== *)
(** ** Reloading a listing *)
(* ================================================================== *)

Module Reload.

Import Backend BazaarDetailScreenLoader.

Lemma filter_update_where_sold id t (l : list BazaarPost) :
  filter (fun x => (post_id_ x =? id)%string)
         (update_where (fun x => (post_id_ x =? id)%string) (set_sold t) l)
  = map (set_sold t) (filter (fun x => (post_id_ x =? id)%string) l).
Proof.
  unfold update_where. induction l as [|x l IH]; [reflexivity|].
  cbn [map filter]. destruct (post_id_ x =? id)%string eqn:E.
  - cbn [post_id_ set_sold]. rewrite E. cbn [map]. now rewrite IH.
  - rewrite E. exact IH.
Qed.

(** However its requests are answered, [loadPost] ends with neither flag
    set. *)
Lemma loadPost_settles w n uid id db st :
  let s := after (trace (run w n uid (loadPost id) db)) st in
  loading s = false /\ refreshing s = false.
Proof.
  cbv zeta. unfold loadPost. cbn [run trace after apply].
  destruct (error (snd (serve uid (w n) (SelectPost id) db))) as [e|];
    [cbn [run trace after apply loading refreshing]; split; reflexivity|].
  cbn [run trace after apply].
  destruct (data (snd (serve uid (w n) (SelectPost id) db))) as [d|];
    [destruct (JS.truthy (post_user_id d))|];
    cbn [run trace after apply loading refreshing]; split; reflexivity.
Qed.

(** The post [loadPost] shows, in a quiet world, when the table holds
    the identifier once. *)
Lemma loadPost_quiet ids clock n uid id p db st :
  filter (fun x => (post_id_ x =? id)%string) (bazaar_posts db) = [p] ->
  post (after (trace (run (quiet ids clock) n uid (loadPost id) db)) st) = Some p.
Proof.
  intro Hp. unfold loadPost.
  cbn [run trace after apply serve quiet interfere network_ok negb fst snd].
  rewrite Hp. cbn [single ok error data run trace after apply].
  destruct (JS.truthy (post_user_id p));
    cbn [run trace after apply post]; reflexivity.
Qed.

End Reload.

(** X25.  Reloading a listing marked as sold.  With the listing held
    once and nothing else writing, after the "Mark as Sold" press the
    screen's own copy is the listing sold at the second clock reading,
    while [loadPost] then shows the row of the table: the listing sold at
    the first reading.  The two agree exactly when the readings do.  In
    any world [loadPost] ends with neither [loading] nor [refreshing]
    set. *)
Theorem loadPost_after_handleMarkAsSold (ids clock : nat -> string) (n : nat)
    (uid : option string) (t1 t2 : string) (p : BazaarPost) (db : Backend.DB)
    (st : BazaarDetailScreenLoader.State) :
  filter (fun x => (post_id_ x =? post_id_ p)%string) (Backend.bazaar_posts db) = [p] ->
  let o := run (quiet ids clock) n uid
             (BazaarDetailScreen.handleMarkAsSold_onPress t1 t2 p) db in
  let reloaded :=
    BazaarDetailScreenLoader.after
      (trace (run (quiet ids clock) (S n) uid
                (BazaarDetailScreenLoader.loadPost (post_id_ p)) (final o))) st in
  In (Did (BazaarDetailScreen.SetPost (Backend.set_sold t2 p))) (trace o)
  /\ BazaarDetailScreenLoader.post reloaded = Some (Backend.set_sold t1 p)
  /\ (BazaarDetailScreenLoader.post reloaded = Some (Backend.set_sold t2 p)
      <-> t1 = t2)
  /\ forall (w : Backend.World) (m : nat) (d : Backend.DB),
       let s := BazaarDetailScreenLoader.after
                  (trace (run w m uid
                            (BazaarDetailScreenLoader.loadPost (post_id_ p)) d)) st in
       BazaarDetailScreenLoader.loading s = false
       /\ BazaarDetailScreenLoader.refreshing s = false.
Proof.
  intros Hp o reloaded.
  assert (Ho : o = {| result := tt;
                      final := Backend.with_posts
                                 (Backend.update_where
                                    (fun x => (post_id_ x =? post_id_ p)%string)
                                    (Backend.set_sold t1) (Backend.bazaar_posts db))
                                 db;
                      trace := [Requested (Backend.UpdatePostSold (post_id_ p) t1)
                                          Backend.done;
                                Did (BazaarDetailScreen.SetPost (Backend.set_sold t2 p));
                                Did (BazaarDetailScreen.AlertAlert "Success"
                                       "Your listing has been marked as sold!")];
                      turns := S n |}) by reflexivity.
  assert (Hre : BazaarDetailScreenLoader.post reloaded = Some (Backend.set_sold t1 p)).
  { subst reloaded. apply Reload.loadPost_quiet. rewrite Ho.
    cbn [final Backend.bazaar_posts Backend.with_posts].
    rewrite Reload.filter_update_where_sold, Hp. reflexivity. }
  split; [rewrite Ho; right; left; reflexivity|].
  split; [exact Hre|].
  split.
  - rewrite Hre. split.
    + intro H. injection H as H. exact H.
    + intros ->. reflexivity.
  - intros w m d. apply Reload.loadPost_settles.
Qed.

Lemma loadPost_after_handleMarkAsSold_witness :
  BazaarDetailScreenLoader.post
    (BazaarDetailScreenLoader.after
       (trace (run (quiet Sample.ids Sample.clock) 1 (Some "u-bilal")
                 (BazaarDetailScreenLoader.loadPost "p-lamp")
                 (final (run (quiet Sample.ids Sample.clock) 0 (Some "u-bilal")
                           (BazaarDetailScreen.handleMarkAsSold_onPress
                              "2025-03-01T10:00:00.000Z" "2025-03-01T10:00:00.001Z"
                              (Sample.lamp active None))
                           Sample.listed))))
       BazaarDetailScreenLoader.initial)
  = Some (Backend.set_sold "2025-03-01T10:00:00.000Z" (Sample.lamp active None)).
Proof.
  refine (proj1 (proj2
            (loadPost_after_handleMarkAsSold Sample.ids Sample.clock 0
               (Some "u-bilal") "2025-03-01T10:00:00.000Z" "2025-03-01T10:00:00.001Z"
               (Sample.lamp active None) Sample.listed
               BazaarDetailScreenLoader.initial _))).
  reflexivity.
Defined.

(* ================================================================== *)
(** ** A message arriving in an open thread *)
(* ================================================================== *)

Module Arrival.

Import Backend ChatScreen.

Lemma participant_sent row l db uid c :
  participant (update_conversation_timestamp row (with_messages l db)) uid c
  = participant db uid c.
Proof.
  rewrite Thread.participant_update_conversation_timestamp. reflexivity.
Qed.

(** The unread count, by the rows of the table, for tables that agree
    with [db] on who takes part in what. *)
Lemma count_unread_by_rows db d v c :
  (forall u c', participant d u c' = participant db u c') ->
  count_unread (Some v) c v d
  = List.length
      (filter (unread_inbound c v)
         (filter (fun m => participant db v (msg_conversation_id m))
                 (bazaar_messages d))).
Proof.
  intro Hsame. unfold count_unread, visible_messages. f_equal. f_equal.
  apply filter_ext. intro m. cbn [allowed for_select message_policies].
  apply Hsame.
Qed.

Lemma update_where_fresh (P : BazaarMessage -> bool) id (l : list BazaarMessage) :
  (forall m, In m l -> msg_id m <> id) ->
  update_where (fun m => P m && (msg_id m =? id)%string) set_is_read l = l.
Proof.
  intro Hfresh. apply ListingRows.update_where_none.
  induction l as [|x l IH]; [reflexivity|]. cbn [existsb].
  rewrite IH by (intros m Hm; apply Hfresh; now right).
  destruct (String.eqb_spec (msg_id x) id) as [E|E].
  - exfalso. apply (Hfresh x); [now left|exact E].
  - rewrite andb_false_r. reflexivity.
Qed.

End Arrival.

(** X26.  A message arriving in an open thread.  Both users take part in
    the conversation, nothing else writes and the identifier is fresh.
    When one sends a message, the other's unread count for the
    conversation goes up by one; when the INSERT event then reaches the
    other's open thread, [on_insert] marks that row as read and the count
    is back where it was, the rows of the table being the earlier ones
    followed by the new row, read.  The same event on the sender's own
    screen sends no request. *)
Theorem on_insert_keeps_thread_read (ids clock : nat -> string) (n : nat)
    (c : string) (sender viewer : User) (st : ChatScreen.State) (db : Backend.DB) :
  Backend.participant db (user_id sender) c = true ->
  Backend.participant db (user_id viewer) c = true ->
  user_id sender <> user_id viewer ->
  (forall m, In m (Backend.bazaar_messages db) -> msg_id m <> ids n) ->
  JS.trim (ChatScreen.newMessage st) <> "" ->
  ChatScreen.sending st = false ->
  let w := quiet ids clock in
  let row := Backend.sent_row (ids n) c (user_id sender)
               (JS.trim (ChatScreen.newMessage st)) (clock n) in
  let sent := run w n (Some (user_id sender))
                (ChatScreen.sendMessage c (Some sender) st) db in
  let received := run w (S n) (Some (user_id viewer))
                    (ChatScreen.on_insert viewer row) (final sent) in
  let unread d := Backend.count_unread (Some (user_id viewer)) c (user_id viewer) d in
  unread (final sent) = S (unread db)
  /\ Backend.bazaar_messages (final received)
     = (Backend.bazaar_messages db ++ [Backend.set_is_read row])%list
  /\ unread (final received) = unread db
  /\ trace (run w (S n) (Some (user_id sender))
              (ChatScreen.on_insert sender row) (final sent))
     = [Did (ChatScreen.SetMessagesFn (fun prev => (prev ++ [row])%list))].
Proof.
  intros Hs Hv Hne Hfresh Hdraft Hsending w row sent received unread.
  set (db1 := Backend.update_conversation_timestamp row
                (Backend.with_messages (Backend.bazaar_messages db ++ [row])%list db)).
  assert (Hsent : final sent = db1).
  { subst sent w. rewrite (ThreadRuns.run_sendMessage _ n c sender st db Hdraft Hsending).
    cbv zeta. rewrite (Thread.serve_quiet_send ids clock n c _ _ db Hs Hfresh).
    reflexivity. }
  assert (Hsame1 : forall u c', Backend.participant db1 u c' = Backend.participant db u c')
    by (intros u c'; apply Arrival.participant_sent).
  assert (Hrow_unread : Backend.unread_inbound c (user_id viewer) row = true).
  { unfold Backend.unread_inbound, row. cbn [Backend.sent_row msg_conversation_id
      msg_sender_id msg_is_read]. rewrite String.eqb_refl.
    destruct (String.eqb_spec (user_id sender) (user_id viewer)) as [E|E];
      [contradiction|reflexivity]. }
  assert (Hreceived : Backend.bazaar_messages (final received)
                      = (Backend.bazaar_messages db ++ [Backend.set_is_read row])%list
                      /\ forall u c', Backend.participant (final received) u c'
                                      = Backend.participant db u c').
  { subst received. rewrite Hsent. unfold ChatScreen.on_insert.
    replace (msg_sender_id row =? user_id viewer)%string with false
      by (symmetry; apply String.eqb_neq; exact Hne).
    cbn [negb]. unfold ChatScreen.markMessageAsRead.
    cbn [run final Backend.serve w quiet Backend.interfere Backend.network_ok negb
           fst snd].
    split.
    - cbn [Backend.bazaar_messages Backend.with_messages db1
             Backend.update_conversation_timestamp Backend.with_conversations].
      unfold Backend.update_where at 1. rewrite map_app.
      fold (Backend.update_where
              (fun m => Backend.allowed (Backend.for_select (Backend.message_policies db1))
                          (Some (user_id viewer)) m
                        && Backend.allowed (Backend.for_update (Backend.message_policies db1))
                             (Some (user_id viewer)) m
                        && (msg_id m =? msg_id row)%string)
              Backend.set_is_read (Backend.bazaar_messages db)).
      rewrite (Arrival.update_where_fresh _ (msg_id row) _ Hfresh).
      f_equal. cbn [map].
      cbn [Backend.allowed Backend.for_select Backend.for_update
             Backend.message_policies].
      rewrite Hsame1. cbn [row Backend.sent_row msg_conversation_id msg_id].
      rewrite Hv, String.eqb_refl. reflexivity.
    - intros u c'. rewrite <- Hsame1. reflexivity. }
  destruct Hreceived as [Hrows Hsame2].
  split; [|split; [exact Hrows|split]].
  - subst unread. cbv beta. rewrite Hsent.
    rewrite (Arrival.count_unread_by_rows db db1 _ _ Hsame1).
    rewrite (Arrival.count_unread_by_rows db db _ _ (fun _ _ => eq_refl)).
    cbn [Backend.bazaar_messages db1 Backend.update_conversation_timestamp
           Backend.with_conversations Backend.with_messages].
    rewrite !filter_app, length_app.
    cbn [filter row Backend.sent_row msg_conversation_id]. rewrite Hv.
    cbn [filter]. fold row. rewrite Hrow_unread. cbn [List.length]. lia.
  - subst unread. cbv beta.
    rewrite (Arrival.count_unread_by_rows db (final received) _ _ Hsame2).
    rewrite (Arrival.count_unread_by_rows db db _ _ (fun _ _ => eq_refl)).
    rewrite Hrows. rewrite !filter_app, length_app.
    cbn [filter row Backend.sent_row Backend.set_is_read msg_conversation_id].
    rewrite Hv. cbn [filter].
    unfold Backend.unread_inbound at 2. cbn [msg_is_read negb].
    rewrite andb_false_r. cbn [List.length]. lia.
  - rewrite Hsent. unfold ChatScreen.on_insert.
    cbn [row Backend.sent_row msg_sender_id]. rewrite String.eqb_refl. reflexivity.
Qed.

Lemma on_insert_keeps_thread_read_witness :
  Backend.count_unread (Some "u-amina") "c-1" "u-amina"
    (final (run (quiet Sample.ids Sample.clock) 1 (Some "u-amina")
              (ChatScreen.on_insert Sample.amina
                 (Backend.sent_row "id-0" "c-1" "u-bilal" "Still there?"
                    "2025-03-01T00:00:00.000Z"))
              (final (run (quiet Sample.ids Sample.clock) 0 (Some "u-bilal")
                        (ChatScreen.sendMessage "c-1" (Some Sample.bilal)
                           (Sample.drafting " Still there? " false))
                        Sample.chatting))))
  = Backend.count_unread (Some "u-amina") "c-1" "u-amina" Sample.chatting.
Proof.
  refine (proj1 (proj2 (proj2
            (on_insert_keeps_thread_read Sample.ids Sample.clock 0 "c-1"
               Sample.bilal Sample.amina (Sample.drafting " Still there? " false)
               Sample.chatting _ _ _ _ _ _)))).
  - reflexivity.
  - reflexivity.
  - discriminate.
  - intros m [<-|[<-|[<-|[]]]]; discriminate.
  - vm_compute. discriminate.
  - reflexivity.
Defined.
